(** * The AzureKeyVaultSecret controller: event dispatch and the two reconcilers

    A shallow embedding of
    [cmd/azure-keyvault-controller/controller/azureKeyVaultSecret.go].

    The Go code runs against a cluster: an informer cache of declaring
    resources, native secrets and config maps, two rate limited work queues,
    an event recorder, a logger and a clock.  All of that is gathered in one
    record, [World], and every Go function becomes a function in a small
    monad over it.  The monad has three outcomes, because the source relies
    on all three: falling through to the next statement, leaving the
    function with [return], and a nil dereference. *)

From Stdlib Require Import String Ascii List Bool ZArith Lia PeanoNat.
From Stdlib Require Import Strings.Byte.
Import ListNotations.
Local Open Scope string_scope.
Local Open Scope list_scope.

Set Implicit Arguments.

(** ** API types

    Only the fields the controller reads or writes are kept.  The modules
    carry the import aliases of the Go file. *)

Module metav1.

Record OwnerReference := mkOwnerReference {
  Kind : string;
  RefName : string;
  RefUID : string;
  Controller : bool
}.

Record ObjectMeta := mkObjectMeta {
  Name : string;
  Namespace : string;
  ResourceVersion : string;
  UID : string;
  OwnerReferences : list OwnerReference
}.

(** [metav1.GetControllerOf]: the first owner reference flagged as the
    managing controller. *)
Definition GetControllerOf (controllee : ObjectMeta) : option OwnerReference :=
  find Controller (OwnerReferences controllee).

(** [metav1.IsControlledBy]: the controller reference carries the owner's UID. *)
Definition IsControlledBy (obj owner : ObjectMeta) : bool :=
  match GetControllerOf obj with
  | Some ref => String.eqb (RefUID ref) (UID owner)
  | None => false
  end.

End metav1.

Module corev1.

Record Secret := mkSecret {
  Secret_ObjectMeta : metav1.ObjectMeta;
  Secret_Type : string;
  Secret_Data : list (string * list byte)
}.

Record ConfigMap := mkConfigMap {
  ConfigMap_ObjectMeta : metav1.ObjectMeta;
  ConfigMap_Data : list (string * string)
}.

Definition EventTypeNormal : string := "Normal".
Definition EventTypeWarning : string := "Warning".

End corev1.

Module akv.

Definition AzureKeyVaultObjectType := string.

(** Modelled from the spec: the constants of the closed set of vault object
    types (plain secret, certificate, cryptographic key, multi-key secret).
    Their declarations belong to the API package; the values are the ones the
    custom resource accepts in [spec.vault.object.type]. *)
Definition AzureKeyVaultObjectTypeSecret : AzureKeyVaultObjectType := "secret".
Definition AzureKeyVaultObjectTypeCertificate : AzureKeyVaultObjectType := "certificate".
Definition AzureKeyVaultObjectTypeKey : AzureKeyVaultObjectType := "key".
Definition AzureKeyVaultObjectTypeMultiKeyValueSecret : AzureKeyVaultObjectType :=
  "multi-key-value-secret".

Record AzureKeyVaultObject := mkAzureKeyVaultObject {
  Object_Name : string;
  Object_Type : AzureKeyVaultObjectType
}.

Record AzureKeyVault := mkAzureKeyVault {
  Vault_Name : string;
  Object : AzureKeyVaultObject
}.

Record AzureKeyVaultOutputSecret := mkOutputSecret {
  OutputSecret_Name : string;
  OutputSecret_DataKey : string
}.

Record AzureKeyVaultOutputConfigMap := mkOutputConfigMap {
  OutputConfigMap_Name : string;
  OutputConfigMap_DataKey : string
}.

Record AzureKeyVaultOutput := mkAzureKeyVaultOutput {
  Secret : AzureKeyVaultOutputSecret;
  ConfigMap : AzureKeyVaultOutputConfigMap;
  Transforms : list string
}.

Record AzureKeyVaultSecretSpec := mkSpec {
  Vault : AzureKeyVault;
  Output : AzureKeyVaultOutput
}.

Record AzureKeyVaultSecretStatus := mkStatus {
  SecretHash : string;
  LastAzureUpdate : Z;
  SecretName : string;
  ConfigMapHash : string;
  ConfigMapName : string
}.

Record AzureKeyVaultSecret := mkAzureKeyVaultSecret {
  ObjectMeta : metav1.ObjectMeta;
  Spec : AzureKeyVaultSecretSpec;
  Status : AzureKeyVaultSecretStatus
}.

(** Field assignments [akvs.Status.X = v], as functions on the record. *)
Definition with_Status (f : AzureKeyVaultSecretStatus -> AzureKeyVaultSecretStatus)
    (a : AzureKeyVaultSecret) : AzureKeyVaultSecret :=
  mkAzureKeyVaultSecret (ObjectMeta a) (Spec a) (f (Status a)).

Definition set_SecretName (v : string) (s : AzureKeyVaultSecretStatus) :=
  mkStatus (SecretHash s) (LastAzureUpdate s) v (ConfigMapHash s) (ConfigMapName s).

Definition set_SecretHash (v : string) (s : AzureKeyVaultSecretStatus) :=
  mkStatus v (LastAzureUpdate s) (SecretName s) (ConfigMapHash s) (ConfigMapName s).

Definition set_ConfigMapName (v : string) (s : AzureKeyVaultSecretStatus) :=
  mkStatus (SecretHash s) (LastAzureUpdate s) (SecretName s) (ConfigMapHash s) v.

Definition set_ConfigMapHash (v : string) (s : AzureKeyVaultSecretStatus) :=
  mkStatus (SecretHash s) (LastAzureUpdate s) (SecretName s) v (ConfigMapName s).

Definition set_LastAzureUpdate (v : Z) (s : AzureKeyVaultSecretStatus) :=
  mkStatus (SecretHash s) v (SecretName s) (ConfigMapHash s) (ConfigMapName s).

End akv.

(** ** Pointers, event payloads and errors *)

(** A [*akv.AzureKeyVaultSecret]: nil, or the address of a heap cell. *)
Inductive ptr : Type :=
| nil_ptr
| Addr (n : nat).

(** What an informer hands to an event handler as [interface{}]: the
    resource itself, a [cache.DeletedFinalStateUnknown] tombstone around
    whatever was last seen, or a value of some other type. *)
Inductive Payload : Type :=
| PAkvs (secret : ptr)
| PTombstone (Key : string) (Obj : Payload)
| POther (typeName : string).

(** Go errors: a message, and the API status reason that
    [errors.IsNotFound] inspects. *)
Inductive StatusReason : Type :=
| StatusReasonUnknown
| StatusReasonNotFound
| StatusReasonConflict.

Record error := mkError {
  Reason : StatusReason;
  Error : string
}.

Definition errors_IsNotFound (err : error) : bool :=
  match Reason err with
  | StatusReasonNotFound => true
  | _ => false
  end.

(** Go's [(T, error)] where the caller tests the error before it touches
    the value. *)
Inductive result (A : Type) : Type :=
| Okay (a : A)
| Err (err : error).

Arguments Okay {A} a.
Arguments Err {A} err.

(** Arguments of a format string. *)
Inductive fmtArg : Type :=
| ArgString (s : string)
| ArgError (err : error)
| ArgPayload (obj : Payload).

(** The object an event is recorded against, and the [metav1.Object] held by
    [outputObject]. *)
Inductive ObjectRef : Type :=
| RefAkvs (akvs : ptr)
| RefSecret (secret : corev1.Secret)
| RefConfigMap (cm : corev1.ConfigMap).

Record Event := mkEvent {
  Event_Object : ObjectRef;
  Event_Type : string;
  Event_Reason : string;
  Event_Message : string
}.

Inductive Level : Type :=
| DebugLevel
| InfoLevel
| WarningLevel
| ErrorLevel
| HandledError.

(** Calls on the cluster API clients ([kubeclientset], [akvsClient]), in the
    order they are issued. *)
Inductive ApiCall : Type :=
| SecretsGet (ns name : string)
| SecretsCreate (ns : string) (secret : corev1.Secret)
| SecretsUpdate (ns : string) (secret : corev1.Secret)
| ConfigMapsGet (ns name : string)
| ConfigMapsCreate (ns : string) (cm : corev1.ConfigMap)
| ConfigMapsUpdate (ns : string) (cm : corev1.ConfigMap)
| AzureKeyVaultSecretsUpdateStatus (ns : string) (akvs : akv.AzureKeyVaultSecret).

Definition isNativeWrite (c : ApiCall) : bool :=
  match c with
  | SecretsCreate _ _ | SecretsUpdate _ _
  | ConfigMapsCreate _ _ | ConfigMapsUpdate _ _ => true
  | _ => false
  end.

Definition isStatusWrite (c : ApiCall) : bool :=
  match c with
  | AzureKeyVaultSecretsUpdateStatus _ _ => true
  | _ => false
  end.

Definition isConfigMapsGet (c : ApiCall) : bool :=
  match c with
  | ConfigMapsGet _ _ => true
  | _ => false
  end.

Definition isSecretsGet (c : ApiCall) : bool :=
  match c with
  | SecretsGet _ _ => true
  | _ => false
  end.

(** ** Work queues

    A rate limiting work queue keeps the keys waiting to be processed, without
    duplicates, and per key the number of requeues its rate limiter has
    counted.  [Forget] drops that count. *)

Record Queue := mkQueue {
  items : list string;
  requeues : list (string * nat)
}.

Definition Queue_Add (key : string) (q : Queue) : Queue :=
  if existsb (String.eqb key) (items q) then q
  else mkQueue (items q ++ [key]) (requeues q).

Definition Queue_Forget (key : string) (q : Queue) : Queue :=
  mkQueue (items q) (filter (fun e => negb (String.eqb key (fst e))) (requeues q)).

Definition Queue_NumRequeues (key : string) (q : Queue) : nat :=
  match find (fun e => String.eqb key (fst e)) (requeues q) with
  | Some e => snd e
  | None => 0
  end.

Inductive QueueName : Type :=
| akvsCrdQueue
| azureKeyVaultQueue.

(** ** Keys *)

(** [strings.Split(key, "/")]. *)
Fixpoint splitSlash (s : string) : list string :=
  match s with
  | EmptyString => [EmptyString]
  | String c rest =>
      if Ascii.eqb c "/"%char then EmptyString :: splitSlash rest
      else
        match splitSlash rest with
        | [] => [String c EmptyString]
        | part :: parts => String c part :: parts
        end
  end.

(** The kinds of handler, without the resource and the vault client a
    handler holds. *)
Inductive HandlerKind (Transformator : Type) : Type :=
| SecretKind (transformator : Transformator)
| CertificateKind
| KeyKind
| MultiKeySecretKind.

Arguments CertificateKind {Transformator}.
Arguments KeyKind {Transformator}.
Arguments MultiKeySecretKind {Transformator}.

(** ** Collaborators

    Everything the file calls but does not define: the formatter, the
    message constants of the controller, the output transformations, the
    vault handlers, the digests and the builders of native objects.  They
    are parameters of the development; nothing is assumed about them. *)

Class Collaborators : Type := {
  VaultService : Type;
  Transformator : Type;
  (** [fmt.Sprintf] *)
  Sprintf : string -> list fmtArg -> string;
  (** event reasons and messages *)
  SuccessSynced : string;
  ErrResourceExists : string;
  ErrAzureVault : string;
  MessageResourceExists : string;
  MessageAzureKeyVaultSecretSynced : string;
  MessageAzureKeyVaultSecretSyncedWithAzureKeyVault : string;
  FailedAzureKeyVault : string;
  (** [transformers.CreateTransformator] *)
  CreateTransformator : akv.AzureKeyVaultOutput -> result Transformator;
  (** what [HandleSecret] and [HandleConfigMap] of a handler of the given kind
      produce for a resource from the vault *)
  vaultSecretData :
    VaultService -> HandlerKind Transformator -> akv.AzureKeyVaultSecret ->
    result (list (string * list byte));
  vaultConfigMapData :
    VaultService -> HandlerKind Transformator -> akv.AzureKeyVaultSecret ->
    result (list (string * string));
  (** digests *)
  getMD5HashOfByteValues : list (string * list byte) -> string;
  getMD5HashOfStringValues : list (string * string) -> string;
  (** names and builders of native objects *)
  determineSecretName : akv.AzureKeyVaultSecret -> string;
  determineConfigMapName : akv.AzureKeyVaultSecret -> string;
  updateExistingSecret :
    akv.AzureKeyVaultSecret -> list (string * list byte) -> corev1.Secret ->
    result corev1.Secret;
  createNewSecret :
    akv.AzureKeyVaultSecret -> list (string * list byte) -> corev1.Secret;
  createNewConfigMap :
    akv.AzureKeyVaultSecret -> list (string * string) -> corev1.ConfigMap
}.

(** ** Association lists keyed by namespace and name *)

Definition NsName : Type := (string * string)%type.

Definition NsName_eqb (a b : NsName) : bool :=
  String.eqb (fst a) (fst b) && String.eqb (snd a) (snd b).

Fixpoint alist_get {V : Type} (k : NsName) (l : list (NsName * V)) : option V :=
  match l with
  | [] => None
  | (k', v) :: rest => if NsName_eqb k k' then Some v else alist_get k rest
  end.

Fixpoint alist_replace {V : Type} (k : NsName) (v : V) (l : list (NsName * V))
  : list (NsName * V) :=
  match l with
  | [] => []
  | (k', v') :: rest =>
      if NsName_eqb k k' then (k', v) :: rest
      else (k', v') :: alist_replace k v rest
  end.

Section Controller.

Context {collab : Collaborators}.

(** ** The world a controller runs in *)

Record World := mkWorld {
  (** the declaring resources in memory; addresses index this list *)
  heap : list akv.AzureKeyVaultSecret;
  (** the informer cache of declaring resources, by namespace and name *)
  akvsStore : list (NsName * nat);
  (** the native objects of the cluster *)
  secrets : list (NsName * corev1.Secret);
  configMaps : list (NsName * corev1.ConfigMap);
  vaultService : VaultService;
  clock : Z;
  (** the structural queue and the vault-drift queue *)
  crdQueue : Queue;
  vaultQueue : Queue;
  events : list Event;
  logs : list (Level * string);
  calls : list ApiCall
}.

Definition set_heap (v : list akv.AzureKeyVaultSecret) (w : World) : World :=
  mkWorld v (akvsStore w) (secrets w) (configMaps w) (vaultService w) (clock w)
    (crdQueue w) (vaultQueue w) (events w) (logs w) (calls w).

Definition set_akvsStore (v : list (NsName * nat)) (w : World) : World :=
  mkWorld (heap w) v (secrets w) (configMaps w) (vaultService w) (clock w)
    (crdQueue w) (vaultQueue w) (events w) (logs w) (calls w).

Definition set_secrets (v : list (NsName * corev1.Secret)) (w : World) : World :=
  mkWorld (heap w) (akvsStore w) v (configMaps w) (vaultService w) (clock w)
    (crdQueue w) (vaultQueue w) (events w) (logs w) (calls w).

Definition set_configMaps (v : list (NsName * corev1.ConfigMap)) (w : World) : World :=
  mkWorld (heap w) (akvsStore w) (secrets w) v (vaultService w) (clock w)
    (crdQueue w) (vaultQueue w) (events w) (logs w) (calls w).

Definition set_clock (v : Z) (w : World) : World :=
  mkWorld (heap w) (akvsStore w) (secrets w) (configMaps w) (vaultService w) v
    (crdQueue w) (vaultQueue w) (events w) (logs w) (calls w).

Definition set_crdQueue (v : Queue) (w : World) : World :=
  mkWorld (heap w) (akvsStore w) (secrets w) (configMaps w) (vaultService w) (clock w)
    v (vaultQueue w) (events w) (logs w) (calls w).

Definition set_vaultQueue (v : Queue) (w : World) : World :=
  mkWorld (heap w) (akvsStore w) (secrets w) (configMaps w) (vaultService w) (clock w)
    (crdQueue w) v (events w) (logs w) (calls w).

Definition set_events (v : list Event) (w : World) : World :=
  mkWorld (heap w) (akvsStore w) (secrets w) (configMaps w) (vaultService w) (clock w)
    (crdQueue w) (vaultQueue w) v (logs w) (calls w).

Definition set_logs (v : list (Level * string)) (w : World) : World :=
  mkWorld (heap w) (akvsStore w) (secrets w) (configMaps w) (vaultService w) (clock w)
    (crdQueue w) (vaultQueue w) (events w) v (calls w).

Definition set_calls (v : list ApiCall) (w : World) : World :=
  mkWorld (heap w) (akvsStore w) (secrets w) (configMaps w) (vaultService w) (clock w)
    (crdQueue w) (vaultQueue w) (events w) (logs w) v.

(** ** The monad

    A statement of a Go function whose result type is [R] either falls
    through with a value, leaves the function with [return r], or panics. *)

Inductive Out (R A : Type) : Type :=
| Next (a : A) (w : World)
| Returned (r : R) (w : World)
| Panicked (w : World).

Arguments Next {R A} a w.
Arguments Returned {R A} r w.
Arguments Panicked {R A} w.

Definition M (R A : Type) : Type := World -> Out R A.

Definition ret {R A : Type} (a : A) : M R A := fun w => Next a w.

Definition bind {R A B : Type} (m : M R A) (k : A -> M R B) : M R B :=
  fun w =>
    match m w with
    | Next a w' => k a w'
    | Returned r w' => Returned r w'
    | Panicked w' => Panicked w'
    end.

(** [return r] *)
Definition Return {R A : Type} (r : R) : M R A := fun w => Returned r w.

(** A function declaration: inside it [Return] leaves the body, outside the
    call is an ordinary statement. *)
Definition func {R T : Type} (body : M T T) : M R T :=
  fun w =>
    match body w with
    | Next t w' => Next t w'
    | Returned t w' => Next t w'
    | Panicked w' => Panicked w'
    end.

Notation "x <- m ;; k" := (bind m (fun x => k))
  (at level 61, m at next level, right associativity).
Notation "m ;; k" := (bind m (fun _ => k))
  (at level 61, right associativity).
Notation "' pat <- m ;; k" := (bind m (fun x => match x with pat => k end))
  (at level 61, pat pattern, m at next level, right associativity).

(** ** Memory *)

(** Reading through a pointer; nil (or a dangling address) panics. *)
Definition deref {R : Type} (p : ptr) : M R akv.AzureKeyVaultSecret :=
  fun w =>
    match p with
    | nil_ptr => Panicked w
    | Addr n =>
        match nth_error (heap w) n with
        | Some a => Next a w
        | None => Panicked w
        end
    end.

Fixpoint list_update {A : Type} (n : nat) (f : A -> A) (l : list A) : list A :=
  match l, n with
  | [], _ => []
  | x :: rest, O => f x :: rest
  | x :: rest, S n' => x :: list_update n' f rest
  end.

(** Writing through a pointer: [p.field = v]. *)
Definition assign {R : Type} (p : ptr)
    (f : akv.AzureKeyVaultSecret -> akv.AzureKeyVaultSecret) : M R unit :=
  fun w =>
    match p with
    | nil_ptr => Panicked w
    | Addr n =>
        match nth_error (heap w) n with
        | Some _ => Next tt (set_heap (list_update n f (heap w)) w)
        | None => Panicked w
        end
    end.

(** [akvs.DeepCopy()]: a new cell holding a copy of the pointee. *)
Definition DeepCopy {R : Type} (p : ptr) : M R ptr :=
  a <- deref p ;;
  fun w => Next (Addr (length (heap w))) (set_heap (heap w ++ [a]) w).

(** ** Logging, events, clock *)

Definition log {R : Type} (l : Level) (format : string) (args : list fmtArg) : M R unit :=
  fun w => Next tt (set_logs (logs w ++ [(l, Sprintf format args)]) w).

Definition log_Debugf {R : Type} := @log R DebugLevel.
Definition log_Infof {R : Type} := @log R InfoLevel.
Definition log_Warningf {R : Type} := @log R WarningLevel.
Definition log_Errorf {R : Type} := @log R ErrorLevel.

Definition log_Warning {R : Type} (msg : string) : M R unit :=
  fun w => Next tt (set_logs (logs w ++ [(WarningLevel, msg)]) w).

Definition utilruntime_HandleError {R : Type} (err : error) : M R unit :=
  fun w => Next tt (set_logs (logs w ++ [(HandledError, Error err)]) w).

Definition recorder_Event {R : Type} (object : ObjectRef) (eventtype reason message : string)
  : M R unit :=
  fun w => Next tt (set_events (events w ++ [mkEvent object eventtype reason message]) w).

(** [c.clock.Now()]: the reading, after which time has moved on. *)
Definition clock_Now {R : Type} : M R Z :=
  fun w => Next (clock w) (set_clock (clock w + 1)%Z w).

Definition fmt_Errorf (format : string) (args : list fmtArg) : error :=
  mkError StatusReasonUnknown (Sprintf format args).

(** ** Keys and queues *)

(** [cache.MetaNamespaceKeyFunc]: namespace/name of an object that has
    metadata; a tombstone has none. *)
Definition cache_MetaNamespaceKeyFunc {R : Type} (obj : Payload) : M R (string * option error) :=
  match obj with
  | PAkvs p =>
      a <- deref p ;;
      let meta := akv.ObjectMeta a in
      if (0 <? String.length (metav1.Namespace meta))%nat
      then ret ((metav1.Namespace meta ++ "/" ++ metav1.Name meta)%string, None)
      else ret (metav1.Name meta, None)
  | _ => ret ("", Some (fmt_Errorf "object has no meta: %v" [ArgPayload obj]))
  end.

(** [cache.SplitMetaNamespaceKey] *)
Definition cache_SplitMetaNamespaceKey (key : string) : string * string * option error :=
  match splitSlash key with
  | [name] => ("", name, None)
  | [namespace; name] => (namespace, name, None)
  | _ => ("", "", Some (fmt_Errorf "unexpected key format: %q" [ArgString key]))
  end.

Definition getQueue (q : QueueName) (w : World) : Queue :=
  match q with
  | akvsCrdQueue => crdQueue w
  | azureKeyVaultQueue => vaultQueue w
  end.

Definition setQueue (q : QueueName) (v : Queue) (w : World) : World :=
  match q with
  | akvsCrdQueue => set_crdQueue v w
  | azureKeyVaultQueue => set_vaultQueue v w
  end.

Definition queue_Add {R : Type} (q : QueueName) (key : string) : M R unit :=
  fun w => Next tt (setQueue q (Queue_Add key (getQueue q w)) w).

Definition queue_Forget {R : Type} (q : QueueName) (key : string) : M R unit :=
  fun w => Next tt (setQueue q (Queue_Forget key (getQueue q w)) w).

(** [cache.DeletionHandlingMetaNamespaceKeyFunc]: a tombstone answers with
    the key it carries, every other object goes to
    [cache.MetaNamespaceKeyFunc]. *)
Definition cache_DeletionHandlingMetaNamespaceKeyFunc {R : Type} (obj : Payload)
  : M R (string * option error) :=
  match obj with
  | PTombstone key _ => ret (key, None)
  | _ => cache_MetaNamespaceKeyFunc obj
  end.

(** [queue.Enqueue] of kmodules: the object's key, taken with the deletion
    handling key function, is added to the queue, so a tombstone is enqueued
    under the key it carries; an object without a key is logged and
    skipped. *)
Definition queue_Enqueue {R : Type} (q : QueueName) (obj : Payload) : M R unit :=
  func (
    '(key, err) <- cache_DeletionHandlingMetaNamespaceKeyFunc obj ;;
    match err with
    | Some err =>
        log_Errorf "failed to get key for %v <%v>. Reason: %s"
          [ArgPayload obj; ArgPayload obj; ArgError err] ;;
        Return tt
    | None => ret tt
    end ;;
    queue_Add q key ;;
    Return tt).

(** ** Cluster clients

    Modelled from the spec: the lister and the clients of section 6.  The
    informer cache and the API server are one store.  A status update is
    refused with a conflict when the submitted resource version is not the
    stored one; when accepted it replaces the status only and the resource
    gets a new version. *)

Definition notFound (what name : string) : error :=
  mkError StatusReasonNotFound (Sprintf "%s %q not found" [ArgString what; ArgString name]).

Definition conflict (what name : string) : error :=
  mkError StatusReasonConflict
    (Sprintf "Operation cannot be fulfilled on %s %q: the object has been modified"
       [ArgString what; ArgString name]).

Definition record_call {R : Type} (c : ApiCall) : M R unit :=
  fun w => Next tt (set_calls (calls w ++ [c]) w).

Definition azureKeyVaultSecretLister_Get {R : Type} (namespace name : string)
  : M R (ptr * option error) :=
  fun w =>
    match alist_get (namespace, name) (akvsStore w) with
    | Some n => Next (Addr n, None) w
    | None => Next (nil_ptr, Some (notFound "azurekeyvaultsecret" name)) w
    end.

Definition secretsLister_Get {R : Type} (namespace name : string)
  : M R (result corev1.Secret) :=
  fun w =>
    match alist_get (namespace, name) (secrets w) with
    | Some s => Next (Okay s) w
    | None => Next (Err (notFound "secret" name)) w
    end.

Definition configMapsLister_Get {R : Type} (namespace name : string)
  : M R (result corev1.ConfigMap) :=
  fun w =>
    match alist_get (namespace, name) (configMaps w) with
    | Some s => Next (Okay s) w
    | None => Next (Err (notFound "configmap" name)) w
    end.

Definition kube_Secrets_Get {R : Type} (namespace name : string)
  : M R (result corev1.Secret) :=
  record_call (SecretsGet namespace name) ;;
  secretsLister_Get namespace name.

Definition kube_Secrets_Create {R : Type} (namespace : string) (secret : corev1.Secret)
  : M R (result corev1.Secret) :=
  record_call (SecretsCreate namespace secret) ;;
  fun w =>
    let k := (namespace, metav1.Name (corev1.Secret_ObjectMeta secret)) in
    match alist_get k (secrets w) with
    | Some _ => Next (Err (mkError StatusReasonUnknown
                             (Sprintf "secrets %q already exists" [ArgString (snd k)]))) w
    | None => Next (Okay secret) (set_secrets (secrets w ++ [(k, secret)]) w)
    end.

Definition kube_Secrets_Update {R : Type} (namespace : string) (secret : corev1.Secret)
  : M R (result corev1.Secret) :=
  record_call (SecretsUpdate namespace secret) ;;
  fun w =>
    let k := (namespace, metav1.Name (corev1.Secret_ObjectMeta secret)) in
    match alist_get k (secrets w) with
    | Some _ => Next (Okay secret) (set_secrets (alist_replace k secret (secrets w)) w)
    | None => Next (Err (notFound "secrets" (snd k))) w
    end.

Definition kube_ConfigMaps_Create {R : Type} (namespace : string) (cm : corev1.ConfigMap)
  : M R (result corev1.ConfigMap) :=
  record_call (ConfigMapsCreate namespace cm) ;;
  fun w =>
    let k := (namespace, metav1.Name (corev1.ConfigMap_ObjectMeta cm)) in
    match alist_get k (configMaps w) with
    | Some _ => Next (Err (mkError StatusReasonUnknown
                             (Sprintf "configmaps %q already exists" [ArgString (snd k)]))) w
    | None => Next (Okay cm) (set_configMaps (configMaps w ++ [(k, cm)]) w)
    end.

Definition kube_ConfigMaps_Update {R : Type} (namespace : string) (cm : corev1.ConfigMap)
  : M R (result corev1.ConfigMap) :=
  record_call (ConfigMapsUpdate namespace cm) ;;
  fun w =>
    let k := (namespace, metav1.Name (corev1.ConfigMap_ObjectMeta cm)) in
    match alist_get k (configMaps w) with
    | Some _ => Next (Okay cm) (set_configMaps (alist_replace k cm (configMaps w)) w)
    | None => Next (Err (notFound "configmaps" (snd k))) w
    end.

Definition nextResourceVersion (rv : string) : string := (rv ++ "+")%string.

Definition bumpResourceVersion (m : metav1.ObjectMeta) : metav1.ObjectMeta :=
  metav1.mkObjectMeta (metav1.Name m) (metav1.Namespace m)
    (nextResourceVersion (metav1.ResourceVersion m)) (metav1.UID m)
    (metav1.OwnerReferences m).

(** What the API server does with a submitted status. *)
Definition server_UpdateStatus (namespace : string) (obj : akv.AzureKeyVaultSecret)
    (w : World) : (ptr * option error) * World :=
  let name := metav1.Name (akv.ObjectMeta obj) in
  match alist_get (namespace, name) (akvsStore w) with
  | None => ((nil_ptr, Some (notFound "azurekeyvaultsecrets" name)), w)
  | Some n =>
      match nth_error (heap w) n with
      | None => ((nil_ptr, Some (notFound "azurekeyvaultsecrets" name)), w)
      | Some stored =>
          if String.eqb (metav1.ResourceVersion (akv.ObjectMeta stored))
               (metav1.ResourceVersion (akv.ObjectMeta obj))
          then
            let updated :=
              akv.mkAzureKeyVaultSecret (bumpResourceVersion (akv.ObjectMeta stored))
                (akv.Spec stored) (akv.Status obj) in
            ((Addr (length (heap w)), None),
             set_akvsStore
               (alist_replace (namespace, name) (length (heap w)) (akvsStore w))
               (set_heap (heap w ++ [updated]) w))
          else ((nil_ptr, Some (conflict "azurekeyvaultsecrets" name)), w)
      end
  end.

Definition akvsClient_UpdateStatus {R : Type} (namespace : string) (akvs : ptr)
  : M R (ptr * option error) :=
  obj <- deref akvs ;;
  record_call (AzureKeyVaultSecretsUpdateStatus namespace obj) ;;
  fun w => let '(r, w') := server_UpdateStatus namespace obj w in Next r w'.

(** ** The source, function by function *)

(** [convertToAzureKeyVaultSecret] (lines 230-243).  Like the Go function it
    returns both a pointer and an error; on failure the pointer is nil. *)
Definition convertToAzureKeyVaultSecret (obj : Payload) : ptr * option error :=
  match obj with
  | PAkvs secret => (secret, None)
  | PTombstone _ tombstoneObj =>
      match tombstoneObj with
      | PAkvs secret => (secret, None)
      | _ =>
          (nil_ptr,
           Some (fmt_Errorf
                   "tombstone contained object that is not a AzureKeyVaultSecret %#v"
                   [ArgPayload obj]))
      end
  | POther _ =>
      (nil_ptr, Some (fmt_Errorf "couldn't get object from tombstone %#v" [ArgPayload obj]))
  end.

(** [akvsHasOutputSecret] (lines 249-251) *)
Definition akvsHasOutputSecret {R : Type} (secret : ptr) : M R bool :=
  func (
    s <- deref secret ;;
    Return (negb (String.eqb
                    (akv.OutputSecret_Name (akv.Secret (akv.Output (akv.Spec s)))) ""))).

(** [akvsHasOutputConfigMap] (lines 253-255) *)
Definition akvsHasOutputConfigMap {R : Type} (secret : ptr) : M R bool :=
  func (
    s <- deref secret ;;
    Return (negb (String.eqb
                    (akv.OutputConfigMap_Name (akv.ConfigMap (akv.Output (akv.Spec s)))) ""))).

(** [akvsHasOutputDefined] (lines 245-247); [||] evaluates its right operand
    only when the left one is false. *)
Definition akvsHasOutputDefined {R : Type} (secret : ptr) : M R bool :=
  func (
    hasSecret <- akvsHasOutputSecret secret ;;
    if hasSecret then Return true
    else
      hasConfigMap <- akvsHasOutputConfigMap secret ;;
      Return hasConfigMap).

(** [handleKeyVaultError] (lines 405-418); the argument is never nil. *)
Definition handleKeyVaultError {R : Type} (err : error) (key : string) : M R bool :=
  func (
    log_Debugf "Handling error for '%s' in AzureKeyVaultSecret: %s"
      [ArgString key; ArgString (Error err)] ;;
    let exit := false in
    exit <- (if errors_IsNotFound err then
               log_Debugf "Error for '%s' was 'Not Found'" [ArgString key] ;;
               log_Errorf "AzureKeyVaultSecret '%s' in work queue no longer exists"
                 [ArgString key] ;;
               ret true
             else ret exit) ;;
    Return exit).

(** [getAzureKeyVaultSecret] (lines 318-331) *)
Definition getAzureKeyVaultSecret {R : Type} (key : string) : M R (ptr * option error) :=
  func (
    let '(namespace, name, err) := cache_SplitMetaNamespaceKey key in
    match err with
    | Some _ => Return (nil_ptr, Some (fmt_Errorf "invalid resource key: %s" [ArgString key]))
    | None => ret tt
    end ;;
    log_Debugf "Getting AzureKeyVaultSecret %s from namespace %s"
      [ArgString name; ArgString namespace] ;;
    '(azureKeyVaultSecret, err) <- azureKeyVaultSecretLister_Get namespace name ;;
    match err with
    | Some err => Return (nil_ptr, Some err)
    | None => ret tt
    end ;;
    Return (azureKeyVaultSecret, err)).

(** *** Handlers *)

(** The implementations of the [KubernetesHandler] interface; each holds the
    declaring resource and the vault client it was built with. *)
Inductive KubernetesHandler : Type :=
| AzureSecretHandler (secretSpec : ptr) (vault : VaultService) (transformator : Transformator)
| AzureCertificateHandler (secretSpec : ptr) (vault : VaultService)
| AzureKeyHandler (secretSpec : ptr) (vault : VaultService)
| AzureMultiKeySecretHandler (secretSpec : ptr) (vault : VaultService).

Definition NewAzureSecretHandler := AzureSecretHandler.
Definition NewAzureCertificateHandler := AzureCertificateHandler.
Definition NewAzureKeyHandler := AzureKeyHandler.
Definition NewAzureMultiKeySecretHandler := AzureMultiKeySecretHandler.

Definition handlerKind (h : KubernetesHandler) : HandlerKind Transformator :=
  match h with
  | AzureSecretHandler _ _ transformator => SecretKind transformator
  | AzureCertificateHandler _ _ => CertificateKind
  | AzureKeyHandler _ _ => KeyKind
  | AzureMultiKeySecretHandler _ _ => MultiKeySecretKind
  end.

Definition handlerSecretSpec (h : KubernetesHandler) : ptr :=
  match h with
  | AzureSecretHandler p _ _ | AzureCertificateHandler p _
  | AzureKeyHandler p _ | AzureMultiKeySecretHandler p _ => p
  end.

Definition handlerVault (h : KubernetesHandler) : VaultService :=
  match h with
  | AzureSecretHandler _ v _ | AzureCertificateHandler _ v
  | AzureKeyHandler _ v | AzureMultiKeySecretHandler _ v => v
  end.

Definition HandleSecret {R : Type} (h : KubernetesHandler)
  : M R (result (list (string * list byte))) :=
  s <- deref (handlerSecretSpec h) ;;
  ret (vaultSecretData (handlerVault h) (handlerKind h) s).

Definition HandleConfigMap {R : Type} (h : KubernetesHandler)
  : M R (result (list (string * string))) :=
  s <- deref (handlerSecretSpec h) ;;
  ret (vaultConfigMapData (handlerVault h) (handlerKind h) s).

Definition c_vaultService {R : Type} : M R VaultService :=
  fun w => Next (vaultService w) w.

(** The [switch] of lines 277-292, and again of lines 299-314: the handler
    for the resource's vault object type, or the function's early return. *)
Definition selectHandler {A : Type} (azureKeyVaultSecret : ptr)
  : M (result A) KubernetesHandler :=
  s <- deref azureKeyVaultSecret ;;
  vault <- c_vaultService ;;
  let objectType := akv.Object_Type (akv.Object (akv.Vault (akv.Spec s))) in
  if String.eqb objectType akv.AzureKeyVaultObjectTypeSecret then
    match CreateTransformator (akv.Output (akv.Spec s)) with
    | Err err => Return (Err err)
    | Okay transformator => ret (NewAzureSecretHandler azureKeyVaultSecret vault transformator)
    end
  else if String.eqb objectType akv.AzureKeyVaultObjectTypeCertificate then
    ret (NewAzureCertificateHandler azureKeyVaultSecret vault)
  else if String.eqb objectType akv.AzureKeyVaultObjectTypeKey then
    ret (NewAzureKeyHandler azureKeyVaultSecret vault)
  else if String.eqb objectType akv.AzureKeyVaultObjectTypeMultiKeyValueSecret then
    ret (NewAzureMultiKeySecretHandler azureKeyVaultSecret vault)
  else
    Return (Err (fmt_Errorf "azure key vault object type '%s' not currently supported"
                   [ArgString objectType])).

(** [getSecretFromKeyVault] (lines 274-294) *)
Definition getSecretFromKeyVault {R : Type} (azureKeyVaultSecret : ptr)
  : M R (result (list (string * list byte))) :=
  func (
    secretHandler <- selectHandler azureKeyVaultSecret ;;
    r <- HandleSecret secretHandler ;;
    Return r).

(** [getConfigMapFromKeyVault] (lines 296-316) *)
Definition getConfigMapFromKeyVault {R : Type} (azureKeyVaultSecret : ptr)
  : M R (result (list (string * string))) :=
  func (
    cmHandler <- selectHandler azureKeyVaultSecret ;;
    r <- HandleConfigMap cmHandler ;;
    Return r).

(** *** Status *)

(** [updateAzureKeyVaultSecretStatus] (lines 369-379) *)
Definition updateAzureKeyVaultSecretStatus {R : Type} (akvs : ptr)
    (secretName cmName secretHash cmHash : string) : M R (option error) :=
  func (
    akvsCopy <- DeepCopy akvs ;;
    assign akvsCopy (akv.with_Status (akv.set_SecretName secretName)) ;;
    assign akvsCopy (akv.with_Status (akv.set_SecretHash secretHash)) ;;
    assign akvsCopy (akv.with_Status (akv.set_ConfigMapName cmName)) ;;
    assign akvsCopy (akv.with_Status (akv.set_ConfigMapHash cmHash)) ;;
    now <- clock_Now ;;
    assign akvsCopy (akv.with_Status (akv.set_LastAzureUpdate now)) ;;
    a <- deref akvs ;;
    '(_, err) <- akvsClient_UpdateStatus (metav1.Namespace (akv.ObjectMeta a)) akvsCopy ;;
    Return err).

(** [updateAzureKeyVaultSecretStatusForSecret] (lines 381-391) *)
Definition updateAzureKeyVaultSecretStatusForSecret {R : Type} (akvs : ptr)
    (secretHash : string) : M R (option error) :=
  func (
    a <- deref akvs ;;
    let secretName := determineSecretName a in
    akvsCopy <- DeepCopy akvs ;;
    assign akvsCopy (akv.with_Status (akv.set_SecretName secretName)) ;;
    assign akvsCopy (akv.with_Status (akv.set_SecretHash secretHash)) ;;
    now <- clock_Now ;;
    assign akvsCopy (akv.with_Status (akv.set_LastAzureUpdate now)) ;;
    a <- deref akvs ;;
    '(_, err) <- akvsClient_UpdateStatus (metav1.Namespace (akv.ObjectMeta a)) akvsCopy ;;
    Return err).

(** [updateAzureKeyVaultSecretStatusForConfigMap] (lines 393-403) *)
Definition updateAzureKeyVaultSecretStatusForConfigMap {R : Type} (akvs : ptr)
    (cmHash : string) : M R (option error) :=
  func (
    a <- deref akvs ;;
    let cmName := determineConfigMapName a in
    akvsCopy <- DeepCopy akvs ;;
    assign akvsCopy (akv.with_Status (akv.set_ConfigMapName cmName)) ;;
    assign akvsCopy (akv.with_Status (akv.set_ConfigMapHash cmHash)) ;;
    now <- clock_Now ;;
    assign akvsCopy (akv.with_Status (akv.set_LastAzureUpdate now)) ;;
    a <- deref akvs ;;
    '(_, err) <- akvsClient_UpdateStatus (metav1.Namespace (akv.ObjectMeta a)) akvsCopy ;;
    Return err).

(** *** Native output objects *)

(** A [metav1.Object] that is a native output object. *)
Inductive NativeObject : Type :=
| SecretObject (secret : corev1.Secret)
| ConfigMapObject (cm : corev1.ConfigMap).

Definition objectMeta (o : NativeObject) : metav1.ObjectMeta :=
  match o with
  | SecretObject secret => corev1.Secret_ObjectMeta secret
  | ConfigMapObject cm => corev1.ConfigMap_ObjectMeta cm
  end.

Definition panic {R A : Type} : M R A := fun w => Panicked w.

(** [outputObject.GetName()]: a method call on an interface value, which
    panics when the interface is nil. *)
Definition GetName {R : Type} (obj : option NativeObject) : M R string :=
  match obj with
  | None => panic
  | Some o => ret (metav1.Name (objectMeta o))
  end.

(** Modelled from the spec: [isOwnedBy], which is defined in another file of
    the package.  The object is owned when its controller reference has the
    kind, name and UID of the declaring resource.  It reads the object's
    owner references, so a nil object panics. *)
Definition isOwnedBy {R : Type} (obj : option NativeObject) (owner : ptr) : M R bool :=
  func (
    match obj with
    | None => panic
    | Some o =>
        a <- deref owner ;;
        match metav1.GetControllerOf (objectMeta o) with
        | Some ref =>
            Return (String.eqb (metav1.Kind ref) "AzureKeyVaultSecret"
                    && String.eqb (metav1.RefName ref) (metav1.Name (akv.ObjectMeta a))
                    && String.eqb (metav1.RefUID ref) (metav1.UID (akv.ObjectMeta a)))
        | None => Return false
        end
    end).

(** *** Owners of native objects *)

(** [getAzureKeyVaultSecretFromSecret] (lines 257-259): the owner is looked
    up in the secret's namespace under the name of the owner reference. *)
Definition getAzureKeyVaultSecretFromSecret {R : Type} (secret : corev1.Secret)
    (owner : metav1.OwnerReference) : M R (ptr * option error) :=
  func (
    r <- azureKeyVaultSecretLister_Get
           (metav1.Namespace (corev1.Secret_ObjectMeta secret)) (metav1.RefName owner) ;;
    Return r).

(** [getAzureKeyVaultSecretFromConfigMap] (lines 261-263) *)
Definition getAzureKeyVaultSecretFromConfigMap {R : Type} (cm : corev1.ConfigMap)
    (owner : metav1.OwnerReference) : M R (ptr * option error) :=
  func (
    r <- azureKeyVaultSecretLister_Get
           (metav1.Namespace (corev1.ConfigMap_ObjectMeta cm)) (metav1.RefName owner) ;;
    Return r).

(** [isOwnedByAzureKeyVaultSecret] (lines 265-272).  [metav1.GetControllerOf]
    reads the owner references of the object, so a nil object panics. *)
Definition isOwnedByAzureKeyVaultSecret {R : Type} (obj : option NativeObject) : M R bool :=
  func (
    match obj with
    | None => panic
    | Some o =>
        match metav1.GetControllerOf (objectMeta o) with
        | Some ownerRef =>
            if String.eqb (metav1.Kind ownerRef) "AzureKeyVaultSecret"
            then Return true
            else ret tt
        | None => ret tt
        end ;;
        Return false
    end).

(** *** Change detection *)

(** [_, ok := m[key]] on a Go map. *)
Definition hasKey {V : Type} (key : string) (m : list (string * V)) : bool :=
  existsb (fun e => String.eqb key (fst e)) m.

Section ChangeDetection.

(** The helpers of the two functions below live in another file of the
    package; they are parameters here. *)
Variable determineSecretType : akv.AzureKeyVaultSecret -> string.
Variable getMD5HashOfSecret : list (string * list byte) -> corev1.Secret -> string.
Variable getMD5HashOfConfigMap : list (string * string) -> corev1.ConfigMap -> string.

(** [hasAzureKeyVaultSecretChangedForSecret] (lines 333-352) *)
Definition hasAzureKeyVaultSecretChangedForSecret {R : Type} (akvs : ptr)
    (akvsValues : list (string * list byte)) (secret : corev1.Secret) : M R bool :=
  func (
    a <- deref akvs ;;
    let secretType := determineSecretType a in
    (if negb (String.eqb secretType (corev1.Secret_Type secret)) then Return true
     else ret tt) ;;

    let dataKey := akv.OutputSecret_DataKey (akv.Secret (akv.Output (akv.Spec a))) in
    (if negb (String.eqb dataKey "") then
       if negb (hasKey dataKey (corev1.Secret_Data secret)) then Return true else ret tt
     else ret tt) ;;

    (if negb (String.eqb (akv.SecretHash (akv.Status a))
                (getMD5HashOfSecret akvsValues secret))
     then Return true
     else ret tt) ;;
    Return false).

(** [hasAzureKeyVaultSecretChangedForConfigMap] (lines 354-367) *)
Definition hasAzureKeyVaultSecretChangedForConfigMap {R : Type} (akvs : ptr)
    (akvsValues : list (string * string)) (cm : corev1.ConfigMap) : M R bool :=
  func (
    a <- deref akvs ;;
    let dataKey := akv.OutputConfigMap_DataKey (akv.ConfigMap (akv.Output (akv.Spec a))) in
    (if negb (String.eqb dataKey "") then
       if negb (hasKey dataKey (corev1.ConfigMap_Data cm)) then Return true else ret tt
     else ret tt) ;;

    (if negb (String.eqb (akv.ConfigMapHash (akv.Status a))
                (getMD5HashOfConfigMap akvsValues cm))
     then Return true
     else ret tt) ;;
    Return false).

End ChangeDetection.

(** Modelled from the spec: [getOrCreateKubernetesSecret], which is defined in
    another file of the package.  An existing secret of the output name is
    returned as it is; otherwise the data is fetched from the vault, the
    secret is created from it and the status is persisted. *)
Definition getOrCreateKubernetesSecret {R : Type} (akvs : ptr) : M R (result corev1.Secret) :=
  func (
    a <- deref akvs ;;
    let secretName := determineSecretName a in
    found <- secretsLister_Get (metav1.Namespace (akv.ObjectMeta a)) secretName ;;
    match found with
    | Okay secret => Return (Okay secret)
    | Err _ => ret tt
    end ;;
    r <- getSecretFromKeyVault akvs ;;
    secretValues <- match r with
                    | Err err => Return (Err err)
                    | Okay v => ret v
                    end ;;
    r <- kube_Secrets_Create (metav1.Namespace (akv.ObjectMeta a))
           (createNewSecret a secretValues) ;;
    secret <- match r with
              | Err err => Return (Err err)
              | Okay secret => ret secret
              end ;;
    err <- updateAzureKeyVaultSecretStatusForSecret akvs
             (getMD5HashOfByteValues secretValues) ;;
    match err with
    | Some err => Return (Err err)
    | None => Return (Okay secret)
    end).

(** Modelled from the spec: [getOrCreateKubernetesConfigMap], the same for
    the config map output. *)
Definition getOrCreateKubernetesConfigMap {R : Type} (akvs : ptr)
  : M R (result corev1.ConfigMap) :=
  func (
    a <- deref akvs ;;
    let cmName := determineConfigMapName a in
    found <- configMapsLister_Get (metav1.Namespace (akv.ObjectMeta a)) cmName ;;
    match found with
    | Okay cm => Return (Okay cm)
    | Err _ => ret tt
    end ;;
    r <- getConfigMapFromKeyVault akvs ;;
    cmValues <- match r with
                | Err err => Return (Err err)
                | Okay v => ret v
                end ;;
    r <- kube_ConfigMaps_Create (metav1.Namespace (akv.ObjectMeta a))
           (createNewConfigMap a cmValues) ;;
    cm <- match r with
          | Err err => Return (Err err)
          | Okay cm => ret cm
          end ;;
    err <- updateAzureKeyVaultSecretStatusForConfigMap akvs
             (getMD5HashOfStringValues cmValues) ;;
    match err with
    | Some err => Return (Err err)
    | None => Return (Okay cm)
    end).

(** *** The Output Reconciler *)

(** [syncAzureKeyVaultSecret] (lines 97-140) *)
Definition syncAzureKeyVaultSecret {R : Type} (key : string) : M R (option error) :=
  func (
    log_Debugf "Processing AzureKeyVaultSecret %s" [ArgString key] ;;
    '(akvs, err) <- getAzureKeyVaultSecret key ;;
    match err with
    | Some err =>
        exit <- handleKeyVaultError err key ;;
        if exit then Return None else Return (Some err)
    | None => ret tt
    end ;;

    let outputObject : option NativeObject := None in
    hasSecret <- akvsHasOutputSecret akvs ;;
    outputObject <-
      (if hasSecret then
         r <- getOrCreateKubernetesSecret akvs ;;
         secret <- match r with
                   | Err err => Return (Some err)
                   | Okay secret => ret secret
                   end ;;
         log_Debugf "successfully synced azurekeyvaultsecret %s with kubernetes secret %s"
           [ArgString key;
            ArgString (Sprintf "%s/%s"
              [ArgString (metav1.Namespace (corev1.Secret_ObjectMeta secret));
               ArgString (metav1.Name (corev1.Secret_ObjectMeta secret))])] ;;
         recorder_Event (RefSecret secret) corev1.EventTypeNormal SuccessSynced
           MessageAzureKeyVaultSecretSynced ;;
         ret (Some (SecretObject secret))
       else ret outputObject) ;;

    hasConfigMap <- akvsHasOutputConfigMap akvs ;;
    outputObject <-
      (if hasConfigMap then
         r <- getOrCreateKubernetesConfigMap akvs ;;
         cm <- match r with
               | Err err => Return (Some err)
               | Okay cm => ret cm
               end ;;
         log_Debugf "successfully synced azurekeyvaultsecret %s with kubernetes configmap %s"
           [ArgString key;
            ArgString (Sprintf "%s/%s"
              [ArgString (metav1.Namespace (corev1.ConfigMap_ObjectMeta cm));
               ArgString (metav1.Name (corev1.ConfigMap_ObjectMeta cm))])] ;;
         recorder_Event (RefConfigMap cm) corev1.EventTypeNormal SuccessSynced
           MessageAzureKeyVaultSecretSynced ;;
         ret (Some (ConfigMapObject cm))
       else ret outputObject) ;;

    owned <- isOwnedBy outputObject akvs ;;
    (if negb owned then
       name <- GetName outputObject ;;
       let msg := Sprintf MessageResourceExists [ArgString name] in
       log_Warning msg ;;
       recorder_Event (RefAkvs akvs) corev1.EventTypeWarning ErrResourceExists msg ;;
       Return (Some (fmt_Errorf msg []))
     else ret tt) ;;

    Return None).

(** *** The Vault Reconciler *)

(** The secret block of [syncAzureKeyVault] (lines 154-192).  Its [Return]s
    leave [syncAzureKeyVault]. *)
Definition syncAzureKeyVault_secret (key : string) (akvs : ptr) : M (option error) unit :=
  hasSecret <- akvsHasOutputSecret akvs ;;
  (if hasSecret then
     log_Debugf "Getting secret value for %s in Azure" [ArgString key] ;;
     r <- getSecretFromKeyVault akvs ;;
     secretValue <-
       match r with
       | Err err =>
           a <- deref akvs ;;
           let msg := Sprintf FailedAzureKeyVault
                        [ArgString (metav1.Name (akv.ObjectMeta a));
                         ArgString (akv.Vault_Name (akv.Vault (akv.Spec a)))] in
           log_Errorf "failed to get secret value for '%s' from Azure Key vault '%s' using object name '%s', error: %+v"
             [ArgString key;
              ArgString (akv.Vault_Name (akv.Vault (akv.Spec a)));
              ArgString (akv.Object_Name (akv.Object (akv.Vault (akv.Spec a))));
              ArgError err] ;;
           recorder_Event (RefAkvs akvs) corev1.EventTypeWarning ErrAzureVault msg ;;
           Return (Some (fmt_Errorf msg []))
       | Okay v => ret v
       end ;;

     let akvsValuesHash := getMD5HashOfByteValues secretValue in

     log_Debugf "Checking if secret value for %s has changed in Azure" [ArgString key] ;;
     a <- deref akvs ;;
     (if negb (String.eqb (akv.SecretHash (akv.Status a)) akvsValuesHash) then
        log_Infof "Secret has changed in Azure Key Vault for AzureKeyvVaultSecret %s. Updating Secret now."
          [ArgString (metav1.Name (akv.ObjectMeta a))] ;;
        let outputName := akv.OutputSecret_Name (akv.Secret (akv.Output (akv.Spec a))) in
        r <- kube_Secrets_Get (metav1.Namespace (akv.ObjectMeta a)) outputName ;;
        existingSecret <-
          match r with
          | Err err =>
              Return (Some (fmt_Errorf "failed to get existing secret %s, error: %+v"
                              [ArgString outputName; ArgError err]))
          | Okay secret => ret secret
          end ;;
        updatedSecret <-
          match updateExistingSecret a secretValue existingSecret with
          | Err err =>
              Return (Some (fmt_Errorf "failed to update existing secret %s, error: %+v"
                              [ArgString outputName; ArgError err]))
          | Okay secret => ret secret
          end ;;
        r <- kube_Secrets_Update (metav1.Namespace (akv.ObjectMeta a)) updatedSecret ;;
        secret <-
          match r with
          | Err err =>
              Return (Some (fmt_Errorf "failed to update secret, error: %+v" [ArgError err]))
          | Okay secret => ret secret
          end ;;
        log_Warningf "Secret value will now change for Secret '%s'. Any resources (like Pods) using this Secret must be restarted to pick up the new value. Details: https://github.com/kubernetes/kubernetes/issues/22368"
          [ArgString (metav1.Name (corev1.Secret_ObjectMeta secret))]
      else ret tt) ;;

     log_Debugf "Updating status for AzureKeyVaultSecret '%s'"
       [ArgString (metav1.Name (akv.ObjectMeta a))] ;;
     err <- updateAzureKeyVaultSecretStatusForSecret akvs akvsValuesHash ;;
     match err with
     | Some err => Return (Some err)
     | None => ret tt
     end
   else ret tt).

(** The config map block of [syncAzureKeyVault] (lines 194-223). *)
Definition syncAzureKeyVault_configMap (key : string) (akvs : ptr)
  : M (option error) unit :=
  hasConfigMap <- akvsHasOutputConfigMap akvs ;;
  (if hasConfigMap then
     log_Debugf "Getting secret value for %s in Azure" [ArgString key] ;;
     r <- getConfigMapFromKeyVault akvs ;;
     cmValue <-
       match r with
       | Err err =>
           a <- deref akvs ;;
           let msg := Sprintf FailedAzureKeyVault
                        [ArgString (metav1.Name (akv.ObjectMeta a));
                         ArgString (akv.Vault_Name (akv.Vault (akv.Spec a)))] in
           log_Errorf "failed to get secret value for '%s' from Azure Key vault '%s' using object name '%s', error: %+v"
             [ArgString key;
              ArgString (akv.Vault_Name (akv.Vault (akv.Spec a)));
              ArgString (akv.Object_Name (akv.Object (akv.Vault (akv.Spec a))));
              ArgError err] ;;
           recorder_Event (RefAkvs akvs) corev1.EventTypeWarning ErrAzureVault msg ;;
           Return (Some (fmt_Errorf msg []))
       | Okay v => ret v
       end ;;

     let cmHash := getMD5HashOfStringValues cmValue in

     log_Debugf "Checking if secret value for %s has changed in Azure" [ArgString key] ;;
     a <- deref akvs ;;
     (if negb (String.eqb (akv.ConfigMapHash (akv.Status a)) cmHash) then
        log_Infof "Secret has changed in Azure Key Vault for AzureKeyvVaultSecret %s. Updating Secret now."
          [ArgString (metav1.Name (akv.ObjectMeta a))] ;;
        r <- kube_ConfigMaps_Update (metav1.Namespace (akv.ObjectMeta a))
               (createNewConfigMap a cmValue) ;;
        cm <-
          match r with
          | Err err =>
              log_Warningf "Failed to create Secret, Error: %+v" [ArgError err] ;;
              Return (Some err)
          | Okay cm => ret cm
          end ;;
        log_Warningf "Secret value will now change for Secret '%s'. Any resources (like Pods) using this Secret must be restarted to pick up the new value. Details: https://github.com/kubernetes/kubernetes/issues/22368"
          [ArgString (metav1.Name (corev1.ConfigMap_ObjectMeta cm))]
      else ret tt) ;;

     log_Debugf "Updating status for AzureKeyVaultSecret '%s'"
       [ArgString (metav1.Name (akv.ObjectMeta a))] ;;
     err <- updateAzureKeyVaultSecretStatusForConfigMap akvs cmHash ;;
     match err with
     | Some err => Return (Some err)
     | None => ret tt
     end
   else ret tt).

(** [syncAzureKeyVault] (lines 142-228) *)
Definition syncAzureKeyVault {R : Type} (key : string) : M R (option error) :=
  func (
    log_Debugf "Checking state for %s in Azure" [ArgString key] ;;
    '(akvs, err) <- getAzureKeyVaultSecret key ;;
    match err with
    | Some err =>
        exit <- handleKeyVaultError err key ;;
        if exit then Return None else Return (Some err)
    | None => ret tt
    end ;;

    syncAzureKeyVault_secret key akvs ;;

    syncAzureKeyVault_configMap key akvs ;;

    log_Debugf "Successfully synced AzureKeyVaultSecret %s with Azure Key Vault"
      [ArgString key] ;;
    recorder_Event (RefAkvs akvs) corev1.EventTypeNormal SuccessSynced
      MessageAzureKeyVaultSecretSyncedWithAzureKeyVault ;;
    Return None).

(** *** The Event Dispatcher *)

Record ResourceEventHandlerFuncs := mkHandlers {
  AddFunc : Payload -> M unit unit;
  UpdateFunc : Payload -> Payload -> M unit unit;
  DeleteFunc : Payload -> M unit unit
}.

(** The error check that opens every handler (lines 42-44, 54-56, 59-61,
    77-79): the failure is logged and control falls through. *)
Definition logConversionError {R : Type} (err : option error) : M R unit :=
  match err with
  | Some err => log_Errorf "failed to convert to azurekeyvaultsecret: %v" [ArgError err]
  | None => ret tt
  end.

(** [initAzureKeyVaultSecret] (lines 38-95): the three handlers it registers
    with the informer. *)
Definition initAzureKeyVaultSecret : ResourceEventHandlerFuncs := {|
  AddFunc := fun obj => func (
    let '(secret, err) := convertToAzureKeyVaultSecret obj in
    logConversionError err ;;

    hasOutput <- akvsHasOutputDefined secret ;;
    (if hasOutput then
       s <- deref secret ;;
       log_Debugf "AzureKeyVaultSecret %s/%s added. Adding to queue."
         [ArgString (metav1.Namespace (akv.ObjectMeta s));
          ArgString (metav1.Name (akv.ObjectMeta s))] ;;
       queue_Enqueue akvsCrdQueue obj
     else ret tt) ;;
    Return tt);

  UpdateFunc := fun old new => func (
    let '(newSecret, err) := convertToAzureKeyVaultSecret new in
    logConversionError err ;;

    let '(oldSecret, err) := convertToAzureKeyVaultSecret old in
    logConversionError err ;;

    n <- deref newSecret ;;
    o <- deref oldSecret ;;
    unchanged <-
      (if String.eqb (metav1.ResourceVersion (akv.ObjectMeta n))
            (metav1.ResourceVersion (akv.ObjectMeta o))
       then akvsHasOutputDefined newSecret
       else ret false) ;;
    (if unchanged then
       log_Debugf "AzureKeyVaultSecret %s/%s not changed. Adding to Azure Key Vault queue to check if secret has changed in Azure Key Vault."
         [ArgString (metav1.Namespace (akv.ObjectMeta n));
          ArgString (metav1.Name (akv.ObjectMeta n))] ;;
       queue_Enqueue azureKeyVaultQueue new ;;
       Return tt
     else ret tt) ;;

    hasOutput <-
      (newHasOutput <- akvsHasOutputDefined newSecret ;;
       if newHasOutput then ret true else akvsHasOutputDefined oldSecret) ;;
    (if hasOutput then
       log_Debugf "AzureKeyVaultSecret %s/%s changed. Adding to queue."
         [ArgString (metav1.Namespace (akv.ObjectMeta n));
          ArgString (metav1.Name (akv.ObjectMeta n))] ;;
       queue_Enqueue akvsCrdQueue new
     else ret tt) ;;
    Return tt);

  DeleteFunc := fun obj => func (
    let '(secret, err) := convertToAzureKeyVaultSecret obj in
    logConversionError err ;;

    hasOutput <- akvsHasOutputDefined secret ;;
    (if hasOutput then
       s <- deref secret ;;
       log_Debugf "AzureKeyVaultSecret %s/%s deleted. Adding to delete queue."
         [ArgString (metav1.Namespace (akv.ObjectMeta s));
          ArgString (metav1.Name (akv.ObjectMeta s))] ;;
       queue_Enqueue akvsCrdQueue obj ;;

       '(key, err) <- cache_MetaNamespaceKeyFunc obj ;;
       match err with
       | Some err =>
           utilruntime_HandleError err ;;
           Return tt
       | None => ret tt
       end ;;
       queue_Forget azureKeyVaultQueue key
     else ret tt) ;;
    Return tt)
|}.

(** What the informer delivers. *)
Inductive LifecycleEvent : Type :=
| OnAdd (obj : Payload)
| OnUpdate (old new : Payload)
| OnDelete (obj : Payload).

Definition dispatch (ev : LifecycleEvent) : M unit unit :=
  match ev with
  | OnAdd obj => AddFunc initAzureKeyVaultSecret obj
  | OnUpdate old new => UpdateFunc initAzureKeyVaultSecret old new
  | OnDelete obj => DeleteFunc initAzureKeyVaultSecret obj
  end.

End Controller.

Arguments Next {collab R A} a w.
Arguments Returned {collab R A} r w.
Arguments Panicked {collab R A} w.

(** ** A concrete cluster

    One instance of the collaborators, small enough to run: the vault is a
    table of values by vault and object name, a digest is the text it is
    computed from, a transformation is known by name. *)

Module Demo.

Definition showArg (a : fmtArg) : string :=
  match a with
  | ArgString s => s
  | ArgError err => Error err
  | ArgPayload _ => "<object>"
  end.

Definition sprintf (format : string) (args : list fmtArg) : string :=
  fold_left (fun acc a => (acc ++ " | " ++ showArg a)%string) args format.

(** Modelled from the spec: [transformers.CreateTransformator], which is
    defined in another package of the repository.  Section 4.4 has the
    transformation selected by the output specification, and has the
    selection fail fast on an unsupported or invalid transformation request:
    the result is the list of transformations of the output when each of
    them is known, and an error naming the first unknown one otherwise.
    Which names are known is a choice of this instance. *)
Definition knownTransform (t : string) : bool :=
  String.eqb t "trim" || String.eqb t "base64encode" || String.eqb t "base64decode".

Definition createTransformator (output : akv.AzureKeyVaultOutput) : result (list string) :=
  match find (fun t => negb (knownTransform t)) (akv.Transforms output) with
  | Some t =>
      Err (mkError StatusReasonUnknown
             (sprintf "transform type '%s' not currently supported" [ArgString t]))
  | None => Okay (akv.Transforms output)
  end.

Definition Vault : Type := list (NsName * string).

Definition fetch (vault : Vault) (a : akv.AzureKeyVaultSecret) : result string :=
  let v := akv.Vault (akv.Spec a) in
  match alist_get (akv.Vault_Name v, akv.Object_Name (akv.Object v)) vault with
  | Some value => Okay value
  | None => Err (mkError StatusReasonNotFound "vault object not found")
  end.

Definition secretData (vault : Vault) (kind : HandlerKind (list string))
    (a : akv.AzureKeyVaultSecret) : result (list (string * list byte)) :=
  match fetch vault a with
  | Okay value =>
      Okay [(akv.OutputSecret_DataKey (akv.Secret (akv.Output (akv.Spec a))),
             list_byte_of_string value)]
  | Err err => Err err
  end.

Definition configMapData (vault : Vault) (kind : HandlerKind (list string))
    (a : akv.AzureKeyVaultSecret) : result (list (string * string)) :=
  match fetch vault a with
  | Okay value =>
      Okay [(akv.OutputConfigMap_DataKey (akv.ConfigMap (akv.Output (akv.Spec a))), value)]
  | Err err => Err err
  end.

Definition md5OfStringValues (values : list (string * string)) : string :=
  fold_left (fun acc kv => (acc ++ fst kv ++ "=" ++ snd kv ++ ";")%string) values "".

Definition md5OfByteValues (values : list (string * list byte)) : string :=
  md5OfStringValues (map (fun kv => (fst kv, string_of_list_byte (snd kv))) values).

Definition secretName (a : akv.AzureKeyVaultSecret) : string :=
  akv.OutputSecret_Name (akv.Secret (akv.Output (akv.Spec a))).

Definition configMapName (a : akv.AzureKeyVaultSecret) : string :=
  akv.OutputConfigMap_Name (akv.ConfigMap (akv.Output (akv.Spec a))).

Definition ownerReference (a : akv.AzureKeyVaultSecret) : metav1.OwnerReference :=
  metav1.mkOwnerReference "AzureKeyVaultSecret" (metav1.Name (akv.ObjectMeta a))
    (metav1.UID (akv.ObjectMeta a)) true.

Definition newSecret (a : akv.AzureKeyVaultSecret) (values : list (string * list byte))
  : corev1.Secret :=
  corev1.mkSecret
    (metav1.mkObjectMeta (secretName a) (metav1.Namespace (akv.ObjectMeta a))
       "" "" [ownerReference a])
    "Opaque" values.

Definition newConfigMap (a : akv.AzureKeyVaultSecret) (values : list (string * string))
  : corev1.ConfigMap :=
  corev1.mkConfigMap
    (metav1.mkObjectMeta (configMapName a) (metav1.Namespace (akv.ObjectMeta a))
       "" "" [ownerReference a])
    values.

Definition updateSecret (a : akv.AzureKeyVaultSecret)
    (values : list (string * list byte)) (existing : corev1.Secret) : result corev1.Secret :=
  Okay (corev1.mkSecret (corev1.Secret_ObjectMeta existing) (corev1.Secret_Type existing) values).

Definition collab : Collaborators := {|
  VaultService := Vault;
  Transformator := list string;
  Sprintf := sprintf;
  SuccessSynced := "Synced";
  ErrResourceExists := "ErrResourceExists";
  ErrAzureVault := "ErrAzureVault";
  MessageResourceExists := "Resource %q already exists and is not managed by AzureKeyVaultSecret";
  MessageAzureKeyVaultSecretSynced := "AzureKeyVaultSecret synced successfully";
  MessageAzureKeyVaultSecretSyncedWithAzureKeyVault :=
    "AzureKeyVaultSecret synced successfully with Azure Key Vault";
  FailedAzureKeyVault := "Failed to get secret for '%s' from Azure Key Vault '%s'";
  CreateTransformator := createTransformator;
  vaultSecretData := secretData;
  vaultConfigMapData := configMapData;
  getMD5HashOfByteValues := md5OfByteValues;
  getMD5HashOfStringValues := md5OfStringValues;
  determineSecretName := secretName;
  determineConfigMapName := configMapName;
  updateExistingSecret := updateSecret;
  createNewSecret := newSecret;
  createNewConfigMap := newConfigMap
|}.

(** The declaring resource [ns/foo] over the vault object [kv/db-password]. *)
Definition resource (rv outSecret outConfigMap objectType : string)
    (transforms : list string) (status : akv.AzureKeyVaultSecretStatus)
  : akv.AzureKeyVaultSecret :=
  akv.mkAzureKeyVaultSecret
    (metav1.mkObjectMeta "foo" "ns" rv "uid-foo" [])
    (akv.mkSpec
       (akv.mkAzureKeyVault "kv" (akv.mkAzureKeyVaultObject "db-password" objectType))
       (akv.mkAzureKeyVaultOutput
          (akv.mkOutputSecret outSecret "password")
          (akv.mkOutputConfigMap outConfigMap "password")
          transforms))
    status.

Definition noStatus : akv.AzureKeyVaultSecretStatus := akv.mkStatus "" 0 "" "" "".

Definition emptyQueue : Queue := mkQueue [] [].

(** A cluster holding the given resources (the first one cached as
    [ns/foo]), native objects and vault content. *)
Definition cluster (objects : list akv.AzureKeyVaultSecret)
    (secrets : list (NsName * corev1.Secret))
    (configMaps : list (NsName * corev1.ConfigMap)) : @World collab :=
  @mkWorld collab objects [(("ns", "foo"), 0)] secrets configMaps
    [(("kv", "db-password"), "p@ss")] 100 emptyQueue emptyQueue [] [] [].

(** A native object somebody else created: it has no owner reference. *)
Definition foreignSecret : corev1.Secret :=
  corev1.mkSecret (metav1.mkObjectMeta "foo-secret" "ns" "7" "uid-x" []) "Opaque"
    [("password", list_byte_of_string "other")].

Definition ownedConfigMap : corev1.ConfigMap :=
  corev1.mkConfigMap
    (metav1.mkObjectMeta "foo-cm" "ns" "3" "uid-cm"
       [metav1.mkOwnerReference "AzureKeyVaultSecret" "foo" "uid-foo" true])
    [("password", "p@ss")].

Definition ownedSecret : corev1.Secret :=
  corev1.mkSecret
    (metav1.mkObjectMeta "foo-secret" "ns" "3" "uid-s"
       [metav1.mkOwnerReference "AzureKeyVaultSecret" "foo" "uid-foo" true])
    "Opaque" [("password", list_byte_of_string "old")].

End Demo.

(** ** Concrete cases *)

Module Cases.
Import Demo.

(** [ns/foo] with both outputs; a secret of the output name exists and
    belongs to somebody else, the config map is the resource's own. *)
Definition bothOutputs : akv.AzureKeyVaultSecret :=
  resource "1" "foo-secret" "foo-cm" "secret" [] noStatus.

Definition nameCollision : @World collab :=
  cluster [bothOutputs] [(("ns", "foo-secret"), foreignSecret)]
    [(("ns", "foo-cm"), ownedConfigMap)].

(** [ns/foo] with a config map output whose recorded digest is out of date. *)
Definition configMapOnly (status : akv.AzureKeyVaultSecretStatus) : akv.AzureKeyVaultSecret :=
  resource "1" "" "foo-cm" "secret" [] status.

Definition staleConfigMap : @World collab :=
  cluster [configMapOnly (akv.mkStatus "" 0 "" "password=old;" "foo-cm")] []
    [(("ns", "foo-cm"), ownedConfigMap)].

(** [ns/foo] with a secret output. *)
Definition secretOnly (status : akv.AzureKeyVaultSecretStatus) : akv.AzureKeyVaultSecret :=
  resource "1" "foo-secret" "" "secret" [] status.

Definition staleSecret : @World collab :=
  cluster [secretOnly (akv.mkStatus "password=old;" 0 "foo-secret" "" "")]
    [(("ns", "foo-secret"), ownedSecret)] [].

Definition freshSecret : @World collab :=
  cluster [secretOnly (akv.mkStatus "password=p@ss;" 0 "foo-secret" "" "")]
    [(("ns", "foo-secret"), ownedSecret)] [].

(** The world a pass leaves behind. *)
Definition after (o : @Out collab unit (option error)) : @World collab :=
  match o with
  | Next _ w | Returned _ w | Panicked w => w
  end.

(** An update that removes the only output of [ns/foo]. *)
Definition outputRemoved : @World collab :=
  cluster [secretOnly noStatus; resource "2" "" "" "secret" [] noStatus] [] [].

(** [ns/foo] is being deleted while the vault-drift queue still counts
    retries for it. *)
Definition pendingRetry : @World collab :=
  set_vaultQueue (mkQueue [] [("ns/other", 1); ("ns/foo", 3)]) staleSecret.


(** [ns/foo] after its last output was removed. *)
Definition outputGone : @World collab :=
  cluster [resource "2" "" "" "secret" [] noStatus] [] [].

(** What a handler logs for a payload of another type. *)
Definition conversionFailure : Level * string :=
  (ErrorLevel,
   sprintf "failed to convert to azurekeyvaultsecret: %v"
     [ArgError (mkError StatusReasonUnknown
                  (sprintf "couldn't get object from tombstone %#v"
                     [ArgPayload (POther "Pod")]))]).


(** A plain secret with a transformation nobody knows. *)
Definition unknownTransform : @World collab :=
  cluster [resource "1" "foo-secret" "foo-cm" "secret" ["rot13"] noStatus] [] [].

(** [ns/foo] with a secret output, while the secret of that name belongs to
    somebody else. *)
Definition foreignOnly : @World collab :=
  cluster [secretOnly noStatus] [(("ns", "foo-secret"), foreignSecret)] [].

(** [ns/foo] with a secret output and an old digest, while the secret is
    gone. *)
Definition missingSecret : @World collab :=
  cluster [secretOnly (akv.mkStatus "password=old;" 0 "foo-secret" "" "")] [] [].

(** [ns/foo] with both outputs, both digests up to date. *)
Definition settled : akv.AzureKeyVaultSecret :=
  resource "1" "foo-secret" "foo-cm" "secret" []
    (akv.mkStatus "password=p@ss;" 0 "foo-secret" "password=p@ss;" "foo-cm").

Definition settledBoth : @World collab :=
  cluster [settled] [(("ns", "foo-secret"), ownedSecret)]
    [(("ns", "foo-cm"), ownedConfigMap)].



(** Stand-ins for the helpers of the change detectors: the secret type is
    always [Opaque], the digest of an object is the digest of its data. *)
Definition secretType (a : akv.AzureKeyVaultSecret) : string := "Opaque".

Definition md5OfSecret (values : list (string * list byte)) (secret : corev1.Secret)
  : string :=
  md5OfByteValues (corev1.Secret_Data secret).

Definition md5OfConfigMap (values : list (string * string)) (cm : corev1.ConfigMap)
  : string :=
  md5OfStringValues (corev1.ConfigMap_Data cm).

End Cases.

(** ** Reading the world *)

Unset Implicit Arguments.

Section Properties.

Context {collab : Collaborators}.

(** The output tests of lines 245-255 on a resource value. *)
Definition hasOutputSecret (a : akv.AzureKeyVaultSecret) : bool :=
  negb (String.eqb (akv.OutputSecret_Name (akv.Secret (akv.Output (akv.Spec a)))) "").

Definition hasOutputConfigMap (a : akv.AzureKeyVaultSecret) : bool :=
  negb (String.eqb (akv.OutputConfigMap_Name (akv.ConfigMap (akv.Output (akv.Spec a)))) "").

Definition hasOutputDefined (a : akv.AzureKeyVaultSecret) : bool :=
  hasOutputSecret a || hasOutputConfigMap a.

(** The work key of a resource. *)
Definition namespaceKey (a : akv.AzureKeyVaultSecret) : string :=
  let meta := akv.ObjectMeta a in
  if (0 <? String.length (metav1.Namespace meta))%nat
  then (metav1.Namespace meta ++ "/" ++ metav1.Name meta)%string
  else metav1.Name meta.

(** The resource an event payload converts to, when it does. *)
Definition resourceOf (w : World) (obj : Payload) : option akv.AzureKeyVaultSecret :=
  match convertToAzureKeyVaultSecret obj with
  | (Addr n, None) => nth_error (heap w) n
  | _ => None
  end.

(** The cached resource a work key resolves to. *)
Definition resolves (w : World) (key : string) (n : nat) : Prop :=
  exists namespace name,
    cache_SplitMetaNamespaceKey key = (namespace, name, None)
    /\ alist_get (namespace, name) (akvsStore w) = Some n.

(** The writes of native objects, the status writes and the warning events
    recorded so far. *)
Definition nativeWrites (w : World) : list ApiCall := filter isNativeWrite (calls w).

Definition statusWrites (w : World) : list ApiCall := filter isStatusWrite (calls w).

Definition warnings (w : World) : list Event :=
  filter (fun e => String.eqb (Event_Type e) corev1.EventTypeWarning) (events w).

(** An event none of whose resources has an output defined. *)
Definition inert (w : World) (ev : LifecycleEvent) : Prop :=
  match ev with
  | OnAdd obj | OnDelete obj =>
      exists a, resourceOf w obj = Some a /\ hasOutputDefined a = false
  | OnUpdate old new =>
      exists o n,
        resourceOf w old = Some o /\ resourceOf w new = Some n
        /\ hasOutputDefined o = false /\ hasOutputDefined n = false
  end.

(** An event with a payload that is not a declaring resource. *)
Definition unconvertible (ev : LifecycleEvent) : Prop :=
  match ev with
  | OnAdd obj | OnDelete obj | OnUpdate _ obj =>
      exists err, convertToAzureKeyVaultSecret obj = (nil_ptr, Some err)
  end.

(** What the switch of [getSecretFromKeyVault] and the selected handler
    yield for a resource value. *)
Definition kindOf (a : akv.AzureKeyVaultSecret) : result (HandlerKind Transformator) :=
  let objectType := akv.Object_Type (akv.Object (akv.Vault (akv.Spec a))) in
  if String.eqb objectType akv.AzureKeyVaultObjectTypeSecret then
    match CreateTransformator (akv.Output (akv.Spec a)) with
    | Err err => Err err
    | Okay transformator => Okay (SecretKind transformator)
    end
  else if String.eqb objectType akv.AzureKeyVaultObjectTypeCertificate then Okay CertificateKind
  else if String.eqb objectType akv.AzureKeyVaultObjectTypeKey then Okay KeyKind
  else if String.eqb objectType akv.AzureKeyVaultObjectTypeMultiKeyValueSecret
  then Okay MultiKeySecretKind
  else Err (fmt_Errorf "azure key vault object type '%s' not currently supported"
              [ArgString objectType]).

Definition secretValuesOf (vault : VaultService) (a : akv.AzureKeyVaultSecret)
  : result (list (string * list byte)) :=
  match kindOf a with
  | Okay kind => vaultSecretData vault kind a
  | Err err => Err err
  end.

Definition configMapValuesOf (vault : VaultService) (a : akv.AzureKeyVaultSecret)
  : result (list (string * string)) :=
  match kindOf a with
  | Okay kind => vaultConfigMapData vault kind a
  | Err err => Err err
  end.


(** ** Status writes *)

(** The state in which the status client is called: the copy has been
    allocated and filled in, the clock has been read, the call is recorded. *)
Definition submitting (namespace : string) (obj : akv.AzureKeyVaultSecret) (w : World)
  : World :=
  set_calls (calls w ++ [AzureKeyVaultSecretsUpdateStatus namespace obj])
    (set_clock (clock w + 1)%Z (set_heap (heap w ++ [obj]) w)).

(** The copies the three status writers submit. *)
Definition statusForSecret (a : akv.AzureKeyVaultSecret) (secretHash : string) (now : Z)
  : akv.AzureKeyVaultSecret :=
  akv.mkAzureKeyVaultSecret (akv.ObjectMeta a) (akv.Spec a)
    (akv.mkStatus secretHash now (determineSecretName a)
       (akv.ConfigMapHash (akv.Status a)) (akv.ConfigMapName (akv.Status a))).

Definition statusForConfigMap (a : akv.AzureKeyVaultSecret) (cmHash : string) (now : Z)
  : akv.AzureKeyVaultSecret :=
  akv.mkAzureKeyVaultSecret (akv.ObjectMeta a) (akv.Spec a)
    (akv.mkStatus (akv.SecretHash (akv.Status a)) now (akv.SecretName (akv.Status a))
       cmHash (determineConfigMapName a)).

Definition statusForBoth (a : akv.AzureKeyVaultSecret)
    (secretName cmName secretHash cmHash : string) (now : Z) : akv.AzureKeyVaultSecret :=
  akv.mkAzureKeyVaultSecret (akv.ObjectMeta a) (akv.Spec a)
    (akv.mkStatus secretHash now secretName cmHash cmName).

(** Submitting a copy: what every status writer comes down to. *)
Definition submit (R : Type) (namespace : string) (obj : akv.AzureKeyVaultSecret) (w : World)
  : Out R (option error) :=
  let '(r, w') := server_UpdateStatus namespace obj (submitting namespace obj w) in
  Next (snd r) w'.

(** A status write that left every existing cell alone and submitted a new
    one. *)
Definition wroteCopy (w w' : World) (namespace : string) (obj : akv.AzureKeyVaultSecret)
  : Prop :=
  (forall m b, nth_error (heap w) m = Some b -> nth_error (heap w') m = Some b)
  /\ nth_error (heap w) (length (heap w)) = None
  /\ nth_error (heap w') (length (heap w)) = Some obj
  /\ calls w' = calls w ++ [AzureKeyVaultSecretsUpdateStatus namespace obj].

(** ** A Hoare logic for the monad

    [hoare P m Q QR]: from a world in [P] the statement [m] does not panic;
    it falls through into [Q] or leaves the function into [QR]. *)

Definition hoare {R A : Type} (P : World -> Prop) (m : M R A)
    (Q : A -> World -> Prop) (QR : R -> World -> Prop) : Prop :=
  forall w, P w ->
    match m w with
    | Next x w' => Q x w'
    | Returned r w' => QR r w'
    | Panicked _ => False
    end.

(** The invariant of both reconcilers: the resource they resolved is still
    in its cell. *)
Definition keeps (n : nat) (a : akv.AzureKeyVaultSecret) (w : World) : Prop :=
  nth_error (heap w) n = Some a.

(** ** Drift *)

(** For every output the resource defines, the vault yields data whose
    digest is the one recorded in the status. *)
Definition noDrift (vault : VaultService) (a : akv.AzureKeyVaultSecret) : Prop :=
  (hasOutputSecret a = true ->
   exists v, secretValuesOf vault a = Okay v
             /\ akv.SecretHash (akv.Status a) = getMD5HashOfByteValues v)
  /\ (hasOutputConfigMap a = true ->
      exists v, configMapValuesOf vault a = Okay v
                /\ akv.ConfigMapHash (akv.Status a) = getMD5HashOfStringValues v).

(** The status write of the first block that runs for the resource, when
    there is no drift. *)
Definition firstStatusWrite (a : akv.AzureKeyVaultSecret) (now : Z) : ApiCall :=
  AzureKeyVaultSecretsUpdateStatus (metav1.Namespace (akv.ObjectMeta a))
    (if hasOutputSecret a
     then statusForSecret a (akv.SecretHash (akv.Status a)) now
     else statusForConfigMap a (akv.ConfigMapHash (akv.Status a)) now).

(** The resource as the API server stores it after accepting a status. *)
Definition accepted (a : akv.AzureKeyVaultSecret) (status : akv.AzureKeyVaultSecretStatus)
  : akv.AzureKeyVaultSecret :=
  akv.mkAzureKeyVaultSecret (bumpResourceVersion (akv.ObjectMeta a)) (akv.Spec a) status.

(** What a block that wrote a native object and had its status write accepted
    leaves behind. *)
Definition refreshed (w w' : World) (n : nat) (a : akv.AzureKeyVaultSecret)
    (status : akv.AzureKeyVaultSecretStatus) : Prop :=
  keeps n a w' /\ vaultService w' = vaultService w
  /\ alist_get (metav1.Namespace (akv.ObjectMeta a), metav1.Name (akv.ObjectMeta a))
       (akvsStore w') = Some (S (length (heap w)))
  /\ nth_error (heap w') (S (length (heap w))) = Some (accepted a status).

Definition isError (r : option error) (_ : World) : Prop := r <> None.





(** ** Frames *)

(** The world an outcome leaves behind. *)
Definition worldOf {R A : Type} (o : Out R A) : World :=
  match o with
  | Next _ w | Returned _ w | Panicked w => w
  end.

(** Two worlds with the same cluster: memory, cache, native objects, vault,
    clock, recorded events and API calls agree.  The queues and the log may
    differ. *)
Definition sameCluster (w w' : World) : Prop :=
  heap w' = heap w /\ akvsStore w' = akvsStore w /\ secrets w' = secrets w
  /\ configMaps w' = configMaps w /\ vaultService w' = vaultService w
  /\ clock w' = clock w /\ events w' = events w /\ calls w' = calls w.

Definition sameQueues (w w' : World) : Prop :=
  crdQueue w' = crdQueue w /\ vaultQueue w' = vaultQueue w.

(** A statement whose outcome, whatever it is, leaves a world related to the
    one it started from. *)
Definition stable {R A : Type} (rel : World -> World -> Prop) (m : M R A) : Prop :=
  forall w, rel w (worldOf (m w)).

(** The API calls a pass of the Vault Reconciler is made of: reading a
    secret, updating a secret or a config map, updating a status. *)
Definition vaultPassCall (c : ApiCall) : bool :=
  match c with
  | SecretsGet _ _ | SecretsUpdate _ _ | ConfigMapsUpdate _ _
  | AzureKeyVaultSecretsUpdateStatus _ _ => true
  | _ => false
  end.

(** What a pass of the Vault Reconciler does to the world at most: the
    queues and the vault are as before, and the API calls it added are all
    of the kinds above. *)
Definition vaultPassFrame (w w' : World) : Prop :=
  sameQueues w w' /\ vaultService w' = vaultService w
  /\ exists more, calls w' = calls w ++ more /\ forallb vaultPassCall more = true.

(** ** Keys *)

(** A namespace or a name that can be part of a work key. *)
Fixpoint noSlash (s : string) : bool :=
  match s with
  | EmptyString => true
  | String c rest => negb (Ascii.eqb c "/"%char) && noSlash rest
  end.

(** The error both reconcilers return for a key they cannot split. *)
Definition invalidKey (key : string) : error :=
  fmt_Errorf "invalid resource key: %s" [ArgString key].

(** ** Ownership *)

(** The test of [isOwnedBy] on values. *)
Definition controlledBy (meta : metav1.ObjectMeta) (a : akv.AzureKeyVaultSecret) : bool :=
  match metav1.GetControllerOf meta with
  | Some ref =>
      String.eqb (metav1.Kind ref) "AzureKeyVaultSecret"
      && String.eqb (metav1.RefName ref) (metav1.Name (akv.ObjectMeta a))
      && String.eqb (metav1.RefUID ref) (metav1.UID (akv.ObjectMeta a))
  | None => false
  end.

(** The event recorded for an output object that exists already, and the
    error returned with it. *)
Definition resourceExists (name : string) : string :=
  Sprintf MessageResourceExists [ArgString name].

(** The event that closes a pass of the Vault Reconciler. *)
Definition syncedWithVault (akvs : ptr) : Event :=
  mkEvent (RefAkvs akvs) corev1.EventTypeNormal SuccessSynced
    MessageAzureKeyVaultSecretSyncedWithAzureKeyVault.

(** The invariant of the Vault Reconciler's blocks with the events recorded
    so far, and what a block leaves behind when it makes the pass return:
    an error, and at most one warning about the vault. *)
Definition keepsEvents (n : nat) (a : akv.AzureKeyVaultSecret) (evs : list Event)
    (w : World) : Prop :=
  keeps n a w /\ events w = evs.

Definition failedWith (n : nat) (evs : list Event) (r : option error) (w : World) : Prop :=
  r <> None
  /\ (events w = evs
      \/ exists msg,
           events w
           = evs ++ [mkEvent (RefAkvs (Addr n)) corev1.EventTypeWarning ErrAzureVault msg]).

(** ** Lists and tables *)

Lemma nth_error_app_keep (A : Type) (l l' : list A) (n : nat) (a : A) :
  nth_error l n = Some a -> nth_error (l ++ l') n = Some a.
Proof.
  intros H. rewrite nth_error_app1; [exact H |].
  apply nth_error_Some. rewrite H. discriminate.
Qed.

Lemma nth_error_app_last (A : Type) (l : list A) (a : A) :
  nth_error (l ++ [a]) (length l) = Some a.
Proof.
  rewrite nth_error_app2 by lia. rewrite Nat.sub_diag. reflexivity.
Qed.

Lemma list_update_app_last (A : Type) (f : A -> A) (l : list A) (a : A) :
  list_update (length l) f (l ++ [a]) = l ++ [f a].
Proof.
  induction l as [| x l IH]; simpl; [reflexivity | now rewrite IH].
Qed.

Lemma NsName_eqb_refl (k : NsName) : NsName_eqb k k = true.
Proof.
  unfold NsName_eqb. now rewrite !String.eqb_refl.
Qed.

Lemma alist_get_replace (V : Type) (k : NsName) (v v' : V) (l : list (NsName * V)) :
  alist_get k l = Some v -> alist_get k (alist_replace k v' l) = Some v'.
Proof.
  induction l as [| [k0 v0] l IH]; simpl; [discriminate |].
  destruct (NsName_eqb k k0) eqn:E; simpl; rewrite E; auto.
Qed.

(** ** The output tests *)

Lemma akvsHasOutputSecret_eq (R : Type) (w : World) (n : nat) (a : akv.AzureKeyVaultSecret) :
  nth_error (heap w) n = Some a ->
  akvsHasOutputSecret (R := R) (Addr n) w = Next (hasOutputSecret a) w.
Proof.
  intros H. unfold akvsHasOutputSecret, func, bind, deref, Return. now rewrite H.
Qed.

Lemma akvsHasOutputConfigMap_eq (R : Type) (w : World) (n : nat)
    (a : akv.AzureKeyVaultSecret) :
  nth_error (heap w) n = Some a ->
  akvsHasOutputConfigMap (R := R) (Addr n) w = Next (hasOutputConfigMap a) w.
Proof.
  intros H. unfold akvsHasOutputConfigMap, func, bind, deref, Return. now rewrite H.
Qed.

Lemma akvsHasOutputDefined_eq (R : Type) (w : World) (n : nat)
    (a : akv.AzureKeyVaultSecret) :
  nth_error (heap w) n = Some a ->
  akvsHasOutputDefined (R := R) (Addr n) w = Next (hasOutputDefined a) w.
Proof.
  intros H. unfold akvsHasOutputDefined, func, bind, hasOutputDefined.
  rewrite (akvsHasOutputSecret_eq _ _ _ _ H).
  destruct (hasOutputSecret a); simpl; [reflexivity |].
  now rewrite (akvsHasOutputConfigMap_eq _ _ _ _ H).
Qed.

Lemma akvsHasOutputDefined_nil (R : Type) (w : World) :
  akvsHasOutputDefined (R := R) nil_ptr w = Panicked w.
Proof. reflexivity. Qed.

Lemma resourceOf_inv (w : World) (obj : Payload) (a : akv.AzureKeyVaultSecret) :
  resourceOf w obj = Some a ->
  exists n, convertToAzureKeyVaultSecret obj = (Addr n, None)
            /\ nth_error (heap w) n = Some a.
Proof.
  unfold resourceOf.
  destruct (convertToAzureKeyVaultSecret obj) as [[| n] [err |]]; try discriminate.
  intros H. now exists n.
Qed.

(** ** The Event Dispatcher *)

Lemma MetaNamespaceKeyFunc_eq (R : Type) (w : World) (n : nat) (a : akv.AzureKeyVaultSecret) :
  nth_error (heap w) n = Some a ->
  cache_MetaNamespaceKeyFunc (R := R) (PAkvs (Addr n)) w = Next (namespaceKey a, None) w.
Proof.
  intros H. unfold cache_MetaNamespaceKeyFunc, bind, deref, namespaceKey. rewrite H.
  destruct (0 <? String.length (metav1.Namespace (akv.ObjectMeta a)))%nat; reflexivity.
Qed.

Lemma AddFunc_inert (w : World) (obj : Payload) (a : akv.AzureKeyVaultSecret) :
  resourceOf w obj = Some a -> hasOutputDefined a = false ->
  AddFunc initAzureKeyVaultSecret obj w = Next tt w.
Proof.
  intros Hr Ho. destruct (resourceOf_inv _ _ _ Hr) as [n [Hc Hn]].
  unfold initAzureKeyVaultSecret, AddFunc, func, bind. rewrite Hc. cbn.
  rewrite (akvsHasOutputDefined_eq _ _ _ _ Hn), Ho. reflexivity.
Qed.

Lemma DeleteFunc_inert (w : World) (obj : Payload) (a : akv.AzureKeyVaultSecret) :
  resourceOf w obj = Some a -> hasOutputDefined a = false ->
  DeleteFunc initAzureKeyVaultSecret obj w = Next tt w.
Proof.
  intros Hr Ho. destruct (resourceOf_inv _ _ _ Hr) as [n [Hc Hn]].
  unfold initAzureKeyVaultSecret, DeleteFunc, func, bind. rewrite Hc. cbn.
  rewrite (akvsHasOutputDefined_eq _ _ _ _ Hn), Ho. reflexivity.
Qed.

Lemma UpdateFunc_inert (w : World) (old new : Payload) (o n : akv.AzureKeyVaultSecret) :
  resourceOf w old = Some o -> resourceOf w new = Some n ->
  hasOutputDefined o = false -> hasOutputDefined n = false ->
  UpdateFunc initAzureKeyVaultSecret old new w = Next tt w.
Proof.
  intros Hro Hrn Ho Hn.
  destruct (resourceOf_inv _ _ _ Hro) as [io [Hco Hio]].
  destruct (resourceOf_inv _ _ _ Hrn) as [i [Hcn Hi]].
  unfold initAzureKeyVaultSecret, UpdateFunc, func, bind. rewrite Hcn, Hco. cbn.
  unfold deref. rewrite Hi, Hio.
  destruct (String.eqb _ _).
  - rewrite (akvsHasOutputDefined_eq _ _ _ _ Hi), Hn. cbn.
    rewrite (akvsHasOutputDefined_eq _ _ _ _ Hi), Hn.
    rewrite (akvsHasOutputDefined_eq _ _ _ _ Hio), Ho. reflexivity.
  - cbn. rewrite (akvsHasOutputDefined_eq _ _ _ _ Hi), Hn.
    rewrite (akvsHasOutputDefined_eq _ _ _ _ Hio), Ho. reflexivity.
Qed.

(** C5 (amended): an Add or Delete event for a resource without outputs, and
    an Update event whose old and new versions both have no output, enqueue
    nothing on either queue. *)
Theorem C5_inert_event_enqueues_nothing (w : World) (ev : LifecycleEvent) :
  inert w ev ->
  exists w', dispatch ev w = Next tt w'
             /\ crdQueue w' = crdQueue w /\ vaultQueue w' = vaultQueue w.
Proof.
  intros H. exists w. split; [| split; reflexivity].
  destruct ev as [obj | old new | obj]; cbn in H |- *.
  - destruct H as [a [Hr Ho]]. eapply AddFunc_inert; eassumption.
  - destruct H as [o [n [Hro [Hrn [Ho Hn]]]]]. eapply UpdateFunc_inert; eassumption.
  - destruct H as [a [Hr Ho]]. eapply DeleteFunc_inert; eassumption.
Qed.

(** A payload that fails conversion is logged and then used. *)
Lemma dispatch_unconvertible (w : World) (ev : LifecycleEvent) :
  unconvertible ev ->
  exists w' err,
    dispatch ev w = Panicked w'
    /\ In (ErrorLevel, Sprintf "failed to convert to azurekeyvaultsecret: %v" [ArgError err])
          (logs w')
    /\ crdQueue w' = crdQueue w /\ vaultQueue w' = vaultQueue w.
Proof.
  intros H.
  destruct ev as [obj | old new | obj]; cbn in H |- *; destruct H as [err H].
  - eexists; exists err.
    unfold initAzureKeyVaultSecret, AddFunc, func, bind. rewrite H. cbn.
    split; [reflexivity |]. cbn. split; [| split; reflexivity].
    apply in_or_app. right. now left.
  - unfold initAzureKeyVaultSecret, UpdateFunc, func, bind. rewrite H. cbn.
    destruct (convertToAzureKeyVaultSecret old) as [oldSecret [errOld |]]; cbn;
      eexists; exists err; (split; [reflexivity |]); cbn;
      (split; [| split; reflexivity]).
    + apply in_or_app. left. apply in_or_app. right. now left.
    + apply in_or_app. right. now left.
  - eexists; exists err.
    unfold initAzureKeyVaultSecret, DeleteFunc, func, bind. rewrite H. cbn.
    split; [reflexivity |]. cbn. split; [| split; reflexivity].
    apply in_or_app. right. now left.
Qed.

Lemma Queue_Add_In (key : string) (q : Queue) : In key (items (Queue_Add key q)).
Proof.
  unfold Queue_Add. destruct (existsb (String.eqb key) (items q)) eqn:E.
  - apply existsb_exists in E. destruct E as [x [Hx Heq]].
    apply String.eqb_eq in Heq. now subst.
  - cbn. apply in_or_app. right. now left.
Qed.

Lemma Queue_Forget_NumRequeues (key : string) (q : Queue) :
  Queue_NumRequeues key (Queue_Forget key q) = 0.
Proof.
  unfold Queue_NumRequeues, Queue_Forget. cbn.
  destruct (find _ _) as [e |] eqn:E; [| reflexivity].
  apply find_some in E. destruct E as [Hin Hk].
  apply filter_In in Hin. destruct Hin as [_ Hne].
  rewrite Hk in Hne. discriminate.
Qed.

(** A Delete event that carries the resource itself, with an output
    defined: the key is added to the structural queue and the vault-drift
    queue forgets it, so its requeue count is back to zero; nothing is added
    to the vault-drift queue. *)
Lemma DeleteFunc_enqueues_and_forgets (w : World) (obj : Payload)
    (a : akv.AzureKeyVaultSecret) (key : string) :
  resourceOf w obj = Some a ->
  hasOutputDefined a = true ->
  cache_MetaNamespaceKeyFunc (R := unit) obj w = Next (key, None) w ->
  exists w',
    dispatch (OnDelete obj) w = Next tt w'
    /\ crdQueue w' = Queue_Add key (crdQueue w)
    /\ In key (items (crdQueue w'))
    /\ vaultQueue w' = Queue_Forget key (vaultQueue w)
    /\ Queue_NumRequeues key (vaultQueue w') = 0
    /\ items (vaultQueue w') = items (vaultQueue w).
Proof.
  intros Hr Ho Hk. destruct (resourceOf_inv _ _ _ Hr) as [n [Hc Hn]].
  destruct obj as [p | k inner | t]; cbn in Hc; try discriminate.
  (* only the resource itself has a key: a tombstone contradicts [Hk] *)
  injection Hc as ->.
  rewrite (MetaNamespaceKeyFunc_eq _ _ _ _ Hn) in Hk. injection Hk as <-.
  assert (Hrun : dispatch (OnDelete (PAkvs (Addr n))) w
                 = Next tt
                     (set_vaultQueue (Queue_Forget (namespaceKey a) (vaultQueue w))
                        (set_crdQueue (Queue_Add (namespaceKey a) (crdQueue w))
                           (set_logs
                              (logs w ++
                               [(DebugLevel,
                                 Sprintf
                                   "AzureKeyVaultSecret %s/%s deleted. Adding to delete queue."
                                   [ArgString (metav1.Namespace (akv.ObjectMeta a));
                                    ArgString (metav1.Name (akv.ObjectMeta a))])]) w)))).
  { cbn. unfold func, bind. cbn.
    rewrite (akvsHasOutputDefined_eq _ _ _ _ Hn), Ho.
    unfold deref. rewrite Hn. cbn.
    unfold queue_Enqueue, cache_DeletionHandlingMetaNamespaceKeyFunc, func, bind.
    rewrite MetaNamespaceKeyFunc_eq with (a := a) by exact Hn.
    repeat (progress (cbn; rewrite ?Hn)).
    unfold namespaceKey.
    destruct (String.length (metav1.Namespace (akv.ObjectMeta a))); reflexivity. }
  eexists. split; [exact Hrun |]. cbn. repeat split.
  - apply Queue_Add_In.
  - apply Queue_Forget_NumRequeues.
Qed.

(** A Delete event that carries a tombstone around the resource.
    [queue.Enqueue] takes the key the tombstone carries, so the structural
    queue gets it; [cache.MetaNamespaceKeyFunc] of line 86 knows no
    tombstones, its error goes to [HandleError] and the handler returns
    before line 91: the vault-drift queue forgets nothing. *)
Lemma DeleteFunc_tombstone (w : World) (k : string) (n : nat)
    (a : akv.AzureKeyVaultSecret) :
  nth_error (heap w) n = Some a -> hasOutputDefined a = true ->
  exists w',
    dispatch (OnDelete (PTombstone k (PAkvs (Addr n)))) w = Next tt w'
    /\ crdQueue w' = Queue_Add k (crdQueue w) /\ vaultQueue w' = vaultQueue w.
Proof.
  intros Hn Ho. eexists. split.
  - cbn. unfold func, bind. cbn.
    rewrite (akvsHasOutputDefined_eq _ _ _ _ Hn), Ho.
    unfold deref. rewrite Hn. cbn. reflexivity.
  - split; reflexivity.
Qed.

(** ** Handler selection *)

Lemma selectHandler_eq (A : Type) (w : World) (n : nat) (a : akv.AzureKeyVaultSecret) :
  nth_error (heap w) n = Some a ->
  selectHandler (A := A) (Addr n) w =
  match kindOf a with
  | Okay (SecretKind transformator) =>
      Next (NewAzureSecretHandler (Addr n) (vaultService w) transformator) w
  | Okay CertificateKind => Next (NewAzureCertificateHandler (Addr n) (vaultService w)) w
  | Okay KeyKind => Next (NewAzureKeyHandler (Addr n) (vaultService w)) w
  | Okay MultiKeySecretKind => Next (NewAzureMultiKeySecretHandler (Addr n) (vaultService w)) w
  | Err err => Returned (Err err) w
  end.
Proof.
  intros H. unfold selectHandler, kindOf, bind, deref, c_vaultService. rewrite H.
  repeat (destruct (String.eqb _ _); [try reflexivity |]); try reflexivity.
  destruct (CreateTransformator _); reflexivity.
Qed.

Lemma getSecretFromKeyVault_eq (R : Type) (w : World) (n : nat)
    (a : akv.AzureKeyVaultSecret) :
  nth_error (heap w) n = Some a ->
  getSecretFromKeyVault (R := R) (Addr n) w = Next (secretValuesOf (vaultService w) a) w.
Proof.
  intros H. unfold getSecretFromKeyVault, func, bind, secretValuesOf.
  rewrite (selectHandler_eq _ _ _ _ H).
  destruct (kindOf a) as [[t | | |] | err]; cbn; unfold HandleSecret, bind, deref; cbn;
    rewrite ?H; reflexivity.
Qed.

Lemma getConfigMapFromKeyVault_eq (R : Type) (w : World) (n : nat)
    (a : akv.AzureKeyVaultSecret) :
  nth_error (heap w) n = Some a ->
  getConfigMapFromKeyVault (R := R) (Addr n) w =
  Next (configMapValuesOf (vaultService w) a) w.
Proof.
  intros H. unfold getConfigMapFromKeyVault, func, bind, configMapValuesOf.
  rewrite (selectHandler_eq _ _ _ _ H).
  destruct (kindOf a) as [[t | | |] | err]; cbn; unfold HandleConfigMap, bind, deref; cbn;
    rewrite ?H; reflexivity.
Qed.




(** ** The status writers *)

Ltac run H :=
  repeat (progress (cbn; rewrite ?H, ?nth_error_app_last, ?list_update_app_last,
                      ?(nth_error_app_keep _ _ _ _ _ H))).

Lemma statusForSecret_eq (R : Type) (w : World) (n : nat) (a : akv.AzureKeyVaultSecret)
    (secretHash : string) :
  nth_error (heap w) n = Some a ->
  updateAzureKeyVaultSecretStatusForSecret (R := R) (Addr n) secretHash w
  = submit R (metav1.Namespace (akv.ObjectMeta a)) (statusForSecret a secretHash (clock w)) w.
Proof.
  intros H.
  unfold updateAzureKeyVaultSecretStatusForSecret, func, bind, DeepCopy, bind, deref,
    assign, clock_Now, akvsClient_UpdateStatus, bind, deref, record_call, Return, submit,
    submitting.
  run H. unfold statusForSecret. cbn.
  destruct (server_UpdateStatus _ _ _) as [[q e] w']. reflexivity.
Qed.

Lemma statusForConfigMap_eq (R : Type) (w : World) (n : nat) (a : akv.AzureKeyVaultSecret)
    (cmHash : string) :
  nth_error (heap w) n = Some a ->
  updateAzureKeyVaultSecretStatusForConfigMap (R := R) (Addr n) cmHash w
  = submit R (metav1.Namespace (akv.ObjectMeta a)) (statusForConfigMap a cmHash (clock w)) w.
Proof.
  intros H.
  unfold updateAzureKeyVaultSecretStatusForConfigMap, func, bind, DeepCopy, bind, deref,
    assign, clock_Now, akvsClient_UpdateStatus, bind, deref, record_call, Return, submit,
    submitting.
  run H. unfold statusForConfigMap. cbn.
  destruct (server_UpdateStatus _ _ _) as [[q e] w']. reflexivity.
Qed.

Lemma statusForBoth_eq (R : Type) (w : World) (n : nat) (a : akv.AzureKeyVaultSecret)
    (secretName cmName secretHash cmHash : string) :
  nth_error (heap w) n = Some a ->
  updateAzureKeyVaultSecretStatus (R := R) (Addr n) secretName cmName secretHash cmHash w
  = submit R (metav1.Namespace (akv.ObjectMeta a))
      (statusForBoth a secretName cmName secretHash cmHash (clock w)) w.
Proof.
  intros H.
  unfold updateAzureKeyVaultSecretStatus, func, bind, DeepCopy, bind, deref,
    assign, clock_Now, akvsClient_UpdateStatus, bind, deref, record_call, Return, submit,
    submitting.
  run H. unfold statusForBoth. cbn.
  destruct (server_UpdateStatus _ _ _) as [[q e] w']. reflexivity.
Qed.

(** The API server adds a cell and repoints the cache; it touches nothing
    else. *)
Lemma server_UpdateStatus_frame (namespace : string) (obj : akv.AzureKeyVaultSecret)
    (w w' : World) (r : ptr * option error) :
  server_UpdateStatus namespace obj w = (r, w') ->
  (forall m b, nth_error (heap w) m = Some b -> nth_error (heap w') m = Some b)
  /\ calls w' = calls w /\ secrets w' = secrets w /\ configMaps w' = configMaps w
  /\ crdQueue w' = crdQueue w /\ vaultQueue w' = vaultQueue w
  /\ events w' = events w /\ logs w' = logs w /\ clock w' = clock w
  /\ vaultService w' = vaultService w.
Proof.
  unfold server_UpdateStatus. intros H.
  destruct (alist_get _ _) as [k |];
    [destruct (nth_error (heap w) k) as [stored |];
       [destruct (String.eqb _ _) |] |];
    injection H as <- <-; cbn; repeat split; auto.
  intros m b Hm. now apply nth_error_app_keep.
Qed.

Lemma submit_wroteCopy (R : Type) (namespace : string) (obj : akv.AzureKeyVaultSecret)
    (w : World) :
  exists err w', submit R namespace obj w = Next err w' /\ wroteCopy w w' namespace obj.
Proof.
  unfold submit.
  destruct (server_UpdateStatus namespace obj (submitting namespace obj w)) as [r w'] eqn:E.
  exists (snd r), w'. split; [reflexivity |].
  destruct (server_UpdateStatus_frame _ _ _ _ _ E) as [Hh [Hc _]].
  unfold wroteCopy. repeat split.
  - intros m b Hm. apply Hh. cbn. now apply nth_error_app_keep.
  - apply nth_error_None. lia.
  - apply Hh. cbn. apply nth_error_app_last.
  - rewrite Hc. reflexivity.
Qed.

(** C9: each of the three status writers copies the resource into a new
    cell, sets its own fields there and submits that copy; no cell that
    existed before changes.  The secret writer keeps the config map fields
    of the status, the config map writer keeps the secret fields, and all
    three keep metadata and spec. *)
Theorem C9_status_write_on_fresh_copy (w : World) (n : nat) (a : akv.AzureKeyVaultSecret)
    (secretName cmName secretHash cmHash : string) :
  nth_error (heap w) n = Some a ->
  let namespace := metav1.Namespace (akv.ObjectMeta a) in
  (exists obj err w',
      updateAzureKeyVaultSecretStatus (R := unit) (Addr n)
        secretName cmName secretHash cmHash w = Next err w'
      /\ wroteCopy w w' namespace obj
      /\ akv.ObjectMeta obj = akv.ObjectMeta a /\ akv.Spec obj = akv.Spec a
      /\ akv.Status obj = akv.mkStatus secretHash (clock w) secretName cmHash cmName)
  /\ (exists obj err w',
      updateAzureKeyVaultSecretStatusForSecret (R := unit) (Addr n) secretHash w
      = Next err w'
      /\ wroteCopy w w' namespace obj
      /\ akv.ObjectMeta obj = akv.ObjectMeta a /\ akv.Spec obj = akv.Spec a
      /\ akv.Status obj
         = akv.mkStatus secretHash (clock w) (determineSecretName a)
             (akv.ConfigMapHash (akv.Status a)) (akv.ConfigMapName (akv.Status a)))
  /\ (exists obj err w',
      updateAzureKeyVaultSecretStatusForConfigMap (R := unit) (Addr n) cmHash w
      = Next err w'
      /\ wroteCopy w w' namespace obj
      /\ akv.ObjectMeta obj = akv.ObjectMeta a /\ akv.Spec obj = akv.Spec a
      /\ akv.Status obj
         = akv.mkStatus (akv.SecretHash (akv.Status a)) (clock w)
             (akv.SecretName (akv.Status a)) cmHash (determineConfigMapName a)).
Proof.
  intros H namespace. split; [| split].
  - rewrite (statusForBoth_eq _ _ _ _ _ _ _ _ H).
    destruct (submit_wroteCopy unit namespace
                (statusForBoth a secretName cmName secretHash cmHash (clock w)) w)
      as [err [w' [E W]]].
    eexists; exists err, w'.
    split; [exact E | split; [exact W | repeat split]].
  - rewrite (statusForSecret_eq _ _ _ _ _ H).
    destruct (submit_wroteCopy unit namespace (statusForSecret a secretHash (clock w)) w)
      as [err [w' [E W]]].
    eexists; exists err, w'.
    split; [exact E | split; [exact W | repeat split]].
  - rewrite (statusForConfigMap_eq _ _ _ _ _ H).
    destruct (submit_wroteCopy unit namespace (statusForConfigMap a cmHash (clock w)) w)
      as [err [w' [E W]]].
    eexists; exists err, w'.
    split; [exact E | split; [exact W | repeat split]].
Qed.

(** ** Statements that keep a cell *)

Lemma hoare_bind (R A B : Type) (P : World -> Prop) (m : M R A) (k : A -> M R B)
    (Q : A -> World -> Prop) (Q' : B -> World -> Prop) (QR : R -> World -> Prop) :
  hoare P m Q QR -> (forall x, hoare (Q x) (k x) Q' QR) -> hoare P (bind m k) Q' QR.
Proof.
  intros Hm Hk w HP. unfold bind. specialize (Hm w HP).
  destruct (m w) as [x w' | r w' | w']; [exact (Hk x w' Hm) | exact Hm | exact Hm].
Qed.

Lemma hoare_conseq (R A : Type) (P P' : World -> Prop) (m : M R A)
    (Q Q' : A -> World -> Prop) (QR QR' : R -> World -> Prop) :
  hoare P m Q QR ->
  (forall w, P' w -> P w) -> (forall x w, Q x w -> Q' x w) ->
  (forall r w, QR r w -> QR' r w) ->
  hoare P' m Q' QR'.
Proof.
  intros Hm HP HQ HR w Hw. specialize (Hm w (HP w Hw)).
  destruct (m w); auto.
Qed.

Lemma hoare_func (R T : Type) (P : World -> Prop) (body : M T T)
    (Q : T -> World -> Prop) (QR : R -> World -> Prop) :
  hoare P body Q Q -> hoare P (func body) Q QR.
Proof.
  intros Hm w Hw. unfold func. specialize (Hm w Hw). destruct (body w); auto.
Qed.

Lemma hoare_ret (R A : Type) (P : World -> Prop) (x : A)
    (Q : A -> World -> Prop) (QR : R -> World -> Prop) :
  (forall w, P w -> Q x w) -> hoare P (ret x) Q QR.
Proof. intros H w Hw. exact (H w Hw). Qed.

Lemma hoare_Return (R A : Type) (P : World -> Prop) (r : R)
    (Q : A -> World -> Prop) (QR : R -> World -> Prop) :
  (forall w, P w -> QR r w) -> hoare P (Return r) Q QR.
Proof. intros H w Hw. exact (H w Hw). Qed.

Lemma hoare_assume (R A : Type) (phi : Prop) (P : World -> Prop) (m : M R A)
    (Q : A -> World -> Prop) (QR : R -> World -> Prop) :
  (phi -> hoare P m Q QR) -> hoare (fun w => phi /\ P w) m Q QR.
Proof. intros H w [Hphi Hw]. exact (H Hphi w Hw). Qed.

(** A statement that always falls through and leaves the heap alone. *)
Lemma hoare_heap_frame (R A : Type) (n : nat) (a : akv.AzureKeyVaultSecret) (m : M R A)
    (QR : R -> World -> Prop) :
  (forall w, exists x w', m w = Next x w' /\ heap w' = heap w) ->
  hoare (keeps n a) m (fun _ => keeps n a) QR.
Proof.
  intros H w Hw. destruct (H w) as [x [w' [E Hh]]]. rewrite E.
  unfold keeps. now rewrite Hh.
Qed.

Ltac frame_step :=
  apply hoare_heap_frame; intros ?w; eexists; eexists; split; reflexivity.

Lemma hoare_log (R : Type) (n : nat) (a : akv.AzureKeyVaultSecret) (l : Level)
    (format : string) (args : list fmtArg) (QR : R -> World -> Prop) :
  hoare (keeps n a) (log (R := R) l format args) (fun _ => keeps n a) QR.
Proof. frame_step. Qed.

Lemma hoare_log_Warning (R : Type) (n : nat) (a : akv.AzureKeyVaultSecret) (msg : string)
    (QR : R -> World -> Prop) :
  hoare (keeps n a) (log_Warning (R := R) msg) (fun _ => keeps n a) QR.
Proof. frame_step. Qed.

Lemma hoare_recorder_Event (R : Type) (n : nat) (a : akv.AzureKeyVaultSecret)
    (object : ObjectRef) (eventtype reason message : string) (QR : R -> World -> Prop) :
  hoare (keeps n a) (recorder_Event (R := R) object eventtype reason message)
    (fun _ => keeps n a) QR.
Proof. frame_step. Qed.

Lemma hoare_deref (R : Type) (n : nat) (a : akv.AzureKeyVaultSecret)
    (QR : R -> World -> Prop) :
  hoare (keeps n a) (deref (R := R) (Addr n)) (fun x w => x = a /\ keeps n a w) QR.
Proof. intros w Hw. unfold deref. rewrite Hw. now split. Qed.

Lemma hoare_akvsHasOutputSecret (R : Type) (n : nat) (a : akv.AzureKeyVaultSecret)
    (QR : R -> World -> Prop) :
  hoare (keeps n a) (akvsHasOutputSecret (R := R) (Addr n))
    (fun b w => b = hasOutputSecret a /\ keeps n a w) QR.
Proof. intros w Hw. rewrite (akvsHasOutputSecret_eq _ _ _ _ Hw). now split. Qed.

Lemma hoare_akvsHasOutputConfigMap (R : Type) (n : nat) (a : akv.AzureKeyVaultSecret)
    (QR : R -> World -> Prop) :
  hoare (keeps n a) (akvsHasOutputConfigMap (R := R) (Addr n))
    (fun b w => b = hasOutputConfigMap a /\ keeps n a w) QR.
Proof. intros w Hw. rewrite (akvsHasOutputConfigMap_eq _ _ _ _ Hw). now split. Qed.

Lemma hoare_getSecretFromKeyVault (R : Type) (n : nat) (a : akv.AzureKeyVaultSecret)
    (QR : R -> World -> Prop) :
  hoare (keeps n a) (getSecretFromKeyVault (R := R) (Addr n)) (fun _ => keeps n a) QR.
Proof. intros w Hw. now rewrite (getSecretFromKeyVault_eq _ _ _ _ Hw). Qed.

Lemma hoare_getConfigMapFromKeyVault (R : Type) (n : nat) (a : akv.AzureKeyVaultSecret)
    (QR : R -> World -> Prop) :
  hoare (keeps n a) (getConfigMapFromKeyVault (R := R) (Addr n)) (fun _ => keeps n a) QR.
Proof. intros w Hw. now rewrite (getConfigMapFromKeyVault_eq _ _ _ _ Hw). Qed.

Lemma hoare_secretsLister_Get (R : Type) (n : nat) (a : akv.AzureKeyVaultSecret)
    (namespace name : string) (QR : R -> World -> Prop) :
  hoare (keeps n a) (secretsLister_Get (R := R) namespace name) (fun _ => keeps n a) QR.
Proof.
  intros w Hw. unfold secretsLister_Get. destruct (alist_get _ _); exact Hw.
Qed.

Lemma hoare_configMapsLister_Get (R : Type) (n : nat) (a : akv.AzureKeyVaultSecret)
    (namespace name : string) (QR : R -> World -> Prop) :
  hoare (keeps n a) (configMapsLister_Get (R := R) namespace name) (fun _ => keeps n a) QR.
Proof.
  intros w Hw. unfold configMapsLister_Get. destruct (alist_get _ _); exact Hw.
Qed.

Lemma hoare_kube_Secrets_Create (R : Type) (n : nat) (a : akv.AzureKeyVaultSecret)
    (namespace : string) (secret : corev1.Secret) (QR : R -> World -> Prop) :
  hoare (keeps n a) (kube_Secrets_Create (R := R) namespace secret)
    (fun _ => keeps n a) QR.
Proof.
  intros w Hw. unfold kube_Secrets_Create, bind, record_call. cbn.
  destruct (alist_get _ _); exact Hw.
Qed.

Lemma hoare_kube_ConfigMaps_Create (R : Type) (n : nat) (a : akv.AzureKeyVaultSecret)
    (namespace : string) (cm : corev1.ConfigMap) (QR : R -> World -> Prop) :
  hoare (keeps n a) (kube_ConfigMaps_Create (R := R) namespace cm)
    (fun _ => keeps n a) QR.
Proof.
  intros w Hw. unfold kube_ConfigMaps_Create, bind, record_call. cbn.
  destruct (alist_get _ _); exact Hw.
Qed.

Lemma hoare_statusForSecret (R : Type) (n : nat) (a : akv.AzureKeyVaultSecret)
    (secretHash : string) (QR : R -> World -> Prop) :
  hoare (keeps n a) (updateAzureKeyVaultSecretStatusForSecret (R := R) (Addr n) secretHash)
    (fun _ => keeps n a) QR.
Proof.
  intros w Hw. rewrite (statusForSecret_eq _ _ _ _ _ Hw).
  destruct (submit_wroteCopy R (metav1.Namespace (akv.ObjectMeta a))
              (statusForSecret a secretHash (clock w)) w) as [err [w' [E W]]].
  rewrite E. apply W. exact Hw.
Qed.

Lemma hoare_statusForConfigMap (R : Type) (n : nat) (a : akv.AzureKeyVaultSecret)
    (cmHash : string) (QR : R -> World -> Prop) :
  hoare (keeps n a) (updateAzureKeyVaultSecretStatusForConfigMap (R := R) (Addr n) cmHash)
    (fun _ => keeps n a) QR.
Proof.
  intros w Hw. rewrite (statusForConfigMap_eq _ _ _ _ _ Hw).
  destruct (submit_wroteCopy R (metav1.Namespace (akv.ObjectMeta a))
              (statusForConfigMap a cmHash (clock w)) w) as [err [w' [E W]]].
  rewrite E. apply W. exact Hw.
Qed.

(** Forgetting what a statement returned. *)
Lemma hoare_forget (R A : Type) (n : nat) (a : akv.AzureKeyVaultSecret) (m : M R A)
    (Q : A -> Prop) (QR : R -> World -> Prop) :
  hoare (keeps n a) m (fun x w => Q x /\ keeps n a w) QR ->
  hoare (keeps n a) m (fun _ => keeps n a) QR.
Proof.
  intros H. eapply hoare_conseq; [exact H | auto | | auto]. now intros x w [_ Hk].
Qed.

Tactic Notation "hstep" constr(lemma) "as" simple_intropattern(x) :=
  eapply hoare_bind; [apply lemma | intros x].

Lemma hoare_getOrCreateKubernetesSecret (R : Type) (n : nat) (a : akv.AzureKeyVaultSecret)
    (QR : R -> World -> Prop) :
  hoare (keeps n a) (getOrCreateKubernetesSecret (R := R) (Addr n))
    (fun _ => keeps n a) QR.
Proof.
  apply hoare_func.
  eapply hoare_bind; [eapply hoare_forget; apply hoare_deref | intros s].
  hstep hoare_secretsLister_Get as found.
  eapply hoare_bind with (Q := fun _ => keeps n a).
  { destruct found; [apply hoare_Return | apply hoare_ret]; auto. }
  intros _.
  hstep hoare_getSecretFromKeyVault as r.
  eapply hoare_bind with (Q := fun _ => keeps n a).
  { destruct r; [apply hoare_ret | apply hoare_Return]; auto. }
  intros secretValues.
  hstep hoare_kube_Secrets_Create as r'.
  eapply hoare_bind with (Q := fun _ => keeps n a).
  { destruct r'; [apply hoare_ret | apply hoare_Return]; auto. }
  intros secret.
  hstep hoare_statusForSecret as err.
  destruct err; apply hoare_Return; auto.
Qed.

Lemma hoare_getOrCreateKubernetesConfigMap (R : Type) (n : nat)
    (a : akv.AzureKeyVaultSecret) (QR : R -> World -> Prop) :
  hoare (keeps n a) (getOrCreateKubernetesConfigMap (R := R) (Addr n))
    (fun _ => keeps n a) QR.
Proof.
  apply hoare_func.
  eapply hoare_bind; [eapply hoare_forget; apply hoare_deref | intros s].
  hstep hoare_configMapsLister_Get as found.
  eapply hoare_bind with (Q := fun _ => keeps n a).
  { destruct found; [apply hoare_Return | apply hoare_ret]; auto. }
  intros _.
  hstep hoare_getConfigMapFromKeyVault as r.
  eapply hoare_bind with (Q := fun _ => keeps n a).
  { destruct r; [apply hoare_ret | apply hoare_Return]; auto. }
  intros cmValues.
  hstep hoare_kube_ConfigMaps_Create as r'.
  eapply hoare_bind with (Q := fun _ => keeps n a).
  { destruct r'; [apply hoare_ret | apply hoare_Return]; auto. }
  intros cm.
  hstep hoare_statusForConfigMap as err.
  destruct err; apply hoare_Return; auto.
Qed.

Lemma hoare_isOwnedBy (R : Type) (n : nat) (a : akv.AzureKeyVaultSecret)
    (o : NativeObject) (QR : R -> World -> Prop) :
  hoare (keeps n a) (isOwnedBy (R := R) (Some o) (Addr n)) (fun _ => keeps n a) QR.
Proof.
  apply hoare_func.
  eapply hoare_bind; [eapply hoare_forget; apply hoare_deref | intros s].
  destruct (metav1.GetControllerOf (objectMeta o)); apply hoare_Return; auto.
Qed.

(** ** The Output Reconciler *)


Lemma func_falls_through (R T : Type) (body : M T T) (w w' : World) (r : R) :
  func body w = Returned r w' -> False.
Proof. unfold func. destruct (body w); discriminate. Qed.

Lemma getAzureKeyVaultSecret_eq (R : Type) (w : World) (key namespace name : string)
    (n : nat) :
  cache_SplitMetaNamespaceKey key = (namespace, name, None) ->
  alist_get (namespace, name) (akvsStore w) = Some n ->
  getAzureKeyVaultSecret (R := R) key w
  = Next (Addr n, None)
      (set_logs (logs w ++ [(DebugLevel,
                             Sprintf "Getting AzureKeyVaultSecret %s from namespace %s"
                               [ArgString name; ArgString namespace])]) w).
Proof.
  intros Hs Hg. unfold getAzureKeyVaultSecret, func, bind. rewrite Hs. cbn.
  unfold azureKeyVaultSecretLister_Get. cbn. rewrite Hg. reflexivity.
Qed.

Lemma hoare_resolve (R : Type) (key namespace name : string) (n : nat)
    (a : akv.AzureKeyVaultSecret) (QR : R -> World -> Prop) :
  cache_SplitMetaNamespaceKey key = (namespace, name, None) ->
  hoare (fun w => keeps n a w /\ alist_get (namespace, name) (akvsStore w) = Some n)
    (getAzureKeyVaultSecret (R := R) key)
    (fun r w => r = (Addr n, None) /\ keeps n a w) QR.
Proof.
  intros Hs w [Hk Hg]. rewrite (getAzureKeyVaultSecret_eq _ _ _ _ _ _ Hs Hg).
  split; [reflexivity | exact Hk].
Qed.

Lemma syncAzureKeyVaultSecret_total (key namespace name : string) (n : nat)
    (a : akv.AzureKeyVaultSecret) :
  cache_SplitMetaNamespaceKey key = (namespace, name, None) ->
  hasOutputDefined a = true ->
  hoare (fun w => keeps n a w /\ alist_get (namespace, name) (akvsStore w) = Some n)
    (syncAzureKeyVaultSecret (R := unit) key)
    (fun _ _ => True) (fun _ _ => True).
Proof.
  intros Hs Ho. apply hoare_func.
  eapply hoare_bind with
    (Q := fun _ w => keeps n a w /\ alist_get (namespace, name) (akvsStore w) = Some n).
  { intros w Hw. exact Hw. }
  intros _.
  eapply hoare_bind; [apply (hoare_resolve _ _ _ _ _ _ _ Hs) | intros [akvs err]].
  apply hoare_assume. intros E. injection E as -> ->.
  eapply hoare_bind with (Q := fun _ => keeps n a);
    [apply hoare_ret; intros w Hw; exact Hw | intros _].
  hstep hoare_akvsHasOutputSecret as hasSecret.
  eapply hoare_bind with
    (Q := fun o w => (hasOutputSecret a = true -> o <> None) /\ keeps n a w).
  { apply hoare_assume. intros ->. destruct (hasOutputSecret a).
    - hstep hoare_getOrCreateKubernetesSecret as r.
      eapply hoare_bind with (Q := fun _ => keeps n a).
      { destruct r; [apply hoare_ret | apply hoare_Return]; auto. }
      intros secret.
      hstep hoare_log as u. hstep hoare_recorder_Event as u'.
      apply hoare_ret. intros w Hw. split; [discriminate | exact Hw].
    - apply hoare_ret. intros w Hw. split; [discriminate | exact Hw]. }
  intros outputObject. apply hoare_assume. intros Hsecret.
  hstep hoare_akvsHasOutputConfigMap as hasConfigMap.
  eapply hoare_bind with (Q := fun o w => o <> None /\ keeps n a w).
  { apply hoare_assume. intros ->. destruct (hasOutputConfigMap a) eqn:Hcm.
    - hstep hoare_getOrCreateKubernetesConfigMap as r.
      eapply hoare_bind with (Q := fun _ => keeps n a).
      { destruct r; [apply hoare_ret | apply hoare_Return]; auto. }
      intros cm.
      hstep hoare_log as u. hstep hoare_recorder_Event as u'.
      apply hoare_ret. intros w Hw. split; [discriminate | exact Hw].
    - apply hoare_ret. intros w Hw. split; [| exact Hw].
      apply Hsecret. unfold hasOutputDefined in Ho. rewrite Hcm, orb_false_r in Ho.
      exact Ho. }
  intros outputObject'. apply hoare_assume. intros Hsome.
  destruct outputObject' as [o |]; [| congruence].
  hstep hoare_isOwnedBy as owned.
  eapply hoare_bind with (Q := fun _ _ => True).
  { destruct (negb owned).
    - eapply hoare_bind with (Q := fun _ => keeps n a);
        [apply hoare_ret; intros w Hw; exact Hw | intros nm].
      hstep hoare_log_Warning as u. hstep hoare_recorder_Event as u'.
      apply hoare_Return. auto.
    - apply hoare_ret. auto. }
  intros _. apply hoare_Return. auto.
Qed.

Lemma syncAzureKeyVaultSecret_no_output (w : World) (key namespace name : string)
    (n : nat) (a : akv.AzureKeyVaultSecret) :
  cache_SplitMetaNamespaceKey key = (namespace, name, None) ->
  alist_get (namespace, name) (akvsStore w) = Some n ->
  nth_error (heap w) n = Some a ->
  hasOutputDefined a = false ->
  exists w', syncAzureKeyVaultSecret (R := unit) key w = Panicked w'.
Proof.
  intros Hs Hg Hn Ho.
  apply orb_false_iff in Ho. destruct Ho as [Hsec Hcm].
  eexists. unfold syncAzureKeyVaultSecret, func, bind. cbn.
  rewrite getAzureKeyVaultSecret_eq with (namespace := namespace) (name := name) (n := n)
    by assumption.
  cbn.
  rewrite akvsHasOutputSecret_eq with (a := a) by exact Hn. rewrite Hsec. cbn.
  rewrite akvsHasOutputConfigMap_eq with (a := a) by exact Hn. rewrite Hcm. cbn.
  reflexivity.
Qed.

Lemma UpdateFunc_output_removed (w : World) (m n : nat) (o a : akv.AzureKeyVaultSecret) :
  nth_error (heap w) m = Some o -> nth_error (heap w) n = Some a ->
  hasOutputDefined o = true -> hasOutputDefined a = false ->
  exists w',
    UpdateFunc initAzureKeyVaultSecret (PAkvs (Addr m)) (PAkvs (Addr n)) w = Next tt w'
    /\ crdQueue w' = Queue_Add (namespaceKey a) (crdQueue w)
    /\ vaultQueue w' = vaultQueue w.
Proof.
  intros Hm Hn Ho Ha.
  assert (E : UpdateFunc initAzureKeyVaultSecret (PAkvs (Addr m)) (PAkvs (Addr n)) w
              = Next tt
                  (set_crdQueue (Queue_Add (namespaceKey a) (crdQueue w))
                     (set_logs
                        (logs w ++
                         [(DebugLevel,
                           Sprintf "AzureKeyVaultSecret %s/%s changed. Adding to queue."
                             [ArgString (metav1.Namespace (akv.ObjectMeta a));
                              ArgString (metav1.Name (akv.ObjectMeta a))])]) w))).
  { unfold initAzureKeyVaultSecret, UpdateFunc, func, bind. cbn.
    unfold deref. rewrite Hn, Hm.
    assert (Hfalse : (if String.eqb (metav1.ResourceVersion (akv.ObjectMeta a))
                           (metav1.ResourceVersion (akv.ObjectMeta o))
                      then akvsHasOutputDefined (R := unit) (Addr n)
                      else ret false) w = Next false w).
    { destruct (String.eqb _ _); [| reflexivity].
      now rewrite (akvsHasOutputDefined_eq _ _ _ _ Hn), Ha. }
    rewrite Hfalse. cbn.
    rewrite (akvsHasOutputDefined_eq _ _ _ _ Hn), Ha.
    rewrite (akvsHasOutputDefined_eq _ _ _ _ Hm), Ho. cbn.
    unfold queue_Enqueue, cache_DeletionHandlingMetaNamespaceKeyFunc, func, bind.
    rewrite MetaNamespaceKeyFunc_eq with (a := a) by exact Hn.
    reflexivity. }
  eexists. split; [exact E |]. split; reflexivity.
Qed.

(** C10: the Output Reconciler returns only when the resource it resolves
    has an output defined.  With an output it returns (a result, no panic);
    with none it reaches the ownership check with a nil [outputObject] and
    panics.  The second case is reachable: an update that removes the last
    output puts the key on the structural queue. *)
Theorem C10_output_reconciler_needs_an_output (w : World) (key : string) (n : nat)
    (a : akv.AzureKeyVaultSecret) :
  resolves w key n ->
  nth_error (heap w) n = Some a ->
  (hasOutputDefined a = true ->
   exists err w', syncAzureKeyVaultSecret (R := unit) key w = Next err w')
  /\ (hasOutputDefined a = false ->
      (exists w', syncAzureKeyVaultSecret (R := unit) key w = Panicked w')
      /\ forall m o,
           nth_error (heap w) m = Some o -> hasOutputDefined o = true ->
           exists w',
             dispatch (OnUpdate (PAkvs (Addr m)) (PAkvs (Addr n))) w = Next tt w'
             /\ In (namespaceKey a) (items (crdQueue w'))).
Proof.
  intros [namespace [name [Hs Hg]]] Hn. split.
  - intros Ho.
    pose proof (syncAzureKeyVaultSecret_total key namespace name n a Hs Ho w
                  (conj Hn Hg)) as H.
    destruct (syncAzureKeyVaultSecret key w) as [err w' | r w' | w'] eqn:E.
    + now exists err, w'.
    + unfold syncAzureKeyVaultSecret in E. now apply func_falls_through in E.
    + destruct H.
  - intros Ho. split.
    + exact (syncAzureKeyVaultSecret_no_output w key namespace name n a Hs Hg Hn Ho).
    + intros m o Hm Hoo.
      destruct (UpdateFunc_output_removed w m n o a Hm Hn Hoo Ho) as [w' [E [Hq _]]].
      exists w'. split; [exact E |]. rewrite Hq. apply Queue_Add_In.
Qed.

(** ** The Vault Reconciler *)




Lemma secret_block_skip (w : World) (key : string) (n : nat) (a : akv.AzureKeyVaultSecret) :
  nth_error (heap w) n = Some a -> hasOutputSecret a = false ->
  syncAzureKeyVault_secret key (Addr n) w = Next tt w.
Proof.
  intros H Ho. unfold syncAzureKeyVault_secret, bind.
  now rewrite (akvsHasOutputSecret_eq _ _ _ _ H), Ho.
Qed.

Lemma configMap_block_skip (w : World) (key : string) (n : nat)
    (a : akv.AzureKeyVaultSecret) :
  nth_error (heap w) n = Some a -> hasOutputConfigMap a = false ->
  syncAzureKeyVault_configMap key (Addr n) w = Next tt w.
Proof.
  intros H Ho. unfold syncAzureKeyVault_configMap, bind.
  now rewrite (akvsHasOutputConfigMap_eq _ _ _ _ H), Ho.
Qed.



Lemma syncAzureKeyVault_unfold (R : Type) (w : World) (key namespace name : string)
    (n : nat) :
  cache_SplitMetaNamespaceKey key = (namespace, name, None) ->
  alist_get (namespace, name) (akvsStore w) = Some n ->
  syncAzureKeyVault (R := R) key w
  = func
      (bind (syncAzureKeyVault_secret key (Addr n))
         (fun _ =>
            bind (syncAzureKeyVault_configMap key (Addr n))
              (fun _ =>
                 bind (log_Debugf
                         "Successfully synced AzureKeyVaultSecret %s with Azure Key Vault"
                         [ArgString key])
                   (fun _ =>
                      bind (recorder_Event (RefAkvs (Addr n)) corev1.EventTypeNormal
                              SuccessSynced
                              MessageAzureKeyVaultSecretSyncedWithAzureKeyVault)
                        (fun _ => Return None)))))
      (set_logs
         ((logs w ++ [(DebugLevel, Sprintf "Checking state for %s in Azure" [ArgString key])])
          ++ [(DebugLevel, Sprintf "Getting AzureKeyVaultSecret %s from namespace %s"
                             [ArgString name; ArgString namespace])]) w).
Proof.
  intros Hs Hg. unfold syncAzureKeyVault, func. unfold bind at 1. cbn.
  unfold bind at 1.
  rewrite getAzureKeyVaultSecret_eq with (namespace := namespace) (name := name) (n := n)
    by assumption.
  cbn. reflexivity.
Qed.



Lemma nth_error_app_last2 (A : Type) (l : list A) (x y : A) :
  nth_error ((l ++ [x]) ++ [y]) (S (length l)) = Some y.
Proof.
  replace (S (length l)) with (length (l ++ [x]))
    by (rewrite length_app; cbn; lia).
  apply nth_error_app_last.
Qed.

Lemma submit_accepted (R : Type) (w : World) (n : nat) (a obj : akv.AzureKeyVaultSecret) :
  nth_error (heap w) n = Some a ->
  alist_get (metav1.Namespace (akv.ObjectMeta a), metav1.Name (akv.ObjectMeta a))
    (akvsStore w) = Some n ->
  akv.ObjectMeta obj = akv.ObjectMeta a ->
  submit R (metav1.Namespace (akv.ObjectMeta a)) obj w
  = Next None
      (set_akvsStore
         (alist_replace
            (metav1.Namespace (akv.ObjectMeta a), metav1.Name (akv.ObjectMeta a))
            (S (length (heap w))) (akvsStore w))
         (set_heap ((heap w ++ [obj]) ++ [accepted a (akv.Status obj)])
            (submitting (metav1.Namespace (akv.ObjectMeta a)) obj w))).
Proof.
  intros Hn Hc Hm. unfold submit, server_UpdateStatus. cbn. rewrite Hm, Hc.
  rewrite (nth_error_app_keep _ _ _ _ _ Hn). rewrite String.eqb_refl. cbn.
  rewrite length_app. cbn. rewrite Nat.add_1_r. reflexivity.
Qed.



Lemma string_length_append (s1 s2 : string) :
  String.length (s1 ++ s2) = String.length s1 + String.length s2.
Proof.
  induction s1 as [| c s1 IH]; cbn; [reflexivity | now rewrite IH].
Qed.

Lemma nextResourceVersion_fresh (rv : string) : nextResourceVersion rv <> rv.
Proof.
  unfold nextResourceVersion. intros E.
  apply (f_equal String.length) in E. rewrite string_length_append in E. cbn in E. lia.
Qed.

(** A status write from a copy of a resource whose cache entry has moved on
    is refused. *)
Lemma submit_stale (R : Type) (w : World) (q : nat) (a obj stored : akv.AzureKeyVaultSecret) :
  alist_get (metav1.Namespace (akv.ObjectMeta a), metav1.Name (akv.ObjectMeta a))
    (akvsStore w) = Some q ->
  nth_error (heap w) q = Some stored ->
  metav1.ResourceVersion (akv.ObjectMeta stored)
  <> metav1.ResourceVersion (akv.ObjectMeta a) ->
  akv.ObjectMeta obj = akv.ObjectMeta a ->
  exists err w', submit R (metav1.Namespace (akv.ObjectMeta a)) obj w = Next (Some err) w'.
Proof.
  intros Hc Hq Hrv Hm. unfold submit, server_UpdateStatus. cbn. rewrite Hm, Hc.
  rewrite (nth_error_app_keep _ _ _ _ _ Hq).
  apply String.eqb_neq in Hrv. rewrite Hrv. cbn. eexists; eexists; reflexivity.
Qed.

Lemma configMap_block_stale (w w' : World) (key : string) (n q : nat)
    (a stored : akv.AzureKeyVaultSecret) :
  nth_error (heap w) n = Some a -> hasOutputConfigMap a = true ->
  alist_get (metav1.Namespace (akv.ObjectMeta a), metav1.Name (akv.ObjectMeta a))
    (akvsStore w) = Some q ->
  nth_error (heap w) q = Some stored ->
  metav1.ResourceVersion (akv.ObjectMeta stored)
  <> metav1.ResourceVersion (akv.ObjectMeta a) ->
  syncAzureKeyVault_configMap key (Addr n) w = Next tt w' -> False.
Proof.
  intros H Ho Hc Hq Hrv.
  unfold syncAzureKeyVault_configMap, bind.
  rewrite (akvsHasOutputConfigMap_eq _ _ _ _ H), Ho. cbn.
  rewrite getConfigMapFromKeyVault_eq with (a := a) by exact H. cbn.
  destruct (configMapValuesOf (vaultService w) a) as [v | e] eqn:Hv; cbn; rewrite H; cbn;
    [| discriminate].
  destruct (negb _); cbn.
  - destruct (alist_get _ (configMaps w)) as [current |]; cbn; [| discriminate].
    rewrite statusForConfigMap_eq with (a := a) by exact H.
    match goal with
    | |- context [submit ?R ?ns ?obj ?w0] =>
        destruct (submit_stale R w0 q a obj stored Hc Hq Hrv eq_refl) as [err [w1 E]]
    end.
    rewrite E. discriminate.
  - rewrite statusForConfigMap_eq with (a := a) by exact H.
    match goal with
    | |- context [submit ?R ?ns ?obj ?w0] =>
        destruct (submit_stale R w0 q a obj stored Hc Hq Hrv eq_refl) as [err [w1 E]]
    end.
    rewrite E. discriminate.
Qed.

(** Whenever the secret block falls through, its status write was accepted:
    the cache now holds a newer version of the resource. *)
Lemma secret_block_accepted (w w' : World) (key : string) (n : nat)
    (a : akv.AzureKeyVaultSecret) :
  nth_error (heap w) n = Some a -> hasOutputSecret a = true ->
  alist_get (metav1.Namespace (akv.ObjectMeta a), metav1.Name (akv.ObjectMeta a))
    (akvsStore w) = Some n ->
  syncAzureKeyVault_secret key (Addr n) w = Next tt w' ->
  exists status, refreshed w w' n a status.
Proof.
  intros H Ho Hc.
  unfold syncAzureKeyVault_secret, bind.
  rewrite (akvsHasOutputSecret_eq _ _ _ _ H), Ho. cbn.
  rewrite getSecretFromKeyVault_eq with (a := a) by exact H. cbn.
  destruct (secretValuesOf (vaultService w) a) as [v | e] eqn:Hv; cbn; rewrite H; cbn;
    [| discriminate].
  destruct (negb _); cbn.
  - unfold secretsLister_Get. cbn.
    destruct (alist_get _ (secrets w)) as [existing |]; cbn; [| discriminate].
    destruct (updateExistingSecret a v existing) as [updated | e]; cbn; [| discriminate].
    destruct (alist_get _ (secrets w)) as [current |]; cbn; [| discriminate].
    rewrite statusForSecret_eq with (a := a) by exact H.
    rewrite submit_accepted with (n := n) by (try exact H; try exact Hc; reflexivity).
    cbn. intros E. injection E as <-. eexists.
    unfold refreshed, keeps. cbn. repeat split.
    + apply nth_error_app_keep. now apply nth_error_app_keep.
    + now apply alist_get_replace with (v := n).
    + apply nth_error_app_last2.
  - rewrite statusForSecret_eq with (a := a) by exact H.
    rewrite submit_accepted with (n := n) by (try exact H; try exact Hc; reflexivity).
    cbn. intros E. injection E as <-. eexists.
    unfold refreshed, keeps. cbn. repeat split.
    + apply nth_error_app_keep. now apply nth_error_app_keep.
    + now apply alist_get_replace with (v := n).
    + apply nth_error_app_last2.
Qed.

Lemma hoare_kube_Secrets_Get (R : Type) (n : nat) (a : akv.AzureKeyVaultSecret)
    (namespace name : string) (QR : R -> World -> Prop) :
  hoare (keeps n a) (kube_Secrets_Get (R := R) namespace name) (fun _ => keeps n a) QR.
Proof.
  intros w Hw. unfold kube_Secrets_Get, bind, record_call, secretsLister_Get. cbn.
  destruct (alist_get _ _); exact Hw.
Qed.

Lemma hoare_kube_Secrets_Update (R : Type) (n : nat) (a : akv.AzureKeyVaultSecret)
    (namespace : string) (secret : corev1.Secret) (QR : R -> World -> Prop) :
  hoare (keeps n a) (kube_Secrets_Update (R := R) namespace secret)
    (fun _ => keeps n a) QR.
Proof.
  intros w Hw. unfold kube_Secrets_Update, bind, record_call. cbn.
  destruct (alist_get _ _); exact Hw.
Qed.

Lemma hoare_kube_ConfigMaps_Update (R : Type) (n : nat) (a : akv.AzureKeyVaultSecret)
    (namespace : string) (cm : corev1.ConfigMap) (QR : R -> World -> Prop) :
  hoare (keeps n a) (kube_ConfigMaps_Update (R := R) namespace cm)
    (fun _ => keeps n a) QR.
Proof.
  intros w Hw. unfold kube_ConfigMaps_Update, bind, record_call. cbn.
  destruct (alist_get _ _); exact Hw.
Qed.

(** Every [return] inside the two blocks returns an error. *)
Lemma hoare_secret_block (key : string) (n : nat) (a : akv.AzureKeyVaultSecret) :
  hoare (keeps n a) (syncAzureKeyVault_secret key (Addr n)) (fun _ => keeps n a) isError.
Proof.
  unfold syncAzureKeyVault_secret.
  hstep hoare_akvsHasOutputSecret as hasSecret. apply hoare_assume. intros _.
  destruct hasSecret; [| apply hoare_ret; auto].
  hstep hoare_log as u. hstep hoare_getSecretFromKeyVault as r.
  eapply hoare_bind with (Q := fun _ => keeps n a).
  { destruct r as [v | err]; [apply hoare_ret; auto |].
    eapply hoare_bind; [eapply hoare_forget; apply hoare_deref | intros s].
    hstep hoare_log as u1. hstep hoare_recorder_Event as u2.
    apply hoare_Return. unfold isError. discriminate. }
  intros secretValue. hstep hoare_log as u1.
  eapply hoare_bind; [eapply hoare_forget; apply hoare_deref | intros s].
  eapply hoare_bind with (Q := fun _ => keeps n a).
  { destruct (negb _); [| apply hoare_ret; auto].
    hstep hoare_log as u2. hstep hoare_kube_Secrets_Get as r1.
    eapply hoare_bind with (Q := fun _ => keeps n a).
    { destruct r1; [apply hoare_ret; auto | apply hoare_Return; unfold isError; discriminate]. }
    intros existingSecret.
    eapply hoare_bind with (Q := fun _ => keeps n a).
    { destruct (updateExistingSecret _ _ _);
        [apply hoare_ret; auto | apply hoare_Return; unfold isError; discriminate]. }
    intros updatedSecret. hstep hoare_kube_Secrets_Update as r2.
    eapply hoare_bind with (Q := fun _ => keeps n a).
    { destruct r2; [apply hoare_ret; auto | apply hoare_Return; unfold isError; discriminate]. }
    intros secret. apply hoare_log. }
  intros u3. hstep hoare_log as u4. hstep hoare_statusForSecret as err.
  destruct err; [apply hoare_Return; unfold isError; discriminate | apply hoare_ret; auto].
Qed.

Lemma hoare_configMap_block (key : string) (n : nat) (a : akv.AzureKeyVaultSecret) :
  hoare (keeps n a) (syncAzureKeyVault_configMap key (Addr n)) (fun _ => keeps n a) isError.
Proof.
  unfold syncAzureKeyVault_configMap.
  hstep hoare_akvsHasOutputConfigMap as hasConfigMap. apply hoare_assume. intros _.
  destruct hasConfigMap; [| apply hoare_ret; auto].
  hstep hoare_log as u. hstep hoare_getConfigMapFromKeyVault as r.
  eapply hoare_bind with (Q := fun _ => keeps n a).
  { destruct r as [v | err]; [apply hoare_ret; auto |].
    eapply hoare_bind; [eapply hoare_forget; apply hoare_deref | intros s].
    hstep hoare_log as u1. hstep hoare_recorder_Event as u2.
    apply hoare_Return. unfold isError. discriminate. }
  intros cmValue. hstep hoare_log as u1.
  eapply hoare_bind; [eapply hoare_forget; apply hoare_deref | intros s].
  eapply hoare_bind with (Q := fun _ => keeps n a).
  { destruct (negb _); [| apply hoare_ret; auto].
    hstep hoare_log as u2. hstep hoare_kube_ConfigMaps_Update as r1.
    eapply hoare_bind with (Q := fun _ => keeps n a).
    { destruct r1; [apply hoare_ret; auto |].
      hstep hoare_log as u3. apply hoare_Return. unfold isError. discriminate. }
    intros cm. apply hoare_log. }
  intros u3. hstep hoare_log as u4. hstep hoare_statusForConfigMap as err.
  destruct err; [apply hoare_Return; unfold isError; discriminate | apply hoare_ret; auto].
Qed.

Lemma block_outcome (m : M (option error) unit) (n : nat) (a : akv.AzureKeyVaultSecret)
    (w : World) :
  hoare (keeps n a) m (fun _ => keeps n a) isError -> keeps n a w ->
  (exists w', m w = Next tt w' /\ keeps n a w')
  \/ (exists err w', m w = Returned (Some err) w').
Proof.
  intros H Hw. specialize (H w Hw).
  destruct (m w) as [[] w' | [err |] w' | w'].
  - left. now exists w'.
  - right. now exists err, w'.
  - now destruct H.
  - destruct H.
Qed.

(** A resource with both outputs never completes a pass of the Vault
    Reconciler: the config map block submits a copy of the resource as it
    was before the secret block's status write, and the copy is refused. *)
Lemma syncAzureKeyVault_both_outputs (w w1 : World) (key : string) (n : nat)
    (a : akv.AzureKeyVaultSecret) :
  cache_SplitMetaNamespaceKey key
  = (metav1.Namespace (akv.ObjectMeta a), metav1.Name (akv.ObjectMeta a), None) ->
  alist_get (metav1.Namespace (akv.ObjectMeta a), metav1.Name (akv.ObjectMeta a))
    (akvsStore w) = Some n ->
  nth_error (heap w) n = Some a ->
  hasOutputSecret a = true -> hasOutputConfigMap a = true ->
  syncAzureKeyVault (R := unit) key w = Next None w1 -> False.
Proof.
  intros Hs Hg Hn Hsec Hcm H1.
  rewrite (syncAzureKeyVault_unfold _ _ _ _ _ _ Hs Hg) in H1.
  set (w0 := set_logs _ w) in H1.
  assert (Hn0 : keeps n a w0) by exact Hn.
  unfold func in H1. unfold bind at 1 in H1.
  destruct (block_outcome _ n a w0 (hoare_secret_block key n a) Hn0)
    as [[wS [ES HkS]] | [e [wS ES]]]; rewrite ES in H1; [| discriminate].
  unfold bind at 1 in H1.
  destruct (block_outcome _ n a wS (hoare_configMap_block key n a) HkS)
    as [[wC [EC HkC]] | [e [wC EC]]]; rewrite EC in H1; [| discriminate].
  destruct (secret_block_accepted w0 wS key n a Hn0 Hsec Hg ES)
    as [status [_ [_ [Hg' Hq']]]].
  eapply (configMap_block_stale wS wC key n _ a _ HkS Hcm Hg' Hq'); [| exact EC].
  cbn. apply nextResourceVersion_fresh.
Qed.





(** Submitting a copy of the resolved resource: the outcome is the API
    server's answer, the resource stays in its cell, the clock has been read
    once and the call is the only one recorded.  A copy that carries the
    metadata of the resource the cache holds is accepted. *)
Lemma submit_outcome (R : Type) (w : World) (n : nat) (a obj : akv.AzureKeyVaultSecret) :
  keeps n a w -> akv.ObjectMeta obj = akv.ObjectMeta a ->
  exists err w',
    submit R (metav1.Namespace (akv.ObjectMeta a)) obj w = Next err w'
    /\ keeps n a w' /\ vaultService w' = vaultService w
    /\ clock w' = (clock w + 1)%Z
    /\ calls w'
       = calls w ++ [AzureKeyVaultSecretsUpdateStatus (metav1.Namespace (akv.ObjectMeta a)) obj]
    /\ (alist_get (metav1.Namespace (akv.ObjectMeta a), metav1.Name (akv.ObjectMeta a))
          (akvsStore w) = Some n -> err = None).
Proof.
  intros Hk Hm.
  pose proof (submit_accepted R w n a obj Hk) as Hacc.
  unfold submit in *.
  destruct (server_UpdateStatus (metav1.Namespace (akv.ObjectMeta a)) obj
              (submitting (metav1.Namespace (akv.ObjectMeta a)) obj w)) as [r w'] eqn:E.
  exists (snd r), w'. split; [reflexivity |].
  destruct (server_UpdateStatus_frame _ _ _ _ _ E)
    as [Hh [Hc [_ [_ [_ [_ [_ [_ [Hcl Hv]]]]]]]]].
  split; [apply Hh; cbn; now apply nth_error_app_keep |].
  split; [exact Hv |]. split; [exact Hcl |]. split; [exact Hc |].
  intros Hg. specialize (Hacc Hg Hm). now injection Hacc as -> _.
Qed.

(** What a block that makes the pass return, or lets it go on, amounts to. *)
Lemma secret_block_settled (w : World) (key : string) (n : nat)
    (a : akv.AzureKeyVaultSecret) (v : list (string * list byte)) :
  nth_error (heap w) n = Some a -> hasOutputSecret a = true ->
  secretValuesOf (vaultService w) a = Okay v ->
  akv.SecretHash (akv.Status a) = getMD5HashOfByteValues v ->
  exists err w',
    syncAzureKeyVault_secret key (Addr n) w
    = match err with
      | None => Next tt w'
      | Some e => Returned (Some e) w'
      end
    /\ keeps n a w' /\ vaultService w' = vaultService w
    /\ clock w' = (clock w + 1)%Z
    /\ calls w'
       = calls w
         ++ [AzureKeyVaultSecretsUpdateStatus (metav1.Namespace (akv.ObjectMeta a))
               (statusForSecret a (akv.SecretHash (akv.Status a)) (clock w))]
    /\ (alist_get (metav1.Namespace (akv.ObjectMeta a), metav1.Name (akv.ObjectMeta a))
          (akvsStore w) = Some n -> err = None).
Proof.
  intros H Ho Hv Hh.
  unfold syncAzureKeyVault_secret, bind.
  rewrite (akvsHasOutputSecret_eq _ _ _ _ H), Ho. cbn.
  rewrite getSecretFromKeyVault_eq with (a := a) by exact H. cbn. rewrite Hv. cbn.
  rewrite H. rewrite Hh, String.eqb_refl. cbn.
  rewrite statusForSecret_eq with (a := a) by exact H.
  match goal with
  | |- context [submit ?R ?ns ?obj ?w0] =>
      destruct (submit_outcome R w0 n a obj H eq_refl)
        as [err [w' [E [Hk [Hvs [Hcl [Hc Hacc]]]]]]]
  end.
  exists err, w'. rewrite E.
  split; [now destruct err |]. split; [exact Hk |]. repeat split; assumption.
Qed.

Lemma configMap_block_settled (w : World) (key : string) (n : nat)
    (a : akv.AzureKeyVaultSecret) (v : list (string * string)) :
  nth_error (heap w) n = Some a -> hasOutputConfigMap a = true ->
  configMapValuesOf (vaultService w) a = Okay v ->
  akv.ConfigMapHash (akv.Status a) = getMD5HashOfStringValues v ->
  exists err w',
    syncAzureKeyVault_configMap key (Addr n) w
    = match err with
      | None => Next tt w'
      | Some e => Returned (Some e) w'
      end
    /\ keeps n a w' /\ vaultService w' = vaultService w
    /\ clock w' = (clock w + 1)%Z
    /\ calls w'
       = calls w
         ++ [AzureKeyVaultSecretsUpdateStatus (metav1.Namespace (akv.ObjectMeta a))
               (statusForConfigMap a (akv.ConfigMapHash (akv.Status a)) (clock w))]
    /\ (alist_get (metav1.Namespace (akv.ObjectMeta a), metav1.Name (akv.ObjectMeta a))
          (akvsStore w) = Some n -> err = None).
Proof.
  intros H Ho Hv Hh.
  unfold syncAzureKeyVault_configMap, bind.
  rewrite (akvsHasOutputConfigMap_eq _ _ _ _ H), Ho. cbn.
  rewrite getConfigMapFromKeyVault_eq with (a := a) by exact H. cbn. rewrite Hv. cbn.
  rewrite H. rewrite Hh, String.eqb_refl. cbn.
  rewrite statusForConfigMap_eq with (a := a) by exact H.
  match goal with
  | |- context [submit ?R ?ns ?obj ?w0] =>
      destruct (submit_outcome R w0 n a obj H eq_refl)
        as [err [w' [E [Hk [Hvs [Hcl [Hc Hacc]]]]]]]
  end.
  exists err, w'. rewrite E.
  split; [now destruct err |]. split; [exact Hk |]. repeat split; assumption.
Qed.

(** C3 (amended): without drift the pass issues no native-object write, but
    it still submits a status write, with the recorded digest, the output's
    name and a new timestamp, for the first output the resource defines, and
    the same for the config map output of a resource with both when the
    pass gets that far; these are its only API calls.  With one output
    defined and the resource cached under its own name, so that the write
    is accepted, the pass returns nil. *)
Theorem C3_no_drift_skips_only_the_native_write (w : World) (key : string) (n : nat)
    (a : akv.AzureKeyVaultSecret) :
  resolves w key n -> nth_error (heap w) n = Some a ->
  hasOutputDefined a = true -> noDrift (vaultService w) a ->
  exists err w',
    syncAzureKeyVault (R := unit) key w = Next err w'
    /\ nativeWrites w' = nativeWrites w
    /\ (exists more,
          statusWrites w' = statusWrites w ++ firstStatusWrite a (clock w) :: more)
    /\ (calls w' = calls w ++ [firstStatusWrite a (clock w)]
        \/ (hasOutputSecret a = true /\ hasOutputConfigMap a = true
            /\ calls w'
               = calls w
                 ++ [firstStatusWrite a (clock w);
                     AzureKeyVaultSecretsUpdateStatus (metav1.Namespace (akv.ObjectMeta a))
                       (statusForConfigMap a (akv.ConfigMapHash (akv.Status a))
                          (clock w + 1)%Z)]))
    /\ (alist_get (metav1.Namespace (akv.ObjectMeta a), metav1.Name (akv.ObjectMeta a))
          (akvsStore w) = Some n ->
        hasOutputSecret a = negb (hasOutputConfigMap a) ->
        err = None).
Proof.
  intros [namespace [name [Hs Hg]]] Hn Ho [Dsec Dcm].
  assert (Hcalls : forall (w' : World) (l : list ApiCall),
             calls w' = calls w ++ firstStatusWrite a (clock w) :: l ->
             forallb isStatusWrite l = true ->
             nativeWrites w' = nativeWrites w
             /\ exists more,
                  statusWrites w' = statusWrites w ++ firstStatusWrite a (clock w) :: more).
  { intros w' l Hc Hl. unfold nativeWrites, statusWrites. rewrite Hc, !filter_app. cbn.
    split.
    - assert (E : filter isNativeWrite l = []).
      { clear Hc. induction l as [| c l IH]; [reflexivity |]. cbn in Hl |- *.
        apply andb_true_iff in Hl. destruct Hl as [Hc Hl].
        destruct c; try discriminate. cbn. exact (IH Hl). }
      rewrite E. apply app_nil_r.
    - eexists. reflexivity. }
  rewrite (syncAzureKeyVault_unfold _ _ _ _ _ _ Hs Hg).
  set (w0 := set_logs _ w).
  assert (Hn0 : nth_error (heap w0) n = Some a) by exact Hn.
  unfold func. unfold bind at 1.
  destruct (hasOutputSecret a) eqn:Hsec.
  - destruct (Dsec eq_refl) as [v [Hv Hh]].
    destruct (secret_block_settled w0 key n a v Hn0 Hsec Hv Hh)
      as [e [w1 [E [Hk [Hvs [Hcl [Hc Hacc]]]]]]].
    rewrite E. unfold w0 in Hvs, Hcl, Hc, Hacc. cbn in Hvs, Hcl, Hc, Hacc.
    assert (Hfirst : firstStatusWrite a (clock w)
                     = AzureKeyVaultSecretsUpdateStatus
                         (metav1.Namespace (akv.ObjectMeta a))
                         (statusForSecret a (akv.SecretHash (akv.Status a)) (clock w))).
    { unfold firstStatusWrite. now rewrite Hsec. }
    destruct e as [e |].
    + exists (Some e), w1. split; [reflexivity |].
      rewrite <- Hfirst in Hc.
      destruct (Hcalls w1 [] Hc eq_refl) as [Hnw Hsw].
      split; [exact Hnw |]. split; [exact Hsw |]. split; [now left |].
      intros Hcoh _. specialize (Hacc Hcoh). discriminate.
    + unfold bind at 1.
      destruct (hasOutputConfigMap a) eqn:Hcm.
      * destruct (Dcm eq_refl) as [v' [Hv' Hh']].
        rewrite <- Hvs in Hv'.
        destruct (configMap_block_settled w1 key n a v' Hk Hcm Hv' Hh')
          as [e' [w2 [E' [Hk' [Hvs' [Hcl' [Hc' _]]]]]]].
        rewrite E'. rewrite Hc, Hcl, <- Hfirst, <- app_assoc in Hc'. cbn in Hc'.
        destruct (Hcalls w2 [_] Hc' eq_refl) as [Hnw Hsw].
        destruct e' as [e' |].
        -- exists (Some e'), w2. split; [reflexivity |].
           split; [exact Hnw |]. split; [exact Hsw |].
           split; [right; repeat split; exact Hc' |].
           intros _ Hone. discriminate Hone.
        -- cbn. eexists; eexists. split; [reflexivity |]. cbn.
           split; [exact Hnw |]. split; [exact Hsw |].
           split; [right; repeat split; exact Hc' |].
           intros _ Hone. discriminate Hone.
      * rewrite (configMap_block_skip w1 key n a Hk Hcm). cbn.
        rewrite <- Hfirst in Hc.
        destruct (Hcalls w1 [] Hc eq_refl) as [Hnw Hsw].
        eexists; eexists. split; [reflexivity |]. cbn.
        split; [exact Hnw |]. split; [exact Hsw |]. split; [now left |]. reflexivity.
  - rewrite (secret_block_skip w0 key n a Hn0 Hsec). unfold bind at 1.
    assert (Hcm : hasOutputConfigMap a = true).
    { unfold hasOutputDefined in Ho. now rewrite Hsec in Ho. }
    destruct (Dcm Hcm) as [v' [Hv' Hh']].
    destruct (configMap_block_settled w0 key n a v' Hn0 Hcm Hv' Hh')
      as [e' [w2 [E' [Hk' [Hvs' [Hcl' [Hc' Hacc]]]]]]].
    rewrite E'. unfold w0 in Hvs', Hcl', Hc', Hacc. cbn in Hvs', Hcl', Hc', Hacc.
    assert (Hfirst : firstStatusWrite a (clock w)
                     = AzureKeyVaultSecretsUpdateStatus
                         (metav1.Namespace (akv.ObjectMeta a))
                         (statusForConfigMap a (akv.ConfigMapHash (akv.Status a))
                            (clock w))).
    { unfold firstStatusWrite. now rewrite Hsec. }
    rewrite <- Hfirst in Hc'.
    destruct (Hcalls w2 [] Hc' eq_refl) as [Hnw Hsw].
    destruct e' as [e' |].
    + exists (Some e'), w2. split; [reflexivity |].
      split; [exact Hnw |]. split; [exact Hsw |]. split; [now left |].
      intros Hcoh _. specialize (Hacc Hcoh). discriminate.
    + cbn. eexists; eexists. split; [reflexivity |]. cbn.
      split; [exact Hnw |]. split; [exact Hsw |]. split; [now left |]. reflexivity.
Qed.

(** ** Frames of the primitives *)

Lemma sameCluster_refl (w : World) : sameCluster w w.
Proof. unfold sameCluster. repeat split. Qed.

Lemma sameCluster_trans (w1 w2 w3 : World) :
  sameCluster w1 w2 -> sameCluster w2 w3 -> sameCluster w1 w3.
Proof.
  unfold sameCluster.
  intros [H1 [H2 [H3 [H4 [H5 [H6 [H7 H8]]]]]]] [G1 [G2 [G3 [G4 [G5 [G6 [G7 G8]]]]]]].
  repeat split; congruence.
Qed.

Section Stable.

Variable rel : World -> World -> Prop.
Hypothesis rel_refl : forall w, rel w w.
Hypothesis rel_trans : forall w1 w2 w3, rel w1 w2 -> rel w2 w3 -> rel w1 w3.

Lemma stable_bind (R A B : Type) (m : M R A) (k : A -> M R B) :
  stable rel m -> (forall x, stable rel (k x)) -> stable rel (bind m k).
Proof.
  intros Hm Hk w. unfold bind. specialize (Hm w).
  destruct (m w) as [x w' | r w' | w']; cbn in *; try exact Hm.
  exact (rel_trans _ _ _ Hm (Hk x w')).
Qed.

Lemma stable_func (R T : Type) (body : M T T) :
  stable rel body -> stable rel (func (R := R) body).
Proof.
  intros H w. unfold func. specialize (H w). destruct (body w); exact H.
Qed.

Lemma stable_ret (R A : Type) (x : A) : stable rel (ret (R := R) x).
Proof. intros w. apply rel_refl. Qed.

Lemma stable_Return (R A : Type) (r : R) : stable rel (Return (A := A) r).
Proof. intros w. apply rel_refl. Qed.

Lemma stable_panic (R A : Type) : stable rel (panic (R := R) (A := A)).
Proof. intros w. apply rel_refl. Qed.

Lemma stable_deref (R : Type) (p : ptr) : stable rel (deref (R := R) p).
Proof.
  intros w. unfold deref. destruct p as [| n]; [apply rel_refl |].
  destruct (nth_error (heap w) n); apply rel_refl.
Qed.

End Stable.

(** The structure of a statement, down to its primitives. *)
Ltac stable_step rel_refl rel_trans :=
  match goal with
  | |- stable _ (bind _ _) => apply (stable_bind _ rel_trans); [| intros ?]
  | |- stable _ (func _) => apply stable_func
  | |- stable _ (ret _) => apply (stable_ret _ rel_refl)
  | |- stable _ (Return _) => apply (stable_Return _ rel_refl)
  | |- stable _ panic => apply (stable_panic _ rel_refl)
  | |- stable _ (deref _) => apply (stable_deref _ rel_refl)
  | |- stable _ (if ?b then _ else _) => destruct b
  | |- stable _ (match ?e with _ => _ end) => destruct e
  end.

(** *** The cluster *)

Lemma sameCluster_log (R : Type) (l : Level) (format : string) (args : list fmtArg) :
  stable sameCluster (log (R := R) l format args).
Proof. intros w. unfold sameCluster. cbn. repeat split. Qed.

Lemma sameCluster_HandleError (R : Type) (err : error) :
  stable sameCluster (utilruntime_HandleError (R := R) err).
Proof. intros w. unfold sameCluster. cbn. repeat split. Qed.

Lemma sameCluster_queue_Add (R : Type) (q : QueueName) (key : string) :
  stable sameCluster (queue_Add (R := R) q key).
Proof. intros w. unfold sameCluster. destruct q; cbn; repeat split. Qed.

Lemma sameCluster_queue_Forget (R : Type) (q : QueueName) (key : string) :
  stable sameCluster (queue_Forget (R := R) q key).
Proof. intros w. unfold sameCluster. destruct q; cbn; repeat split. Qed.

Ltac quiet_step :=
  first
    [ apply sameCluster_log
    | apply sameCluster_HandleError
    | apply sameCluster_queue_Add
    | apply sameCluster_queue_Forget
    | stable_step sameCluster_refl sameCluster_trans ].

Lemma sameCluster_MetaNamespaceKeyFunc (R : Type) (obj : Payload) :
  stable sameCluster (cache_MetaNamespaceKeyFunc (R := R) obj).
Proof. unfold cache_MetaNamespaceKeyFunc. destruct obj; repeat quiet_step. Qed.

Lemma sameCluster_DeletionHandlingMetaNamespaceKeyFunc (R : Type) (obj : Payload) :
  stable sameCluster (cache_DeletionHandlingMetaNamespaceKeyFunc (R := R) obj).
Proof.
  unfold cache_DeletionHandlingMetaNamespaceKeyFunc.
  destruct obj; try apply sameCluster_MetaNamespaceKeyFunc. quiet_step.
Qed.

Lemma sameCluster_queue_Enqueue (R : Type) (q : QueueName) (obj : Payload) :
  stable sameCluster (queue_Enqueue (R := R) q obj).
Proof.
  unfold queue_Enqueue. quiet_step.
  apply (stable_bind _ sameCluster_trans);
    [apply sameCluster_DeletionHandlingMetaNamespaceKeyFunc | intros [key err]].
  repeat quiet_step.
Qed.

Lemma sameCluster_akvsHasOutputDefined (R : Type) (p : ptr) :
  stable sameCluster (akvsHasOutputDefined (R := R) p).
Proof.
  unfold akvsHasOutputDefined, akvsHasOutputSecret, akvsHasOutputConfigMap.
  repeat quiet_step.
Qed.

Lemma sameCluster_logConversionError (R : Type) (err : option error) :
  stable sameCluster (logConversionError (R := R) err).
Proof. unfold logConversionError. repeat quiet_step. Qed.

Ltac quiet_handler :=
  repeat first
    [ apply sameCluster_queue_Enqueue
    | apply sameCluster_MetaNamespaceKeyFunc
    | apply sameCluster_akvsHasOutputDefined
    | apply sameCluster_logConversionError
    | quiet_step ].

(** ** More on the Event Dispatcher *)

Lemma queue_Enqueue_eq (R : Type) (q : QueueName) (w : World) (n : nat)
    (a : akv.AzureKeyVaultSecret) :
  nth_error (heap w) n = Some a ->
  queue_Enqueue (R := R) q (PAkvs (Addr n)) w
  = Next tt (setQueue q (Queue_Add (namespaceKey a) (getQueue q w)) w).
Proof.
  intros H. unfold queue_Enqueue, cache_DeletionHandlingMetaNamespaceKeyFunc, func, bind.
  rewrite MetaNamespaceKeyFunc_eq with (a := a) by exact H. reflexivity.
Qed.

(** X1: an Add event for a resource with an output defined puts the
    resource's key on the structural queue and on no other. *)
Theorem X1_add_enqueues_on_structural_queue (w : World) (n : nat)
    (a : akv.AzureKeyVaultSecret) :
  nth_error (heap w) n = Some a ->
  hasOutputDefined a = true ->
  exists w',
    dispatch (OnAdd (PAkvs (Addr n))) w = Next tt w'
    /\ crdQueue w' = Queue_Add (namespaceKey a) (crdQueue w)
    /\ In (namespaceKey a) (items (crdQueue w'))
    /\ vaultQueue w' = vaultQueue w.
Proof.
  intros Hn Ho. eexists. split.
  - cbn. unfold func, bind. cbn.
    rewrite (akvsHasOutputDefined_eq _ _ _ _ Hn), Ho.
    unfold deref. rewrite Hn. cbn.
    rewrite queue_Enqueue_eq with (a := a) by exact Hn. reflexivity.
  - cbn. repeat split. apply Queue_Add_In.
Qed.

(** X2: an Update event whose old and new versions carry the same resource
    version (a resync) and whose new version has an output defined puts the
    key on the vault-drift queue and returns: the structural queue is left
    as it was. *)
Theorem X2_resync_goes_to_the_vault_queue (w : World) (m n : nat)
    (o a : akv.AzureKeyVaultSecret) :
  nth_error (heap w) m = Some o -> nth_error (heap w) n = Some a ->
  metav1.ResourceVersion (akv.ObjectMeta a) = metav1.ResourceVersion (akv.ObjectMeta o) ->
  hasOutputDefined a = true ->
  exists w',
    dispatch (OnUpdate (PAkvs (Addr m)) (PAkvs (Addr n))) w = Next tt w'
    /\ vaultQueue w' = Queue_Add (namespaceKey a) (vaultQueue w)
    /\ In (namespaceKey a) (items (vaultQueue w'))
    /\ crdQueue w' = crdQueue w.
Proof.
  intros Hm Hn Hrv Ho. eexists. split.
  - cbn. unfold func, bind. cbn. unfold deref. rewrite Hn, Hm.
    rewrite Hrv, String.eqb_refl.
    rewrite (akvsHasOutputDefined_eq _ _ _ _ Hn), Ho. cbn.
    rewrite queue_Enqueue_eq with (a := a) by exact Hn. reflexivity.
  - cbn. repeat split. apply Queue_Add_In.
Qed.

(** X3: an Update event whose old and new versions carry different resource
    versions, one of them with an output defined, puts the key of the new
    version on the structural queue; the vault-drift queue is left as it
    was. *)
Theorem X3_change_goes_to_the_structural_queue (w : World) (m n : nat)
    (o a : akv.AzureKeyVaultSecret) :
  nth_error (heap w) m = Some o -> nth_error (heap w) n = Some a ->
  metav1.ResourceVersion (akv.ObjectMeta a) <> metav1.ResourceVersion (akv.ObjectMeta o) ->
  hasOutputDefined a = true \/ hasOutputDefined o = true ->
  exists w',
    dispatch (OnUpdate (PAkvs (Addr m)) (PAkvs (Addr n))) w = Next tt w'
    /\ crdQueue w' = Queue_Add (namespaceKey a) (crdQueue w)
    /\ In (namespaceKey a) (items (crdQueue w'))
    /\ vaultQueue w' = vaultQueue w.
Proof.
  intros Hm Hn Hrv Ho.
  apply String.eqb_neq in Hrv.
  assert (Hany : (if hasOutputDefined a then true else hasOutputDefined o) = true).
  { destruct Ho as [-> | ->]; [reflexivity | now destruct (hasOutputDefined a)]. }
  eexists. split.
  - cbn. unfold func, bind. cbn. unfold deref. rewrite Hn, Hm. rewrite Hrv. cbn.
    rewrite (akvsHasOutputDefined_eq _ _ _ _ Hn).
    destruct (hasOutputDefined a); cbn.
    + rewrite queue_Enqueue_eq with (a := a) by exact Hn. reflexivity.
    + rewrite (akvsHasOutputDefined_eq _ _ _ _ Hm). cbn in Hany. rewrite Hany. cbn.
      rewrite queue_Enqueue_eq with (a := a) by exact Hn. reflexivity.
  - cbn. repeat split. apply Queue_Add_In.
Qed.

(** X4: no handler of the dispatcher touches the cluster.  Whatever the
    event and however the handler ends, memory, the informer cache, the
    native objects, the clock, the recorded events and the API calls are
    what they were: a handler only logs and works on the queues. *)
Theorem X4_handlers_leave_the_cluster_alone (ev : LifecycleEvent) (w : World) :
  sameCluster w (worldOf (dispatch ev w)).
Proof.
  revert w. change (stable sameCluster (dispatch ev)).
  destruct ev as [obj | old new | obj]; cbn.
  - destruct (convertToAzureKeyVaultSecret obj) as [secret err]. quiet_handler.
  - destruct (convertToAzureKeyVaultSecret new) as [newSecret err].
    destruct (convertToAzureKeyVaultSecret old) as [oldSecret err']. quiet_handler.
  - destruct (convertToAzureKeyVaultSecret obj) as [secret err]. quiet_handler.
Qed.

(** X5: a tombstone is enqueued under the key it carries.  A tombstone
    converts to the resource it wraps, and [queue.Enqueue] takes the
    tombstone's own key, whatever the namespace and name of the resource
    inside: with an output defined, the Add handler puts that key on the
    structural queue, the Update handler puts it on the queue the resource
    versions select, and the Delete handler puts it on the structural queue
    and then returns at the key error of line 86, so the vault-drift queue is
    left exactly as it was and forgets nothing. *)
Theorem X5_tombstone_is_enqueued_under_its_own_key (w : World) (k : string) (m n : nat)
    (o a : akv.AzureKeyVaultSecret) :
  nth_error (heap w) m = Some o -> nth_error (heap w) n = Some a ->
  hasOutputDefined a = true ->
  let tombstone := PTombstone k (PAkvs (Addr n)) in
  convertToAzureKeyVaultSecret tombstone = (Addr n, None)
  /\ (exists w',
        dispatch (OnAdd tombstone) w = Next tt w'
        /\ crdQueue w' = Queue_Add k (crdQueue w) /\ vaultQueue w' = vaultQueue w)
  /\ (exists w',
        dispatch (OnDelete tombstone) w = Next tt w'
        /\ crdQueue w' = Queue_Add k (crdQueue w) /\ vaultQueue w' = vaultQueue w)
  /\ (exists w',
        dispatch (OnUpdate (PAkvs (Addr m)) tombstone) w = Next tt w'
        /\ if String.eqb (metav1.ResourceVersion (akv.ObjectMeta a))
                (metav1.ResourceVersion (akv.ObjectMeta o))
           then vaultQueue w' = Queue_Add k (vaultQueue w) /\ crdQueue w' = crdQueue w
           else crdQueue w' = Queue_Add k (crdQueue w) /\ vaultQueue w' = vaultQueue w).
Proof.
  intros Hm Hn Ha tombstone. split; [reflexivity |].
  pose proof (akvsHasOutputDefined_eq unit w n a Hn) as Dn. rewrite Ha in Dn.
  split; [| split].
  - eexists. split.
    + cbn. unfold func, bind. cbn. rewrite Dn. cbn.
      unfold deref. rewrite Hn. cbn. reflexivity.
    + split; reflexivity.
  - eexists. split.
    + cbn. unfold func, bind. cbn. rewrite Dn. cbn.
      unfold deref. rewrite Hn. cbn. reflexivity.
    + split; reflexivity.
  - destruct (String.eqb (metav1.ResourceVersion (akv.ObjectMeta a))
                (metav1.ResourceVersion (akv.ObjectMeta o))) eqn:Hrv;
      eexists;
      (split; [cbn; unfold func, bind; cbn; unfold deref; rewrite Hn, Hm, Hrv; cbn;
               rewrite ?Dn; cbn; reflexivity
              | split; reflexivity]).
Qed.

(** ** Conversion *)

(** X6: the conversion succeeds exactly for the resource itself and for a
    tombstone directly around it; a tombstone is looked into one level deep
    only.  Whenever it reports an error the pointer it returns is nil. *)
Theorem X6_conversion_looks_one_level_deep (obj : Payload) :
  (forall p,
      convertToAzureKeyVaultSecret obj = (p, None)
      <-> obj = PAkvs p \/ exists k, obj = PTombstone k (PAkvs p))
  /\ (forall err,
        snd (convertToAzureKeyVaultSecret obj) = Some err ->
        fst (convertToAzureKeyVaultSecret obj) = nil_ptr).
Proof.
  split.
  - intros p. split.
    + destruct obj as [q | k [q | k' inner | t] | t]; cbn; intros H;
        try discriminate; injection H as <-; [left | right; exists k]; reflexivity.
    + intros [-> | [k ->]]; reflexivity.
  - intros err. destruct obj as [q | k [q | k' inner | t] | t]; cbn;
      intros H; try discriminate; reflexivity.
Qed.

(** ** Keys *)

Lemma splitSlash_noSlash (s : string) : noSlash s = true -> splitSlash s = [s].
Proof.
  induction s as [| c s IH]; cbn; [reflexivity |].
  intros H. apply andb_true_iff in H. destruct H as [Hc Hs].
  apply negb_true_iff in Hc. rewrite Hc, (IH Hs). reflexivity.
Qed.

Lemma splitSlash_append (s1 s2 : string) :
  noSlash s1 = true -> splitSlash (s1 ++ String "/" s2) = s1 :: splitSlash s2.
Proof.
  induction s1 as [| c s1 IH]; cbn; [reflexivity |].
  intros H. apply andb_true_iff in H. destruct H as [Hc Hs].
  apply negb_true_iff in Hc. rewrite Hc, (IH Hs). reflexivity.
Qed.

(** Splitting the key of a resource gives back its namespace and name. *)
Lemma SplitMetaNamespaceKey_namespaceKey (a : akv.AzureKeyVaultSecret) :
  noSlash (metav1.Namespace (akv.ObjectMeta a)) = true ->
  noSlash (metav1.Name (akv.ObjectMeta a)) = true ->
  cache_SplitMetaNamespaceKey (namespaceKey a)
  = (metav1.Namespace (akv.ObjectMeta a), metav1.Name (akv.ObjectMeta a), None).
Proof.
  intros Hns Hname. unfold cache_SplitMetaNamespaceKey, namespaceKey.
  destruct (metav1.Namespace (akv.ObjectMeta a)) as [| c ns] eqn:E.
  - cbn. now rewrite (splitSlash_noSlash _ Hname).
  - change (0 <? String.length (String c ns))%nat with true. cbv iota.
    change ("/" ++ metav1.Name (akv.ObjectMeta a))%string
      with (String "/" (metav1.Name (akv.ObjectMeta a))).
    rewrite (splitSlash_append _ _ Hns), (splitSlash_noSlash _ Hname). reflexivity.
Qed.

(** X7: the key a handler enqueues for a resource leads the reconcilers back
    to that resource.  For a cached resource whose namespace and name hold no
    slash, the key the Add handler puts on the structural queue splits into
    that namespace and name, and [getAzureKeyVaultSecret] on it returns the
    cached pointer and no error. *)
Theorem X7_enqueued_key_resolves (w : World) (n : nat) (a : akv.AzureKeyVaultSecret) :
  nth_error (heap w) n = Some a ->
  hasOutputDefined a = true ->
  noSlash (metav1.Namespace (akv.ObjectMeta a)) = true ->
  noSlash (metav1.Name (akv.ObjectMeta a)) = true ->
  alist_get (metav1.Namespace (akv.ObjectMeta a), metav1.Name (akv.ObjectMeta a))
    (akvsStore w) = Some n ->
  exists w1,
    dispatch (OnAdd (PAkvs (Addr n))) w = Next tt w1
    /\ In (namespaceKey a) (items (crdQueue w1))
    /\ resolves w1 (namespaceKey a) n
    /\ exists w2,
         getAzureKeyVaultSecret (R := unit) (namespaceKey a) w1 = Next (Addr n, None) w2.
Proof.
  intros Hn Ho Hns Hname Hg.
  pose proof (SplitMetaNamespaceKey_namespaceKey a Hns Hname) as Hs.
  eexists. split.
  - cbn. unfold func, bind. cbn.
    rewrite (akvsHasOutputDefined_eq _ _ _ _ Hn), Ho.
    unfold deref. rewrite Hn. cbn.
    rewrite queue_Enqueue_eq with (a := a) by exact Hn. reflexivity.
  - cbn. split; [apply Queue_Add_In |]. split.
    + eexists. eexists. split; [exact Hs | exact Hg].
    + eexists. apply (getAzureKeyVaultSecret_eq unit _ _ _ _ n Hs). exact Hg.
Qed.

Lemma getAzureKeyVaultSecret_malformed (R : Type) (w : World) (key : string) :
  2 < length (splitSlash key) ->
  getAzureKeyVaultSecret (R := R) key w = Next (nil_ptr, Some (invalidKey key)) w.
Proof.
  intros H. unfold getAzureKeyVaultSecret, func, bind, cache_SplitMetaNamespaceKey.
  destruct (splitSlash key) as [| p [| q [| r l]]]; cbn in H; try lia. reflexivity.
Qed.

Lemma getAzureKeyVaultSecret_missing (R : Type) (w : World) (key namespace name : string) :
  cache_SplitMetaNamespaceKey key = (namespace, name, None) ->
  alist_get (namespace, name) (akvsStore w) = None ->
  getAzureKeyVaultSecret (R := R) key w
  = Next (nil_ptr, Some (notFound "azurekeyvaultsecret" name))
      (set_logs (logs w ++ [(DebugLevel,
                             Sprintf "Getting AzureKeyVaultSecret %s from namespace %s"
                               [ArgString name; ArgString namespace])]) w).
Proof.
  intros Hs Hg. unfold getAzureKeyVaultSecret, func, bind. rewrite Hs. cbn.
  unfold azureKeyVaultSecretLister_Get. cbn. rewrite Hg. reflexivity.
Qed.

(** ** Keys the reconcilers cannot use *)

(** X8: a key with more than one slash is refused before any lookup.
    [getAzureKeyVaultSecret] returns a nil pointer and the invalid key error
    without touching anything, and both reconcilers return that same error:
    the cluster and the queues are as before, only the log has grown. *)
Theorem X8_malformed_key_is_returned_as_an_error (w : World) (key : string) :
  2 < length (splitSlash key) ->
  getAzureKeyVaultSecret (R := unit) key w = Next (nil_ptr, Some (invalidKey key)) w
  /\ (exists w',
        syncAzureKeyVaultSecret (R := unit) key w = Next (Some (invalidKey key)) w'
        /\ sameCluster w w' /\ sameQueues w w')
  /\ (exists w',
        syncAzureKeyVault (R := unit) key w = Next (Some (invalidKey key)) w'
        /\ sameCluster w w' /\ sameQueues w w').
Proof.
  intros H. split; [exact (getAzureKeyVaultSecret_malformed unit w key H) |]. split.
  - eexists. split.
    + unfold syncAzureKeyVaultSecret, func, bind. cbn.
      rewrite getAzureKeyVaultSecret_malformed by exact H. cbn. reflexivity.
    + unfold sameCluster, sameQueues. cbn. repeat split.
  - eexists. split.
    + unfold syncAzureKeyVault, func, bind. cbn.
      rewrite getAzureKeyVaultSecret_malformed by exact H. cbn. reflexivity.
    + unfold sameCluster, sameQueues. cbn. repeat split.
Qed.

(** X9: a key whose resource is no longer in the informer cache ends both
    reconcilers with nil.  The miss is logged as an error; the cluster and
    the queues are as before: no API call, no event. *)
Theorem X9_missing_resource_ends_the_pass_with_nil (w : World)
    (key namespace name : string) :
  cache_SplitMetaNamespaceKey key = (namespace, name, None) ->
  alist_get (namespace, name) (akvsStore w) = None ->
  let gone :=
    (ErrorLevel,
     Sprintf "AzureKeyVaultSecret '%s' in work queue no longer exists" [ArgString key]) in
  (exists w',
      syncAzureKeyVaultSecret (R := unit) key w = Next None w'
      /\ sameCluster w w' /\ sameQueues w w' /\ In gone (logs w'))
  /\ (exists w',
        syncAzureKeyVault (R := unit) key w = Next None w'
        /\ sameCluster w w' /\ sameQueues w w' /\ In gone (logs w')).
Proof.
  intros Hs Hg gone. split.
  - eexists. split.
    + unfold syncAzureKeyVaultSecret, func, bind. cbn.
      rewrite getAzureKeyVaultSecret_missing with (namespace := namespace) (name := name)
        by assumption.
      cbn. reflexivity.
    + unfold sameCluster, sameQueues. cbn. repeat split.
      apply in_or_app. right. now left.
  - eexists. split.
    + unfold syncAzureKeyVault, func, bind. cbn.
      rewrite getAzureKeyVaultSecret_missing with (namespace := namespace) (name := name)
        by assumption.
      cbn. reflexivity.
    + unfold sameCluster, sameQueues. cbn. repeat split.
      apply in_or_app. right. now left.
Qed.

(** ** More on the Output Reconciler *)

Lemma isOwnedBy_eq (R : Type) (w : World) (n : nat) (a : akv.AzureKeyVaultSecret)
    (o : NativeObject) :
  nth_error (heap w) n = Some a ->
  isOwnedBy (R := R) (Some o) (Addr n) w = Next (controlledBy (objectMeta o) a) w.
Proof.
  intros H. unfold isOwnedBy, func, bind, deref, controlledBy. rewrite H.
  destruct (metav1.GetControllerOf (objectMeta o)); reflexivity.
Qed.

Lemma getOrCreateKubernetesSecret_found (R : Type) (w : World) (n : nat)
    (a : akv.AzureKeyVaultSecret) (s : corev1.Secret) :
  nth_error (heap w) n = Some a ->
  alist_get (metav1.Namespace (akv.ObjectMeta a), determineSecretName a) (secrets w)
  = Some s ->
  getOrCreateKubernetesSecret (R := R) (Addr n) w = Next (Okay s) w.
Proof.
  intros H Hs. unfold getOrCreateKubernetesSecret, func, bind, deref. rewrite H.
  unfold secretsLister_Get. rewrite Hs. reflexivity.
Qed.

(** X10: for a resource whose only output is a secret that exists already,
    the Output Reconciler makes no API call.  It records the secret as
    synced and then tests the secret's controller reference: when the
    reference is the resource's the pass returns nil, otherwise it records a
    warning against the resource and returns the resource exists error. *)
Theorem X10_existing_secret_is_checked_for_ownership (w : World) (key : string) (n : nat)
    (a : akv.AzureKeyVaultSecret) (s : corev1.Secret) :
  resolves w key n ->
  nth_error (heap w) n = Some a ->
  hasOutputSecret a = true -> hasOutputConfigMap a = false ->
  alist_get (metav1.Namespace (akv.ObjectMeta a), determineSecretName a) (secrets w)
  = Some s ->
  let synced :=
    mkEvent (RefSecret s) corev1.EventTypeNormal SuccessSynced
      MessageAzureKeyVaultSecretSynced in
  let msg := resourceExists (metav1.Name (corev1.Secret_ObjectMeta s)) in
  exists err w',
    syncAzureKeyVaultSecret (R := unit) key w = Next err w'
    /\ calls w' = calls w /\ secrets w' = secrets w /\ heap w' = heap w
    /\ if controlledBy (corev1.Secret_ObjectMeta s) a
       then err = None /\ events w' = events w ++ [synced]
       else err = Some (fmt_Errorf msg [])
            /\ events w' = events w
                           ++ [synced;
                               mkEvent (RefAkvs (Addr n)) corev1.EventTypeWarning
                                 ErrResourceExists msg].
Proof.
  intros [namespace [name [Hs Hg]]] Hn Hsec Hcm Hfound synced msg.
  destruct (controlledBy (corev1.Secret_ObjectMeta s) a) eqn:Hc.
  - eexists; eexists. split.
    + unfold syncAzureKeyVaultSecret, func, bind. cbn.
      rewrite getAzureKeyVaultSecret_eq with (namespace := namespace) (name := name) (n := n)
        by assumption.
      cbn.
      rewrite akvsHasOutputSecret_eq with (a := a) by exact Hn. rewrite Hsec. cbn.
      rewrite getOrCreateKubernetesSecret_found with (a := a) (s := s) by assumption.
      cbn.
      rewrite akvsHasOutputConfigMap_eq with (a := a) by exact Hn. rewrite Hcm. cbn.
      rewrite isOwnedBy_eq with (a := a) by exact Hn. cbn. rewrite Hc. cbn.
      reflexivity.
    + cbn. repeat split.
  - eexists; eexists. split.
    + unfold syncAzureKeyVaultSecret, func, bind. cbn.
      rewrite getAzureKeyVaultSecret_eq with (namespace := namespace) (name := name) (n := n)
        by assumption.
      cbn.
      rewrite akvsHasOutputSecret_eq with (a := a) by exact Hn. rewrite Hsec. cbn.
      rewrite getOrCreateKubernetesSecret_found with (a := a) (s := s) by assumption.
      cbn.
      rewrite akvsHasOutputConfigMap_eq with (a := a) by exact Hn. rewrite Hcm. cbn.
      rewrite isOwnedBy_eq with (a := a) by exact Hn. cbn. rewrite Hc. cbn.
      reflexivity.
    + cbn. repeat split. rewrite <- app_assoc. reflexivity.
Qed.

(** ** More on the Vault Reconciler *)

(** X11: when the vault data of the first output a resource defines cannot
    be fetched, whatever the cause, the Vault Reconciler records one warning
    against the resource, returns the fetch failure error built from the
    resource's name and vault, and leaves everything else alone: no API
    call, no native object or cached resource changed. *)
Theorem X11_failed_fetch_changes_nothing (w : World) (key : string) (n : nat)
    (a : akv.AzureKeyVaultSecret) (cause : error) :
  resolves w key n -> nth_error (heap w) n = Some a ->
  (hasOutputSecret a = true /\ secretValuesOf (vaultService w) a = Err cause)
  \/ (hasOutputSecret a = false /\ hasOutputConfigMap a = true
      /\ configMapValuesOf (vaultService w) a = Err cause) ->
  let msg := Sprintf FailedAzureKeyVault
               [ArgString (metav1.Name (akv.ObjectMeta a));
                ArgString (akv.Vault_Name (akv.Vault (akv.Spec a)))] in
  exists w',
    syncAzureKeyVault (R := unit) key w = Next (Some (fmt_Errorf msg [])) w'
    /\ events w' = events w
                   ++ [mkEvent (RefAkvs (Addr n)) corev1.EventTypeWarning ErrAzureVault msg]
    /\ calls w' = calls w /\ heap w' = heap w /\ akvsStore w' = akvsStore w
    /\ secrets w' = secrets w /\ configMaps w' = configMaps w.
Proof.
  intros [namespace [name [Hs Hg]]] Hn Hcase msg.
  rewrite (syncAzureKeyVault_unfold _ _ _ _ _ _ Hs Hg).
  set (w0 := set_logs _ w).
  assert (Hn0 : nth_error (heap w0) n = Some a) by exact Hn.
  unfold func. unfold bind at 1.
  destruct Hcase as [[Hsec Hv] | [Hsec [Hcm Hv]]].
  - unfold syncAzureKeyVault_secret, bind.
    rewrite (akvsHasOutputSecret_eq _ _ _ _ Hn0), Hsec. cbn.
    rewrite getSecretFromKeyVault_eq with (a := a) by exact Hn. cbn. rewrite Hv. cbn.
    rewrite Hn. cbn.
    eexists. split; [reflexivity |]. cbn. repeat split.
  - rewrite (secret_block_skip w0 key n a Hn0 Hsec). unfold bind at 1.
    unfold syncAzureKeyVault_configMap, bind.
    rewrite (akvsHasOutputConfigMap_eq _ _ _ _ Hn0), Hcm. cbn.
    rewrite getConfigMapFromKeyVault_eq with (a := a) by exact Hn. cbn. rewrite Hv. cbn.
    rewrite Hn. cbn.
    eexists. split; [reflexivity |]. cbn. repeat split.
Qed.

(** X12: on drift the Vault Reconciler only updates: when the secret it
    wants to rewrite does not exist, the pass stops at the failed Get and
    returns its error.  No secret is created, no status is written and no
    event is recorded, so the recorded digest stays out of date. *)
Theorem X12_drift_with_missing_secret_stops_the_pass (w : World) (key : string) (n : nat)
    (a : akv.AzureKeyVaultSecret) (v : list (string * list byte)) :
  resolves w key n -> nth_error (heap w) n = Some a ->
  hasOutputSecret a = true ->
  secretValuesOf (vaultService w) a = Okay v ->
  akv.SecretHash (akv.Status a) <> getMD5HashOfByteValues v ->
  let namespace := metav1.Namespace (akv.ObjectMeta a) in
  let outputName := akv.OutputSecret_Name (akv.Secret (akv.Output (akv.Spec a))) in
  alist_get (namespace, outputName) (secrets w) = None ->
  exists w',
    syncAzureKeyVault (R := unit) key w
    = Next (Some (fmt_Errorf "failed to get existing secret %s, error: %+v"
                    [ArgString outputName; ArgError (notFound "secret" outputName)])) w'
    /\ calls w' = calls w ++ [SecretsGet namespace outputName]
    /\ events w' = events w /\ heap w' = heap w /\ akvsStore w' = akvsStore w
    /\ secrets w' = secrets w.
Proof.
  intros [ns [name [Hs Hg]]] Hn Hsec Hv Hd namespace outputName Hmiss.
  rewrite (syncAzureKeyVault_unfold _ _ _ _ _ _ Hs Hg).
  set (w0 := set_logs _ w).
  assert (Hn0 : nth_error (heap w0) n = Some a) by exact Hn.
  unfold func. unfold bind at 1.
  unfold syncAzureKeyVault_secret, bind.
  rewrite (akvsHasOutputSecret_eq _ _ _ _ Hn0), Hsec. cbn.
  rewrite getSecretFromKeyVault_eq with (a := a) by exact Hn. cbn. rewrite Hv. cbn.
  rewrite Hn. cbn.
  apply String.eqb_neq in Hd. rewrite Hd. cbn.
  unfold secretsLister_Get. cbn. fold namespace outputName. rewrite Hmiss. cbn.
  eexists. split; [reflexivity |]. cbn. repeat split.
Qed.

(** The secret block when the vault content has a new digest and the secret
    is there to be rewritten. *)
Lemma secret_block_rewrites (w : World) (key : string) (n : nat)
    (a : akv.AzureKeyVaultSecret) (v : list (string * list byte))
    (s s' : corev1.Secret) :
  nth_error (heap w) n = Some a -> hasOutputSecret a = true ->
  alist_get (metav1.Namespace (akv.ObjectMeta a), metav1.Name (akv.ObjectMeta a))
    (akvsStore w) = Some n ->
  secretValuesOf (vaultService w) a = Okay v ->
  akv.SecretHash (akv.Status a) <> getMD5HashOfByteValues v ->
  let namespace := metav1.Namespace (akv.ObjectMeta a) in
  let outputName := akv.OutputSecret_Name (akv.Secret (akv.Output (akv.Spec a))) in
  alist_get (namespace, outputName) (secrets w) = Some s ->
  updateExistingSecret a v s = Okay s' ->
  metav1.Name (corev1.Secret_ObjectMeta s') = outputName ->
  exists w',
    syncAzureKeyVault_secret key (Addr n) w = Next tt w'
    /\ keeps n a w'
    /\ calls w'
       = calls w
         ++ [SecretsGet namespace outputName;
             SecretsUpdate namespace s';
             AzureKeyVaultSecretsUpdateStatus namespace
               (statusForSecret a (getMD5HashOfByteValues v) (clock w))]
    /\ alist_get (namespace, outputName) (secrets w') = Some s'
    /\ alist_get (namespace, metav1.Name (akv.ObjectMeta a)) (akvsStore w')
       = Some (S (length (heap w)))
    /\ nth_error (heap w') (S (length (heap w)))
       = Some (accepted a
                 (akv.Status (statusForSecret a (getMD5HashOfByteValues v) (clock w))))
    /\ events w' = events w.
Proof.
  intros H Ho Hc Hv Hd namespace outputName Hfound Hup Hname.
  unfold syncAzureKeyVault_secret, bind.
  rewrite (akvsHasOutputSecret_eq _ _ _ _ H), Ho. cbn.
  rewrite getSecretFromKeyVault_eq with (a := a) by exact H. cbn. rewrite Hv. cbn.
  rewrite H. cbn.
  apply String.eqb_neq in Hd. rewrite Hd. cbn.
  unfold secretsLister_Get. cbn. fold namespace outputName. rewrite Hfound. cbn.
  rewrite Hup. cbn. rewrite Hname. rewrite Hfound. cbn.
  rewrite statusForSecret_eq with (a := a) by exact H.
  rewrite submit_accepted with (n := n) by (try exact H; try exact Hc; reflexivity).
  cbn. eexists. split; [reflexivity |]. cbn. unfold keeps. cbn. repeat split.
  - apply nth_error_app_keep. now apply nth_error_app_keep.
  - rewrite <- !app_assoc. reflexivity.
  - now apply alist_get_replace with (v := s).
  - now apply alist_get_replace with (v := n).
  - apply nth_error_app_last2.
Qed.

(** X13: the drift path of a resource whose only output is a secret.  When
    the vault content has a digest other than the recorded one and the
    secret exists, the pass reads the secret, replaces it with what
    [updateExistingSecret] makes of it, and has the new digest recorded in
    the status, in that order and with no other API call; the cluster then
    holds the rewritten secret, the cache a newer version of the resource
    with the new digest, and the pass ends with the synced event and nil. *)
Theorem X13_drift_rewrites_the_secret_then_the_status (w : World) (key : string) (n : nat)
    (a : akv.AzureKeyVaultSecret) (v : list (string * list byte))
    (s s' : corev1.Secret) :
  let namespace := metav1.Namespace (akv.ObjectMeta a) in
  let name := metav1.Name (akv.ObjectMeta a) in
  let outputName := akv.OutputSecret_Name (akv.Secret (akv.Output (akv.Spec a))) in
  cache_SplitMetaNamespaceKey key = (namespace, name, None) ->
  alist_get (namespace, name) (akvsStore w) = Some n ->
  nth_error (heap w) n = Some a ->
  hasOutputSecret a = true -> hasOutputConfigMap a = false ->
  secretValuesOf (vaultService w) a = Okay v ->
  akv.SecretHash (akv.Status a) <> getMD5HashOfByteValues v ->
  alist_get (namespace, outputName) (secrets w) = Some s ->
  updateExistingSecret a v s = Okay s' ->
  metav1.Name (corev1.Secret_ObjectMeta s') = outputName ->
  exists w' q stored,
    syncAzureKeyVault (R := unit) key w = Next None w'
    /\ calls w'
       = calls w
         ++ [SecretsGet namespace outputName;
             SecretsUpdate namespace s';
             AzureKeyVaultSecretsUpdateStatus namespace
               (statusForSecret a (getMD5HashOfByteValues v) (clock w))]
    /\ alist_get (namespace, outputName) (secrets w') = Some s'
    /\ alist_get (namespace, name) (akvsStore w') = Some q
    /\ nth_error (heap w') q = Some stored
    /\ akv.SecretHash (akv.Status stored) = getMD5HashOfByteValues v
    /\ akv.SecretName (akv.Status stored) = determineSecretName a
    /\ akv.Spec stored = akv.Spec a
    /\ events w' = events w ++ [syncedWithVault (Addr n)].
Proof.
  intros namespace name outputName Hs Hg Hn Hsec Hcm Hv Hd Hfound Hup Hname.
  rewrite (syncAzureKeyVault_unfold _ _ _ _ _ _ Hs Hg).
  set (w0 := set_logs _ w).
  assert (Hn0 : nth_error (heap w0) n = Some a) by exact Hn.
  destruct (secret_block_rewrites w0 key n a v s s' Hn0 Hsec Hg Hv Hd Hfound Hup Hname)
    as [w1 [E [Hk [Hcalls [Hsecret [Hstore [Hcell Hev]]]]]]].
  unfold func. unfold bind at 1. rewrite E. unfold bind at 1.
  rewrite (configMap_block_skip w1 key n a Hk Hcm). cbn.
  eexists; eexists; eexists. split; [reflexivity |]. cbn.
  split; [exact Hcalls |]. split; [exact Hsecret |]. split; [exact Hstore |].
  split; [exact Hcell |]. cbn. rewrite Hev. repeat split.
Qed.

Lemma submit_refused (R : Type) (w : World) (q : nat)
    (a obj stored : akv.AzureKeyVaultSecret) :
  alist_get (metav1.Namespace (akv.ObjectMeta a), metav1.Name (akv.ObjectMeta a))
    (akvsStore w) = Some q ->
  nth_error (heap w) q = Some stored ->
  metav1.ResourceVersion (akv.ObjectMeta stored)
  <> metav1.ResourceVersion (akv.ObjectMeta a) ->
  akv.ObjectMeta obj = akv.ObjectMeta a ->
  submit R (metav1.Namespace (akv.ObjectMeta a)) obj w
  = Next (Some (conflict "azurekeyvaultsecrets" (metav1.Name (akv.ObjectMeta a))))
      (submitting (metav1.Namespace (akv.ObjectMeta a)) obj w).
Proof.
  intros Hc Hq Hrv Hm. unfold submit, server_UpdateStatus. cbn. rewrite Hm, Hc.
  rewrite (nth_error_app_keep _ _ _ _ _ Hq).
  apply String.eqb_neq in Hrv. rewrite Hrv. reflexivity.
Qed.

(** X14: a resource with both outputs never completes a pass of the Vault
    Reconciler against an API server that refuses stale resource versions.
    Both status writers copy the resource as it was read at the start of
    the pass, so the config map writer submits the resource version, and
    the secret digest, from before the secret writer's update.  No pass
    returns nil; with nothing to do at all, the pass writes the secret
    status, has the config map status refused and returns the conflict. *)
Theorem X14_both_outputs_never_settle (w : World) (key : string) (n : nat)
    (a : akv.AzureKeyVaultSecret) :
  let namespace := metav1.Namespace (akv.ObjectMeta a) in
  let name := metav1.Name (akv.ObjectMeta a) in
  cache_SplitMetaNamespaceKey key = (namespace, name, None) ->
  alist_get (namespace, name) (akvsStore w) = Some n ->
  nth_error (heap w) n = Some a ->
  hasOutputSecret a = true -> hasOutputConfigMap a = true ->
  (forall w1, syncAzureKeyVault (R := unit) key w <> Next None w1)
  /\ (noDrift (vaultService w) a ->
      exists w',
        syncAzureKeyVault (R := unit) key w
        = Next (Some (conflict "azurekeyvaultsecrets" name)) w'
        /\ calls w'
           = calls w
             ++ [AzureKeyVaultSecretsUpdateStatus namespace
                   (statusForSecret a (akv.SecretHash (akv.Status a)) (clock w));
                 AzureKeyVaultSecretsUpdateStatus namespace
                   (statusForConfigMap a (akv.ConfigMapHash (akv.Status a))
                      (clock w + 1)%Z)]).
Proof.
  intros namespace name Hs Hg Hn Hsec Hcm. split.
  - intros w1 E. exact (syncAzureKeyVault_both_outputs w w1 key n a Hs Hg Hn Hsec Hcm E).
  - intros [Dsec Dcm].
    destruct (Dsec Hsec) as [v [Hv Hh]]. destruct (Dcm Hcm) as [v' [Hv' Hh']].
    rewrite (syncAzureKeyVault_unfold _ _ _ _ _ _ Hs Hg).
    set (w0 := set_logs _ w).
    assert (Hn0 : nth_error (heap w0) n = Some a) by exact Hn.
    unfold func. unfold bind at 1.
    unfold syncAzureKeyVault_secret, bind.
    rewrite (akvsHasOutputSecret_eq _ _ _ _ Hn0), Hsec. cbn.
    rewrite getSecretFromKeyVault_eq with (a := a) by exact Hn. cbn. rewrite Hv. cbn.
    rewrite Hn. cbn. rewrite Hh, String.eqb_refl. cbn.
    rewrite statusForSecret_eq with (a := a) by exact Hn.
    rewrite submit_accepted with (n := n) by (try exact Hn; try exact Hg; reflexivity).
    cbn.
    unfold syncAzureKeyVault_configMap, bind.
    rewrite akvsHasOutputConfigMap_eq with (a := a)
      by (cbn; apply nth_error_app_keep; now apply nth_error_app_keep).
    rewrite Hcm. cbn.
    rewrite getConfigMapFromKeyVault_eq with (a := a)
      by (cbn; apply nth_error_app_keep; now apply nth_error_app_keep).
    cbn. rewrite Hv'. cbn.
    rewrite (nth_error_app_keep _ _ _ _ _ (nth_error_app_keep _ _ [_] _ _ Hn)). cbn.
    rewrite Hh', String.eqb_refl. cbn.
    rewrite statusForConfigMap_eq with (a := a)
      by (cbn; apply nth_error_app_keep; now apply nth_error_app_keep).
    erewrite submit_refused with (q := S (length (heap w))).
    + cbn. eexists. split; [reflexivity |]. cbn.
      rewrite <- !app_assoc. reflexivity.
    + cbn. now apply alist_get_replace with (v := n).
    + cbn. apply nth_error_app_last2.
    + cbn. apply nextResourceVersion_fresh.
    + reflexivity.
Qed.

(** *** Events of a pass *)

Lemma hoare_steady (R A : Type) (n : nat) (a : akv.AzureKeyVaultSecret) (evs : list Event)
    (m : M R A) (QR : R -> World -> Prop) :
  (forall w, keeps n a w ->
             exists x w', m w = Next x w' /\ keeps n a w' /\ events w' = events w) ->
  hoare (keepsEvents n a evs) m (fun _ => keepsEvents n a evs) QR.
Proof.
  intros H w [Hk He]. destruct (H w Hk) as [x [w' [E [Hk' He']]]]. rewrite E.
  split; [exact Hk' | congruence].
Qed.

Lemma hoare_steady_log (R : Type) (n : nat) (a : akv.AzureKeyVaultSecret)
    (evs : list Event) (l : Level) (format : string) (args : list fmtArg)
    (QR : R -> World -> Prop) :
  hoare (keepsEvents n a evs) (log (R := R) l format args)
    (fun _ => keepsEvents n a evs) QR.
Proof.
  apply hoare_steady. intros w Hk. eexists; eexists. split; [reflexivity |].
  split; [exact Hk | reflexivity].
Qed.

Lemma hoare_steady_deref (R : Type) (n : nat) (a : akv.AzureKeyVaultSecret)
    (evs : list Event) (QR : R -> World -> Prop) :
  hoare (keepsEvents n a evs) (deref (R := R) (Addr n))
    (fun x w => x = a /\ keepsEvents n a evs w) QR.
Proof. intros w [Hk He]. unfold deref. rewrite Hk. repeat split; assumption. Qed.

Lemma submit_steady (R : Type) (namespace : string) (obj : akv.AzureKeyVaultSecret)
    (w : World) (n : nat) (a : akv.AzureKeyVaultSecret) :
  keeps n a w ->
  exists err w',
    submit R namespace obj w = Next err w' /\ keeps n a w' /\ events w' = events w.
Proof.
  intros Hk. unfold submit.
  destruct (server_UpdateStatus namespace obj (submitting namespace obj w)) as [r w'] eqn:E.
  exists (snd r), w'. split; [reflexivity |].
  destruct (server_UpdateStatus_frame _ _ _ _ _ E) as [Hh [_ [_ [_ [_ [_ [He _]]]]]]].
  split; [| exact He].
  apply Hh. cbn. now apply nth_error_app_keep.
Qed.

Lemma hoare_steady_secret_block (key : string) (n : nat) (a : akv.AzureKeyVaultSecret)
    (evs : list Event) :
  hoare (keepsEvents n a evs) (syncAzureKeyVault_secret key (Addr n))
    (fun _ => keepsEvents n a evs) (failedWith n evs).
Proof.
  unfold syncAzureKeyVault_secret.
  eapply hoare_bind with (Q := fun _ => keepsEvents n a evs).
  { apply hoare_steady. intros w Hk. rewrite (akvsHasOutputSecret_eq _ _ _ _ Hk).
    eexists; eexists. split; [reflexivity |]. split; [exact Hk | reflexivity]. }
  intros hasSecret. destruct hasSecret; [| apply hoare_ret; auto].
  hstep hoare_steady_log as u.
  eapply hoare_bind with (Q := fun _ => keepsEvents n a evs).
  { apply hoare_steady. intros w Hk. rewrite (getSecretFromKeyVault_eq _ _ _ _ Hk).
    eexists; eexists. split; [reflexivity |]. split; [exact Hk | reflexivity]. }
  intros r.
  eapply hoare_bind with (Q := fun _ => keepsEvents n a evs).
  { destruct r as [v | err]; [apply hoare_ret; auto |].
    intros w [Hk He]. unfold bind, deref. rewrite Hk. cbn.
    split; [discriminate |]. right. eexists. rewrite He. reflexivity. }
  intros secretValue. hstep hoare_steady_log as u1.
  eapply hoare_bind; [apply hoare_steady_deref | intros s].
  apply hoare_assume. intros ->.
  eapply hoare_bind with (Q := fun _ => keepsEvents n a evs).
  { destruct (negb _); [| apply hoare_ret; auto].
    hstep hoare_steady_log as u2.
    eapply hoare_bind with (Q := fun _ => keepsEvents n a evs).
    { apply hoare_steady. intros w Hk. unfold kube_Secrets_Get, bind, record_call. cbn.
      unfold secretsLister_Get. cbn.
      destruct (alist_get _ _); eexists; eexists;
        (split; [reflexivity |]); (split; [exact Hk | reflexivity]). }
    intros r1.
    eapply hoare_bind with (Q := fun _ => keepsEvents n a evs).
    { destruct r1; [apply hoare_ret; auto |].
      apply hoare_Return. intros w [Hk He]. split; [discriminate | now left]. }
    intros existingSecret.
    eapply hoare_bind with (Q := fun _ => keepsEvents n a evs).
    { destruct (updateExistingSecret _ _ _); [apply hoare_ret; auto |].
      apply hoare_Return. intros w [Hk He]. split; [discriminate | now left]. }
    intros updatedSecret.
    eapply hoare_bind with (Q := fun _ => keepsEvents n a evs).
    { apply hoare_steady. intros w Hk. unfold kube_Secrets_Update, bind, record_call. cbn.
      destruct (alist_get _ _); eexists; eexists;
        (split; [reflexivity |]); (split; [exact Hk | reflexivity]). }
    intros r2.
    eapply hoare_bind with (Q := fun _ => keepsEvents n a evs).
    { destruct r2; [apply hoare_ret; auto |].
      apply hoare_Return. intros w [Hk He]. split; [discriminate | now left]. }
    intros secret. apply hoare_steady_log. }
  intros u3. hstep hoare_steady_log as u4.
  eapply hoare_bind with (Q := fun _ => keepsEvents n a evs).
  { apply hoare_steady. intros w Hk. rewrite (statusForSecret_eq _ _ _ _ _ Hk).
    destruct (submit_steady (option error) (metav1.Namespace (akv.ObjectMeta a))
                (statusForSecret a (getMD5HashOfByteValues secretValue) (clock w)) w n a Hk)
      as [err [w' [E [Hk' He']]]].
    exists err, w'. split; [exact E |]. split; assumption. }
  intros err. destruct err; [| apply hoare_ret; auto].
  apply hoare_Return. intros w [Hk He]. split; [discriminate | now left].
Qed.

Lemma hoare_steady_configMap_block (key : string) (n : nat) (a : akv.AzureKeyVaultSecret)
    (evs : list Event) :
  hoare (keepsEvents n a evs) (syncAzureKeyVault_configMap key (Addr n))
    (fun _ => keepsEvents n a evs) (failedWith n evs).
Proof.
  unfold syncAzureKeyVault_configMap.
  eapply hoare_bind with (Q := fun _ => keepsEvents n a evs).
  { apply hoare_steady. intros w Hk. rewrite (akvsHasOutputConfigMap_eq _ _ _ _ Hk).
    eexists; eexists. split; [reflexivity |]. split; [exact Hk | reflexivity]. }
  intros hasConfigMap. destruct hasConfigMap; [| apply hoare_ret; auto].
  hstep hoare_steady_log as u.
  eapply hoare_bind with (Q := fun _ => keepsEvents n a evs).
  { apply hoare_steady. intros w Hk. rewrite (getConfigMapFromKeyVault_eq _ _ _ _ Hk).
    eexists; eexists. split; [reflexivity |]. split; [exact Hk | reflexivity]. }
  intros r.
  eapply hoare_bind with (Q := fun _ => keepsEvents n a evs).
  { destruct r as [v | err]; [apply hoare_ret; auto |].
    intros w [Hk He]. unfold bind, deref. rewrite Hk. cbn.
    split; [discriminate |]. right. eexists. rewrite He. reflexivity. }
  intros cmValue. hstep hoare_steady_log as u1.
  eapply hoare_bind; [apply hoare_steady_deref | intros s].
  apply hoare_assume. intros ->.
  eapply hoare_bind with (Q := fun _ => keepsEvents n a evs).
  { destruct (negb _); [| apply hoare_ret; auto].
    hstep hoare_steady_log as u2.
    eapply hoare_bind with (Q := fun _ => keepsEvents n a evs).
    { apply hoare_steady. intros w Hk.
      unfold kube_ConfigMaps_Update, bind, record_call. cbn.
      destruct (alist_get _ _); eexists; eexists;
        (split; [reflexivity |]); (split; [exact Hk | reflexivity]). }
    intros r1.
    eapply hoare_bind with (Q := fun _ => keepsEvents n a evs).
    { destruct r1; [apply hoare_ret; auto |].
      hstep hoare_steady_log as u3.
      apply hoare_Return. intros w [Hk He]. split; [discriminate | now left]. }
    intros cm. apply hoare_steady_log. }
  intros u3. hstep hoare_steady_log as u4.
  eapply hoare_bind with (Q := fun _ => keepsEvents n a evs).
  { apply hoare_steady. intros w Hk. rewrite (statusForConfigMap_eq _ _ _ _ _ Hk).
    destruct (submit_steady (option error) (metav1.Namespace (akv.ObjectMeta a))
                (statusForConfigMap a (getMD5HashOfStringValues cmValue) (clock w)) w n a Hk)
      as [err [w' [E [Hk' He']]]].
    exists err, w'. split; [exact E |]. split; assumption. }
  intros err. destruct err; [| apply hoare_ret; auto].
  apply hoare_Return. intros w [Hk He]. split; [discriminate | now left].
Qed.

(** X15: for a key that resolves to a cached resource the Vault Reconciler
    always comes to an end, and the synced event tells how.  When the pass
    returns nil it has recorded exactly one event, the synced event against
    the resource; when it returns an error it has recorded either nothing or
    one warning about the vault, never the synced event. *)
Theorem X15_synced_event_exactly_when_nil (w : World) (key : string) (n : nat)
    (a : akv.AzureKeyVaultSecret) :
  resolves w key n -> nth_error (heap w) n = Some a ->
  exists err w',
    syncAzureKeyVault (R := unit) key w = Next err w'
    /\ (err = None -> events w' = events w ++ [syncedWithVault (Addr n)])
    /\ (err <> None ->
        events w' = events w
        \/ exists msg,
             events w'
             = events w
               ++ [mkEvent (RefAkvs (Addr n)) corev1.EventTypeWarning ErrAzureVault msg]).
Proof.
  intros [namespace [name [Hs Hg]]] Hn.
  rewrite (syncAzureKeyVault_unfold _ _ _ _ _ _ Hs Hg).
  set (w0 := set_logs _ w).
  assert (H0 : keepsEvents n a (events w) w0) by (split; [exact Hn | reflexivity]).
  set (post := fun (r : option error) (w' : World) =>
                 (r = None -> events w' = events w ++ [syncedWithVault (Addr n)])
                 /\ (r <> None -> failedWith n (events w) r w')).
  match goal with
  | |- exists err w', func ?body w0 = _ /\ _ =>
      assert (H : hoare (keepsEvents n a (events w)) body post post)
  end.
  { assert (Hfail : forall (r : option error) (w1 : World),
                       failedWith n (events w) r w1 -> post r w1).
    { intros r w1 F. split; [intros ->; now destruct F | intros _; exact F]. }
    eapply hoare_bind with (Q := fun _ => keepsEvents n a (events w)).
    { eapply hoare_conseq;
        [apply (hoare_steady_secret_block key n a (events w)) | auto | auto | exact Hfail]. }
    intros u.
    eapply hoare_bind with (Q := fun _ => keepsEvents n a (events w)).
    { eapply hoare_conseq;
        [apply (hoare_steady_configMap_block key n a (events w)) | auto | auto
        | exact Hfail]. }
    intros u'.
    eapply hoare_bind with (Q := fun _ => keepsEvents n a (events w));
      [apply hoare_steady_log | intros u''].
    intros w1 [Hk He]. cbn. split.
    - intros _. cbn. rewrite He. reflexivity.
    - intros C. now destruct C. }
  specialize (H w0 H0). unfold func.
  match goal with
  | |- exists err w', match ?o with _ => _ end = _ /\ _ =>
      destruct o as [r w' | r w' | w']
  end; try (now destruct H); exists r, w'; (split; [reflexivity |]);
    destruct H as [Hnil Herr]; (split; [exact Hnil |]);
    intros C; exact (proj2 (Herr C)).
Qed.

(** ** Owners *)

Lemma find_first (A : Type) (f : A -> bool) (l : list A) (x : A) :
  find f l = Some x
  <-> exists pre post,
        l = pre ++ x :: post /\ forallb (fun y => negb (f y)) pre = true /\ f x = true.
Proof.
  split.
  - induction l as [| y l IH]; cbn; [discriminate |].
    destruct (f y) eqn:E.
    + intros H. injection H as ->. exists [], l. repeat split. exact E.
    + intros H. destruct (IH H) as [pre [post [-> [Hpre Hx]]]].
      exists (y :: pre), post. cbn. rewrite E. repeat split; assumption.
  - intros [pre [post [-> [Hpre Hx]]]].
    induction pre as [| y pre IH]; cbn in *.
    + now rewrite Hx.
    + apply andb_true_iff in Hpre. destruct Hpre as [Hy Hpre].
      apply negb_true_iff in Hy. rewrite Hy. exact (IH Hpre).
Qed.

(** X16: [isOwnedByAzureKeyVaultSecret] reads the object and nothing else,
    and only the first owner reference flagged as controller counts: the
    answer is yes exactly when that reference has the kind
    AzureKeyVaultSecret.  References before it that are not controllers are
    passed over whatever their kind, and neither the name nor the UID of
    the reference is looked at. *)
Theorem X16_first_controller_reference_decides (o : NativeObject) (w : World) :
  exists b,
    isOwnedByAzureKeyVaultSecret (R := unit) (Some o) w = Next b w
    /\ (b = true
        <-> exists pre ref post,
              metav1.OwnerReferences (objectMeta o) = pre ++ ref :: post
              /\ forallb (fun r => negb (metav1.Controller r)) pre = true
              /\ metav1.Controller ref = true
              /\ metav1.Kind ref = "AzureKeyVaultSecret").
Proof.
  unfold isOwnedByAzureKeyVaultSecret, func, bind, metav1.GetControllerOf.
  destruct (find metav1.Controller (metav1.OwnerReferences (objectMeta o)))
    as [ref |] eqn:E.
  - destruct (String.eqb (metav1.Kind ref) "AzureKeyVaultSecret") eqn:K; cbn.
    + exists true. split; [reflexivity |]. split; [intros _ | reflexivity].
      apply find_first in E. destruct E as [pre [post [Hl [Hpre Hc]]]].
      exists pre, ref, post. apply String.eqb_eq in K. repeat split; assumption.
    + exists false. split; [reflexivity |]. split; [discriminate |].
      intros [pre [ref' [post [Hl [Hpre [Hc Hk]]]]]].
      assert (E' : find metav1.Controller (metav1.OwnerReferences (objectMeta o))
                   = Some ref').
      { apply find_first. exists pre, post. repeat split; assumption. }
      rewrite E in E'. injection E' as ->.
      apply String.eqb_neq in K. contradiction.
  - cbn. exists false. split; [reflexivity |]. split; [discriminate |].
    intros [pre [ref' [post [Hl [Hpre [Hc Hk]]]]]].
    assert (E' : find metav1.Controller (metav1.OwnerReferences (objectMeta o))
                 = Some ref').
    { apply find_first. exists pre, post. repeat split; assumption. }
    rewrite E in E'. discriminate.
Qed.

(** X17: the three ways to the owning resource agree.  For a resource whose
    namespace and name hold no slash, looking it up from a secret or a
    config map of its namespace through an owner reference that carries its
    name gives the same pointer and the same error as
    [getAzureKeyVaultSecret] does on the resource's work key, whether the
    resource is cached or not. *)
Theorem X17_owner_lookup_agrees_with_key_lookup (w : World) (a : akv.AzureKeyVaultSecret)
    (secret : corev1.Secret) (cm : corev1.ConfigMap) (owner : metav1.OwnerReference) :
  noSlash (metav1.Namespace (akv.ObjectMeta a)) = true ->
  noSlash (metav1.Name (akv.ObjectMeta a)) = true ->
  metav1.Namespace (corev1.Secret_ObjectMeta secret) = metav1.Namespace (akv.ObjectMeta a) ->
  metav1.Namespace (corev1.ConfigMap_ObjectMeta cm) = metav1.Namespace (akv.ObjectMeta a) ->
  metav1.RefName owner = metav1.Name (akv.ObjectMeta a) ->
  exists r w',
    getAzureKeyVaultSecret (R := unit) (namespaceKey a) w = Next r w'
    /\ getAzureKeyVaultSecretFromSecret (R := unit) secret owner w = Next r w
    /\ getAzureKeyVaultSecretFromConfigMap (R := unit) cm owner w = Next r w.
Proof.
  intros Hns Hname Hsec Hcm Hown.
  pose proof (SplitMetaNamespaceKey_namespaceKey a Hns Hname) as Hs.
  unfold getAzureKeyVaultSecretFromSecret, getAzureKeyVaultSecretFromConfigMap,
    func, bind, azureKeyVaultSecretLister_Get.
  rewrite Hsec, Hcm, Hown.
  destruct (alist_get (metav1.Namespace (akv.ObjectMeta a),
                       metav1.Name (akv.ObjectMeta a)) (akvsStore w)) as [n |] eqn:Hg.
  - eexists; eexists. split; [| split; reflexivity].
    exact (getAzureKeyVaultSecret_eq unit w _ _ _ n Hs Hg).
  - eexists; eexists. split; [| split; reflexivity].
    exact (getAzureKeyVaultSecret_missing unit w _ _ _ Hs Hg).
Qed.

(** ** Change detection *)

Lemma hasKey_In (V : Type) (key : string) (m : list (string * V)) :
  hasKey key m = true <-> In key (map fst m).
Proof.
  unfold hasKey. rewrite existsb_exists. split.
  - intros [e [Hin He]]. apply String.eqb_eq in He. subst. now apply in_map.
  - intros H. apply in_map_iff in H. destruct H as [e [He Hin]].
    exists e. split; [exact Hin |]. subst. apply String.eqb_refl.
Qed.

(** X18: the two change detectors answer without changing anything, and
    they report no change only when everything they look at agrees.  For a
    secret: its type is the one determined for the resource, the data key
    of the output, when one is set, is a key of the secret's data, and the
    recorded secret digest is the recomputed one.  For a config map: the
    same without the type. *)
Theorem X18_no_change_means_everything_agrees
    (determineSecretType : akv.AzureKeyVaultSecret -> string)
    (getMD5HashOfSecret : list (string * list byte) -> corev1.Secret -> string)
    (getMD5HashOfConfigMap : list (string * string) -> corev1.ConfigMap -> string)
    (w : World) (n : nat) (a : akv.AzureKeyVaultSecret)
    (secretValues : list (string * list byte)) (secret : corev1.Secret)
    (cmValues : list (string * string)) (cm : corev1.ConfigMap) :
  nth_error (heap w) n = Some a ->
  let secretKey := akv.OutputSecret_DataKey (akv.Secret (akv.Output (akv.Spec a))) in
  let cmKey := akv.OutputConfigMap_DataKey (akv.ConfigMap (akv.Output (akv.Spec a))) in
  (exists b,
      hasAzureKeyVaultSecretChangedForSecret (R := unit) determineSecretType
        getMD5HashOfSecret (Addr n) secretValues secret w = Next b w
      /\ (b = false
          <-> determineSecretType a = corev1.Secret_Type secret
              /\ (secretKey = "" \/ In secretKey (map fst (corev1.Secret_Data secret)))
              /\ akv.SecretHash (akv.Status a) = getMD5HashOfSecret secretValues secret))
  /\ (exists b,
        hasAzureKeyVaultSecretChangedForConfigMap (R := unit) getMD5HashOfConfigMap
          (Addr n) cmValues cm w = Next b w
        /\ (b = false
            <-> (cmKey = "" \/ In cmKey (map fst (corev1.ConfigMap_Data cm)))
                /\ akv.ConfigMapHash (akv.Status a) = getMD5HashOfConfigMap cmValues cm)).
Proof.
  intros Hn secretKey cmKey. split.
  - unfold hasAzureKeyVaultSecretChangedForSecret, func, bind, deref. rewrite Hn.
    fold secretKey.
    destruct (String.eqb (determineSecretType a) (corev1.Secret_Type secret)) eqn:Ht; cbn.
    2: { exists true. split; [reflexivity |]. split; [discriminate |].
         intros [Heq _]. apply String.eqb_neq in Ht. contradiction. }
    apply String.eqb_eq in Ht.
    destruct (String.eqb secretKey "") eqn:Hk; cbn.
    + apply String.eqb_eq in Hk.
      destruct (String.eqb (akv.SecretHash (akv.Status a))
                  (getMD5HashOfSecret secretValues secret)) eqn:Hh; cbn.
      * apply String.eqb_eq in Hh. exists false. split; [reflexivity |].
        split; [intros _ | reflexivity]. repeat split; auto.
      * apply String.eqb_neq in Hh. exists true. split; [reflexivity |].
        split; [discriminate |]. intros [_ [_ Heq]]. contradiction.
    + apply String.eqb_neq in Hk.
      destruct (hasKey secretKey (corev1.Secret_Data secret)) eqn:Hin; cbn.
      * apply hasKey_In in Hin.
        destruct (String.eqb (akv.SecretHash (akv.Status a))
                    (getMD5HashOfSecret secretValues secret)) eqn:Hh; cbn.
        -- apply String.eqb_eq in Hh. exists false. split; [reflexivity |].
           split; [intros _ | reflexivity]. repeat split; auto.
        -- apply String.eqb_neq in Hh. exists true. split; [reflexivity |].
           split; [discriminate |]. intros [_ [_ Heq]]. contradiction.
      * exists true. split; [reflexivity |]. split; [discriminate |].
        intros [_ [[Hempty | Hthere] _]]; [contradiction |].
        apply hasKey_In in Hthere. congruence.
  - unfold hasAzureKeyVaultSecretChangedForConfigMap, func, bind, deref. rewrite Hn.
    fold cmKey.
    destruct (String.eqb cmKey "") eqn:Hk; cbn.
    + apply String.eqb_eq in Hk.
      destruct (String.eqb (akv.ConfigMapHash (akv.Status a))
                  (getMD5HashOfConfigMap cmValues cm)) eqn:Hh; cbn.
      * apply String.eqb_eq in Hh. exists false. split; [reflexivity |].
        split; [intros _ | reflexivity]. split; auto.
      * apply String.eqb_neq in Hh. exists true. split; [reflexivity |].
        split; [discriminate |]. intros [_ Heq]. contradiction.
    + apply String.eqb_neq in Hk.
      destruct (hasKey cmKey (corev1.ConfigMap_Data cm)) eqn:Hin; cbn.
      * apply hasKey_In in Hin.
        destruct (String.eqb (akv.ConfigMapHash (akv.Status a))
                    (getMD5HashOfConfigMap cmValues cm)) eqn:Hh; cbn.
        -- apply String.eqb_eq in Hh. exists false. split; [reflexivity |].
           split; [intros _ | reflexivity]. split; auto.
        -- apply String.eqb_neq in Hh. exists true. split; [reflexivity |].
           split; [discriminate |]. intros [_ Heq]. contradiction.
      * exists true. split; [reflexivity |]. split; [discriminate |].
        intros [[Hempty | Hthere] _]; [contradiction |].
        apply hasKey_In in Hthere. congruence.
Qed.

(** ** What a pass of the Vault Reconciler is made of *)

Lemma vaultPassFrame_refl (w : World) : vaultPassFrame w w.
Proof.
  unfold vaultPassFrame, sameQueues. repeat split.
  exists []. split; [now rewrite app_nil_r | reflexivity].
Qed.

Lemma vaultPassFrame_trans (w1 w2 w3 : World) :
  vaultPassFrame w1 w2 -> vaultPassFrame w2 w3 -> vaultPassFrame w1 w3.
Proof.
  unfold vaultPassFrame, sameQueues.
  intros [[Q1 Q2] [V [more [C F]]]] [[Q1' Q2'] [V' [more' [C' F']]]].
  repeat split; try congruence.
  exists (more ++ more'). split.
  - rewrite C', C, app_assoc. reflexivity.
  - rewrite forallb_app, F, F'. reflexivity.
Qed.

Lemma vaultPassFrame_silent (w w' : World) :
  crdQueue w' = crdQueue w -> vaultQueue w' = vaultQueue w ->
  vaultService w' = vaultService w -> calls w' = calls w ->
  vaultPassFrame w w'.
Proof.
  intros Q1 Q2 V C. unfold vaultPassFrame, sameQueues. repeat split; try assumption.
  exists []. split; [now rewrite app_nil_r | reflexivity].
Qed.

Lemma vaultPassFrame_call (w w' : World) (c : ApiCall) :
  crdQueue w' = crdQueue w -> vaultQueue w' = vaultQueue w ->
  vaultService w' = vaultService w -> calls w' = calls w ++ [c] ->
  vaultPassCall c = true ->
  vaultPassFrame w w'.
Proof.
  intros Q1 Q2 V C Hc. unfold vaultPassFrame, sameQueues. repeat split; try assumption.
  exists [c]. split; [exact C | cbn; now rewrite Hc].
Qed.

Ltac silent := intros ?w; apply vaultPassFrame_silent; reflexivity.

Lemma pass_log (R : Type) (l : Level) (format : string) (args : list fmtArg) :
  stable vaultPassFrame (log (R := R) l format args).
Proof. silent. Qed.

Lemma pass_recorder_Event (R : Type) (object : ObjectRef)
    (eventtype reason message : string) :
  stable vaultPassFrame (recorder_Event (R := R) object eventtype reason message).
Proof. silent. Qed.

Lemma pass_clock_Now (R : Type) : stable vaultPassFrame (clock_Now (R := R)).
Proof. silent. Qed.

Lemma pass_c_vaultService (R : Type) : stable vaultPassFrame (c_vaultService (R := R)).
Proof. silent. Qed.

Lemma pass_assign (R : Type) (p : ptr)
    (f : akv.AzureKeyVaultSecret -> akv.AzureKeyVaultSecret) :
  stable vaultPassFrame (assign (R := R) p f).
Proof.
  intros w. unfold assign. destruct p as [| n]; [apply vaultPassFrame_refl |].
  destruct (nth_error (heap w) n); cbn; apply vaultPassFrame_silent; reflexivity.
Qed.

Lemma pass_azureKeyVaultSecretLister_Get (R : Type) (namespace name : string) :
  stable vaultPassFrame (azureKeyVaultSecretLister_Get (R := R) namespace name).
Proof.
  intros w. unfold azureKeyVaultSecretLister_Get.
  destruct (alist_get _ _); apply vaultPassFrame_refl.
Qed.

Lemma pass_kube_Secrets_Get (R : Type) (namespace name : string) :
  stable vaultPassFrame (kube_Secrets_Get (R := R) namespace name).
Proof.
  intros w. unfold kube_Secrets_Get, bind, record_call, secretsLister_Get. cbn.
  destruct (alist_get _ _); cbn;
    apply vaultPassFrame_call with (c := SecretsGet namespace name); reflexivity.
Qed.

Lemma pass_kube_Secrets_Update (R : Type) (namespace : string) (secret : corev1.Secret) :
  stable vaultPassFrame (kube_Secrets_Update (R := R) namespace secret).
Proof.
  intros w. unfold kube_Secrets_Update, bind, record_call. cbn.
  destruct (alist_get _ _); cbn;
    apply vaultPassFrame_call with (c := SecretsUpdate namespace secret); reflexivity.
Qed.

Lemma pass_kube_ConfigMaps_Update (R : Type) (namespace : string) (cm : corev1.ConfigMap) :
  stable vaultPassFrame (kube_ConfigMaps_Update (R := R) namespace cm).
Proof.
  intros w. unfold kube_ConfigMaps_Update, bind, record_call. cbn.
  destruct (alist_get _ _); cbn;
    apply vaultPassFrame_call with (c := ConfigMapsUpdate namespace cm); reflexivity.
Qed.

Lemma pass_akvsClient_UpdateStatus (R : Type) (namespace : string) (akvs : ptr) :
  stable vaultPassFrame (akvsClient_UpdateStatus (R := R) namespace akvs).
Proof.
  intros w. unfold akvsClient_UpdateStatus, bind, deref, record_call.
  destruct akvs as [| n]; [apply vaultPassFrame_refl |].
  destruct (nth_error (heap w) n) as [obj |]; [| apply vaultPassFrame_refl].
  destruct (server_UpdateStatus namespace obj
              (set_calls (calls w ++ [AzureKeyVaultSecretsUpdateStatus namespace obj]) w))
    as [r w'] eqn:E.
  destruct (server_UpdateStatus_frame _ _ _ _ _ E)
    as [_ [Hc [_ [_ [Q1 [Q2 [_ [_ [_ Hv]]]]]]]]].
  cbn.
  apply vaultPassFrame_call with (c := AzureKeyVaultSecretsUpdateStatus namespace obj);
    try assumption; reflexivity.
Qed.

Ltac pass_step :=
  first
    [ apply pass_log
    | apply pass_recorder_Event
    | apply pass_clock_Now
    | apply pass_c_vaultService
    | apply pass_assign
    | apply pass_azureKeyVaultSecretLister_Get
    | apply pass_kube_Secrets_Get
    | apply pass_kube_Secrets_Update
    | apply pass_kube_ConfigMaps_Update
    | apply pass_akvsClient_UpdateStatus
    | stable_step vaultPassFrame_refl vaultPassFrame_trans ].

Lemma pass_DeepCopy (R : Type) (p : ptr) : stable vaultPassFrame (DeepCopy (R := R) p).
Proof. unfold DeepCopy. pass_step; [pass_step | silent]. Qed.

Lemma pass_akvsHasOutputSecret (R : Type) (p : ptr) :
  stable vaultPassFrame (akvsHasOutputSecret (R := R) p).
Proof. unfold akvsHasOutputSecret. repeat pass_step. Qed.

Lemma pass_akvsHasOutputConfigMap (R : Type) (p : ptr) :
  stable vaultPassFrame (akvsHasOutputConfigMap (R := R) p).
Proof. unfold akvsHasOutputConfigMap. repeat pass_step. Qed.

Lemma pass_selectHandler (A : Type) (p : ptr) :
  stable vaultPassFrame (selectHandler (A := A) p).
Proof. unfold selectHandler. repeat pass_step. Qed.

Lemma pass_getSecretFromKeyVault (R : Type) (p : ptr) :
  stable vaultPassFrame (getSecretFromKeyVault (R := R) p).
Proof.
  unfold getSecretFromKeyVault. pass_step. pass_step; [apply pass_selectHandler |].
  unfold HandleSecret. repeat pass_step.
Qed.

Lemma pass_getConfigMapFromKeyVault (R : Type) (p : ptr) :
  stable vaultPassFrame (getConfigMapFromKeyVault (R := R) p).
Proof.
  unfold getConfigMapFromKeyVault. pass_step. pass_step; [apply pass_selectHandler |].
  unfold HandleConfigMap. repeat pass_step.
Qed.

Lemma pass_statusForSecret (R : Type) (p : ptr) (secretHash : string) :
  stable vaultPassFrame (updateAzureKeyVaultSecretStatusForSecret (R := R) p secretHash).
Proof.
  unfold updateAzureKeyVaultSecretStatusForSecret.
  repeat first [apply pass_DeepCopy | pass_step].
Qed.

Lemma pass_statusForConfigMap (R : Type) (p : ptr) (cmHash : string) :
  stable vaultPassFrame (updateAzureKeyVaultSecretStatusForConfigMap (R := R) p cmHash).
Proof.
  unfold updateAzureKeyVaultSecretStatusForConfigMap.
  repeat first [apply pass_DeepCopy | pass_step].
Qed.

Lemma pass_handleKeyVaultError (R : Type) (err : error) (key : string) :
  stable vaultPassFrame (handleKeyVaultError (R := R) err key).
Proof. unfold handleKeyVaultError. repeat pass_step. Qed.

Lemma pass_getAzureKeyVaultSecret (R : Type) (key : string) :
  stable vaultPassFrame (getAzureKeyVaultSecret (R := R) key).
Proof.
  unfold getAzureKeyVaultSecret.
  destruct (cache_SplitMetaNamespaceKey key) as [[namespace name] err].
  repeat pass_step.
Qed.

Ltac pass_call :=
  first
    [ apply pass_akvsHasOutputSecret
    | apply pass_akvsHasOutputConfigMap
    | apply pass_getSecretFromKeyVault
    | apply pass_getConfigMapFromKeyVault
    | apply pass_statusForSecret
    | apply pass_statusForConfigMap
    | apply pass_handleKeyVaultError
    | apply pass_getAzureKeyVaultSecret
    | pass_step ].

Lemma pass_secret_block (key : string) (akvs : ptr) :
  stable vaultPassFrame (syncAzureKeyVault_secret key akvs).
Proof. unfold syncAzureKeyVault_secret. repeat pass_call. Qed.

Lemma pass_configMap_block (key : string) (akvs : ptr) :
  stable vaultPassFrame (syncAzureKeyVault_configMap key akvs).
Proof. unfold syncAzureKeyVault_configMap. repeat pass_call. Qed.

(** X19: what a pass of the Vault Reconciler never does.  For every key and
    every state of the world, and however the pass ends, the API calls it
    made are Gets of a secret, Updates of a secret or a config map and
    status updates: it never creates a native object and never reads a
    config map.  It leaves both work queues as they were. *)
Theorem X19_vault_pass_only_reads_and_updates (key : string) (w : World) :
  vaultPassFrame w (worldOf (syncAzureKeyVault (R := unit) key w)).
Proof.
  revert w. change (stable vaultPassFrame (syncAzureKeyVault (R := unit) key)).
  unfold syncAzureKeyVault.
  repeat first [apply pass_secret_block | apply pass_configMap_block | pass_call].
Qed.

(** X20: the drift path of a resource whose only output is a config map.
    When the vault content has a digest other than the recorded one, the
    pass sends an Update with the config map that [createNewConfigMap]
    builds from the resource and the vault data.  If a config map of that
    name exists it is replaced by the new one and the new digest is
    recorded in the status; if none exists the Update's not found error is
    returned as it is, and neither a config map nor a status is written. *)
Theorem X20_drift_replaces_the_config_map (w : World) (key : string) (n : nat)
    (a : akv.AzureKeyVaultSecret) (v : list (string * string)) :
  let namespace := metav1.Namespace (akv.ObjectMeta a) in
  let name := metav1.Name (akv.ObjectMeta a) in
  cache_SplitMetaNamespaceKey key = (namespace, name, None) ->
  alist_get (namespace, name) (akvsStore w) = Some n ->
  nth_error (heap w) n = Some a ->
  hasOutputSecret a = false -> hasOutputConfigMap a = true ->
  configMapValuesOf (vaultService w) a = Okay v ->
  akv.ConfigMapHash (akv.Status a) <> getMD5HashOfStringValues v ->
  let cm := createNewConfigMap a v in
  let cmName := metav1.Name (corev1.ConfigMap_ObjectMeta cm) in
  exists err w',
    syncAzureKeyVault (R := unit) key w = Next err w'
    /\ match alist_get (namespace, cmName) (configMaps w) with
       | Some _ =>
           err = None
           /\ calls w'
              = calls w
                ++ [ConfigMapsUpdate namespace cm;
                    AzureKeyVaultSecretsUpdateStatus namespace
                      (statusForConfigMap a (getMD5HashOfStringValues v) (clock w))]
           /\ alist_get (namespace, cmName) (configMaps w') = Some cm
       | None =>
           err = Some (notFound "configmaps" cmName)
           /\ calls w' = calls w ++ [ConfigMapsUpdate namespace cm]
           /\ configMaps w' = configMaps w
       end.
Proof.
  intros namespace name Hs Hg Hn Hsec Hcm Hv Hd cm cmName.
  rewrite (syncAzureKeyVault_unfold _ _ _ _ _ _ Hs Hg).
  set (w0 := set_logs _ w).
  assert (Hn0 : nth_error (heap w0) n = Some a) by exact Hn.
  unfold func. unfold bind at 1.
  rewrite (secret_block_skip w0 key n a Hn0 Hsec). unfold bind at 1.
  unfold syncAzureKeyVault_configMap, bind.
  rewrite (akvsHasOutputConfigMap_eq _ _ _ _ Hn0), Hcm. cbn.
  rewrite getConfigMapFromKeyVault_eq with (a := a) by exact Hn. cbn. rewrite Hv. cbn.
  rewrite Hn. cbn.
  apply String.eqb_neq in Hd. rewrite Hd. cbn.
  fold namespace cm cmName.
  destruct (alist_get (namespace, cmName) (configMaps w)) as [old |] eqn:Hold; cbn.
  - rewrite statusForConfigMap_eq with (a := a) by exact Hn.
    rewrite submit_accepted with (n := n) by (try exact Hn; try exact Hg; reflexivity).
    cbn. eexists; eexists. split; [reflexivity |]. cbn.
    split; [reflexivity |]. split.
    + rewrite <- !app_assoc. reflexivity.
    + now apply alist_get_replace with (v := old).
  - eexists; eexists. split; [reflexivity |]. cbn. repeat split.
Qed.

End Properties.

(** ** The cases, run *)

Section Runs.

Import Demo Cases.

#[local] Existing Instance collab.

(** C1: a resource with both outputs is reconciled while the secret of its
    output name belongs to somebody else.  Only the config map, the last
    object assigned to [outputObject], reaches the ownership check: the pass
    returns nil and records no warning. *)
Theorem C1_unowned_secret_is_not_checked :
  isOwnedBy (R := unit) (Some (SecretObject foreignSecret)) (Addr 0) nameCollision
  = Next false nameCollision
  /\ exists w',
       syncAzureKeyVaultSecret (R := unit) "ns/foo" nameCollision = Next None w'
       /\ warnings w' = [].
Proof.
  split; [reflexivity |]. eexists. split; [vm_compute; reflexivity | reflexivity].
Qed.

(** C4: on drift the config map block sends an Update with a newly built
    config map and never reads the existing one, while the secret block
    starts with a Get of the existing secret. *)
Theorem C4_config_map_replaced_without_read :
  (exists w',
      syncAzureKeyVault (R := unit) "ns/foo" staleConfigMap = Next None w'
      /\ filter isConfigMapsGet (calls w') = []
      /\ nativeWrites w'
         = [ConfigMapsUpdate "ns"
              (createNewConfigMap
                 (configMapOnly (akv.mkStatus "" 0 "" "password=old;" "foo-cm"))
                 [("password", "p@ss")])])
  /\ filter isSecretsGet
       (calls (after (syncAzureKeyVault (R := unit) "ns/foo" staleSecret)))
     = [SecretsGet "ns" "foo-secret"].
Proof.
  split; [| vm_compute; reflexivity].
  eexists. split; [vm_compute; reflexivity |]. split; vm_compute; reflexivity.
Qed.

(** C6: a payload that is not a declaring resource is logged and then used:
    each handler goes on to dereference the nil result of the conversion. *)
Theorem C6_failed_conversion_is_dereferenced :
  dispatch (OnAdd (POther "Pod")) staleSecret
  = Panicked (set_logs [conversionFailure] staleSecret)
  /\ dispatch (OnDelete (POther "Pod")) staleSecret
     = Panicked (set_logs [conversionFailure] staleSecret)
  /\ dispatch (OnUpdate (PAkvs (Addr 0)) (POther "Pod")) staleSecret
     = Panicked (set_logs [conversionFailure] staleSecret).
Proof. repeat split; vm_compute; reflexivity. Qed.

(** C7: a deletion that arrives as a tombstone.  The handler converts the
    tombstone and [queue.Enqueue] puts the key it carries on the structural
    queue, as for the resource itself; but line 86 asks
    [cache.MetaNamespaceKeyFunc] for the key, which knows no tombstones, so
    the handler hands the error to [HandleError] and returns before
    [Forget]: the vault-drift queue still counts three requeues for
    [ns/foo].  Delivered as the resource itself, the same deletion brings
    the count back to zero. *)
Theorem C7_tombstone_delete_is_not_forgotten :
  resourceOf pendingRetry (PTombstone "ns/foo" (PAkvs (Addr 0)))
  = Some (secretOnly (akv.mkStatus "password=old;" 0 "foo-secret" "" ""))
  /\ hasOutputDefined (secretOnly (akv.mkStatus "password=old;" 0 "foo-secret" "" ""))
     = true
  /\ Queue_NumRequeues "ns/foo" (vaultQueue pendingRetry) = 3
  /\ (exists w' msg,
        dispatch (OnDelete (PTombstone "ns/foo" (PAkvs (Addr 0)))) pendingRetry
        = Next tt w'
        /\ items (crdQueue w') = ["ns/foo"]
        /\ vaultQueue w' = vaultQueue pendingRetry
        /\ Queue_NumRequeues "ns/foo" (vaultQueue w') = 3
        /\ In (HandledError, msg) (logs w'))
  /\ (exists w',
        dispatch (OnDelete (PAkvs (Addr 0))) pendingRetry = Next tt w'
        /\ items (crdQueue w') = ["ns/foo"]
        /\ Queue_NumRequeues "ns/foo" (vaultQueue w') = 0).
Proof.
  split; [reflexivity |]. split; [reflexivity |]. split; [reflexivity |]. split.
  - eexists; eexists. split; [vm_compute; reflexivity |].
    split; [reflexivity |]. split; [reflexivity |]. split; [reflexivity |].
    right. left. reflexivity.
  - eexists. split; [vm_compute; reflexivity |]. split; reflexivity.
Qed.


(** C5, as stated, fails: the new version of [ns/foo] has no output, and the
    update that removed it puts the key on the structural queue. *)
Lemma C5_update_removing_output_enqueues :
  resourceOf outputRemoved (PAkvs (Addr 1)) = Some (resource "2" "" "" "secret" [] noStatus)
  /\ hasOutputDefined (resource "2" "" "" "secret" [] noStatus) = false
  /\ exists w',
       dispatch (OnUpdate (PAkvs (Addr 0)) (PAkvs (Addr 1))) outputRemoved = Next tt w'
       /\ items (crdQueue w') = ["ns/foo"].
Proof.
  split; [reflexivity |]. split; [reflexivity |].
  eexists. split; vm_compute; reflexivity.
Qed.


(** C3, as stated, fails: the recorded digest is the digest of the vault
    content, and the pass still submits a status write. *)
Lemma C3_status_written_without_drift :
  secretValuesOf (vaultService freshSecret)
    (secretOnly (akv.mkStatus "password=p@ss;" 0 "foo-secret" "" ""))
  = Okay [("password", list_byte_of_string "p@ss")]
  /\ getMD5HashOfByteValues [("password", list_byte_of_string "p@ss")] = "password=p@ss;"
  /\ exists w',
       syncAzureKeyVault (R := unit) "ns/foo" freshSecret = Next None w'
       /\ statusWrites w'
          = [AzureKeyVaultSecretsUpdateStatus "ns"
               (secretOnly (akv.mkStatus "password=p@ss;" 100 "foo-secret" "" ""))].
Proof.
  split; [reflexivity |]. split; [reflexivity |].
  eexists. split; vm_compute; reflexivity.
Qed.


Lemma C3_witness :
  exists w',
    syncAzureKeyVault (R := unit) "ns/foo" freshSecret = Next None w'
    /\ nativeWrites w' = nativeWrites freshSecret
    /\ calls w'
       = calls freshSecret
         ++ [firstStatusWrite
               (secretOnly (akv.mkStatus "password=p@ss;" 0 "foo-secret" "" ""))
               (clock freshSecret)].
Proof.
  destruct (@C3_no_drift_skips_only_the_native_write collab freshSecret "ns/foo" 0
              (secretOnly (akv.mkStatus "password=p@ss;" 0 "foo-secret" "" "")))
    as [err [w' [E [Hnative [_ [Hcalls Hnil]]]]]].
  - exists "ns", "foo". split; reflexivity.
  - reflexivity.
  - reflexivity.
  - split.
    + intros _. eexists. split; reflexivity.
    + intros Hx. vm_compute in Hx. discriminate Hx.
  - exists w'. rewrite (Hnil eq_refl eq_refl) in E.
    split; [exact E |]. split; [exact Hnative |].
    destruct Hcalls as [Hc | [_ [Hx _]]]; [exact Hc | discriminate Hx].
Defined.

Lemma C5_witness :
  exists w',
    dispatch (OnAdd (PAkvs (Addr 1))) outputRemoved = Next tt w'
    /\ crdQueue w' = crdQueue outputRemoved /\ vaultQueue w' = vaultQueue outputRemoved.
Proof.
  apply (@C5_inert_event_enqueues_nothing collab outputRemoved (OnAdd (PAkvs (Addr 1)))).
  exists (resource "2" "" "" "secret" [] noStatus). split; reflexivity.
Defined.


Lemma C9_witness :
  exists obj err w',
    updateAzureKeyVaultSecretStatusForSecret (R := unit) (Addr 0) "password=p@ss;"
      staleSecret = Next err w'
    /\ wroteCopy staleSecret w' "ns" obj
    /\ akv.ConfigMapHash (akv.Status obj) = ""
    /\ akv.SecretHash (akv.Status obj) = "password=p@ss;".
Proof.
  destruct (@C9_status_write_on_fresh_copy collab staleSecret 0
              (secretOnly (akv.mkStatus "password=old;" 0 "foo-secret" "" ""))
              "foo-secret" "" "password=p@ss;" "" eq_refl)
    as [_ [[obj [err [w' [E [W [_ [_ Hs]]]]]]] _]].
  exists obj, err, w'. split; [exact E |]. split; [exact W |].
  rewrite Hs. split; reflexivity.
Defined.

Lemma C10_witness :
  (hasOutputDefined (resource "2" "" "" "secret" [] noStatus) = true ->
   exists err w', syncAzureKeyVaultSecret (R := unit) "ns/foo" outputGone = Next err w')
  /\ (hasOutputDefined (resource "2" "" "" "secret" [] noStatus) = false ->
      (exists w', syncAzureKeyVaultSecret (R := unit) "ns/foo" outputGone = Panicked w')
      /\ forall m o,
           nth_error (heap outputGone) m = Some o -> hasOutputDefined o = true ->
           exists w',
             dispatch (OnUpdate (PAkvs (Addr m)) (PAkvs (Addr 0))) outputGone = Next tt w'
             /\ In (namespaceKey (resource "2" "" "" "secret" [] noStatus))
                  (items (crdQueue w'))).
Proof.
  apply (@C10_output_reconciler_needs_an_output collab outputGone "ns/foo" 0
           (resource "2" "" "" "secret" [] noStatus)).
  - exists "ns", "foo". split; reflexivity.
  - reflexivity.
Defined.


(** *** Runs of the further properties *)

Lemma X1_witness :
  exists w',
    dispatch (OnAdd (PAkvs (Addr 0))) staleSecret = Next tt w'
    /\ crdQueue w' = Queue_Add "ns/foo" (crdQueue staleSecret)
    /\ In "ns/foo" (items (crdQueue w'))
    /\ vaultQueue w' = vaultQueue staleSecret.
Proof.
  apply (@X1_add_enqueues_on_structural_queue collab staleSecret 0
           (secretOnly (akv.mkStatus "password=old;" 0 "foo-secret" "" ""))).
  - reflexivity.
  - reflexivity.
Defined.

Lemma X2_witness :
  exists w',
    dispatch (OnUpdate (PAkvs (Addr 0)) (PAkvs (Addr 0))) staleSecret = Next tt w'
    /\ vaultQueue w' = Queue_Add "ns/foo" (vaultQueue staleSecret)
    /\ In "ns/foo" (items (vaultQueue w'))
    /\ crdQueue w' = crdQueue staleSecret.
Proof.
  apply (@X2_resync_goes_to_the_vault_queue collab staleSecret 0 0
           (secretOnly (akv.mkStatus "password=old;" 0 "foo-secret" "" ""))
           (secretOnly (akv.mkStatus "password=old;" 0 "foo-secret" "" ""))).
  - reflexivity.
  - reflexivity.
  - reflexivity.
  - reflexivity.
Defined.

Lemma X3_witness :
  exists w',
    dispatch (OnUpdate (PAkvs (Addr 0)) (PAkvs (Addr 1))) outputRemoved = Next tt w'
    /\ crdQueue w' = Queue_Add "ns/foo" (crdQueue outputRemoved)
    /\ In "ns/foo" (items (crdQueue w'))
    /\ vaultQueue w' = vaultQueue outputRemoved.
Proof.
  apply (@X3_change_goes_to_the_structural_queue collab outputRemoved 0 1
           (secretOnly noStatus) (resource "2" "" "" "secret" [] noStatus)).
  - reflexivity.
  - reflexivity.
  - cbn. discriminate.
  - right. reflexivity.
Defined.

Lemma X5_witness :
  convertToAzureKeyVaultSecret (PTombstone "ns/foo" (PAkvs (Addr 0))) = (Addr 0, None)
  /\ (exists w',
        dispatch (OnAdd (PTombstone "ns/foo" (PAkvs (Addr 0)))) pendingRetry = Next tt w'
        /\ crdQueue w' = Queue_Add "ns/foo" (crdQueue pendingRetry)
        /\ vaultQueue w' = vaultQueue pendingRetry)
  /\ (exists w',
        dispatch (OnDelete (PTombstone "ns/foo" (PAkvs (Addr 0)))) pendingRetry = Next tt w'
        /\ crdQueue w' = Queue_Add "ns/foo" (crdQueue pendingRetry)
        /\ vaultQueue w' = vaultQueue pendingRetry)
  /\ (exists w',
        dispatch (OnUpdate (PAkvs (Addr 0)) (PTombstone "ns/foo" (PAkvs (Addr 0))))
          pendingRetry = Next tt w'
        /\ vaultQueue w' = Queue_Add "ns/foo" (vaultQueue pendingRetry)
        /\ crdQueue w' = crdQueue pendingRetry).
Proof.
  exact (@X5_tombstone_is_enqueued_under_its_own_key collab pendingRetry "ns/foo" 0 0
           (secretOnly (akv.mkStatus "password=old;" 0 "foo-secret" "" ""))
           (secretOnly (akv.mkStatus "password=old;" 0 "foo-secret" "" ""))
           eq_refl eq_refl eq_refl).
Defined.

Lemma X7_witness :
  exists w1,
    dispatch (OnAdd (PAkvs (Addr 0))) staleSecret = Next tt w1
    /\ In "ns/foo" (items (crdQueue w1))
    /\ resolves w1 "ns/foo" 0
    /\ exists w2, getAzureKeyVaultSecret (R := unit) "ns/foo" w1 = Next (Addr 0, None) w2.
Proof.
  apply (@X7_enqueued_key_resolves collab staleSecret 0
           (secretOnly (akv.mkStatus "password=old;" 0 "foo-secret" "" ""))).
  - reflexivity.
  - reflexivity.
  - reflexivity.
  - reflexivity.
  - reflexivity.
Defined.

Lemma X8_witness :
  getAzureKeyVaultSecret (R := unit) "ns/foo/bar" staleSecret
  = Next (nil_ptr, Some (invalidKey "ns/foo/bar")) staleSecret
  /\ (exists w',
        syncAzureKeyVaultSecret (R := unit) "ns/foo/bar" staleSecret
        = Next (Some (invalidKey "ns/foo/bar")) w'
        /\ sameCluster staleSecret w' /\ sameQueues staleSecret w')
  /\ (exists w',
        syncAzureKeyVault (R := unit) "ns/foo/bar" staleSecret
        = Next (Some (invalidKey "ns/foo/bar")) w'
        /\ sameCluster staleSecret w' /\ sameQueues staleSecret w').
Proof.
  apply (@X8_malformed_key_is_returned_as_an_error collab staleSecret "ns/foo/bar").
  cbn. lia.
Defined.

Lemma X9_witness :
  (exists w',
      syncAzureKeyVaultSecret (R := unit) "ns/gone" staleSecret = Next None w'
      /\ sameCluster staleSecret w' /\ sameQueues staleSecret w'
      /\ In (ErrorLevel,
             sprintf "AzureKeyVaultSecret '%s' in work queue no longer exists"
               [ArgString "ns/gone"]) (logs w'))
  /\ (exists w',
        syncAzureKeyVault (R := unit) "ns/gone" staleSecret = Next None w'
        /\ sameCluster staleSecret w' /\ sameQueues staleSecret w'
        /\ In (ErrorLevel,
               sprintf "AzureKeyVaultSecret '%s' in work queue no longer exists"
                 [ArgString "ns/gone"]) (logs w')).
Proof.
  apply (@X9_missing_resource_ends_the_pass_with_nil collab staleSecret "ns/gone"
           "ns" "gone").
  - reflexivity.
  - reflexivity.
Defined.

Lemma X10_witness :
  exists err w',
    syncAzureKeyVaultSecret (R := unit) "ns/foo" foreignOnly = Next err w'
    /\ calls w' = calls foreignOnly /\ secrets w' = secrets foreignOnly
    /\ heap w' = heap foreignOnly
    /\ err = Some (fmt_Errorf (resourceExists "foo-secret") [])
    /\ events w'
       = [mkEvent (RefSecret foreignSecret) corev1.EventTypeNormal "Synced"
            "AzureKeyVaultSecret synced successfully";
          mkEvent (RefAkvs (Addr 0)) corev1.EventTypeWarning "ErrResourceExists"
            (resourceExists "foo-secret")].
Proof.
  exact (@X10_existing_secret_is_checked_for_ownership collab foreignOnly "ns/foo" 0
           (secretOnly noStatus) foreignSecret
           (ex_intro _ "ns" (ex_intro _ "foo" (conj eq_refl eq_refl)))
           eq_refl eq_refl eq_refl eq_refl).
Defined.

Lemma X11_witness :
  exists w',
    syncAzureKeyVault (R := unit) "ns/foo" unknownTransform
    = Next (Some (fmt_Errorf
                    (sprintf "Failed to get secret for '%s' from Azure Key Vault '%s'"
                       [ArgString "foo"; ArgString "kv"]) [])) w'
    /\ events w'
       = events unknownTransform
         ++ [mkEvent (RefAkvs (Addr 0)) corev1.EventTypeWarning "ErrAzureVault"
               (sprintf "Failed to get secret for '%s' from Azure Key Vault '%s'"
                  [ArgString "foo"; ArgString "kv"])]
    /\ calls w' = calls unknownTransform /\ heap w' = heap unknownTransform
    /\ akvsStore w' = akvsStore unknownTransform
    /\ secrets w' = secrets unknownTransform
    /\ configMaps w' = configMaps unknownTransform.
Proof.
  apply (@X11_failed_fetch_changes_nothing collab unknownTransform "ns/foo" 0
           (resource "1" "foo-secret" "foo-cm" "secret" ["rot13"] noStatus)
           (mkError StatusReasonUnknown
              (sprintf "transform type '%s' not currently supported" [ArgString "rot13"]))).
  - exists "ns", "foo". split; reflexivity.
  - reflexivity.
  - left. split; reflexivity.
Defined.

Lemma X12_witness :
  exists w',
    syncAzureKeyVault (R := unit) "ns/foo" missingSecret
    = Next (Some (fmt_Errorf "failed to get existing secret %s, error: %+v"
                    [ArgString "foo-secret";
                     ArgError (notFound "secret" "foo-secret")])) w'
    /\ calls w' = calls missingSecret ++ [SecretsGet "ns" "foo-secret"]
    /\ events w' = events missingSecret /\ heap w' = heap missingSecret
    /\ akvsStore w' = akvsStore missingSecret
    /\ secrets w' = secrets missingSecret.
Proof.
  apply (@X12_drift_with_missing_secret_stops_the_pass collab missingSecret "ns/foo" 0
           (secretOnly (akv.mkStatus "password=old;" 0 "foo-secret" "" ""))
           [("password", list_byte_of_string "p@ss")]).
  - exists "ns", "foo". split; reflexivity.
  - reflexivity.
  - reflexivity.
  - reflexivity.
  - vm_compute. discriminate.
  - reflexivity.
Defined.

Lemma X13_witness :
  exists w' q stored,
    syncAzureKeyVault (R := unit) "ns/foo" staleSecret = Next None w'
    /\ calls w'
       = calls staleSecret
         ++ [SecretsGet "ns" "foo-secret";
             SecretsUpdate "ns"
               (corev1.mkSecret (corev1.Secret_ObjectMeta ownedSecret) "Opaque"
                  [("password", list_byte_of_string "p@ss")]);
             AzureKeyVaultSecretsUpdateStatus "ns"
               (secretOnly (akv.mkStatus "password=p@ss;" 100 "foo-secret" "" ""))]
    /\ alist_get ("ns", "foo-secret") (secrets w')
       = Some (corev1.mkSecret (corev1.Secret_ObjectMeta ownedSecret) "Opaque"
                 [("password", list_byte_of_string "p@ss")])
    /\ alist_get ("ns", "foo") (akvsStore w') = Some q
    /\ nth_error (heap w') q = Some stored
    /\ akv.SecretHash (akv.Status stored) = "password=p@ss;"
    /\ akv.SecretName (akv.Status stored) = "foo-secret"
    /\ akv.Spec stored = akv.Spec (secretOnly noStatus)
    /\ events w' = events staleSecret ++ [syncedWithVault (Addr 0)].
Proof.
  exact (@X13_drift_rewrites_the_secret_then_the_status collab staleSecret "ns/foo" 0
           (secretOnly (akv.mkStatus "password=old;" 0 "foo-secret" "" ""))
           [("password", list_byte_of_string "p@ss")] ownedSecret
           (corev1.mkSecret (corev1.Secret_ObjectMeta ownedSecret) "Opaque"
              [("password", list_byte_of_string "p@ss")])
           eq_refl eq_refl eq_refl eq_refl eq_refl eq_refl
           (fun H => ltac:(vm_compute in H; discriminate H))
           eq_refl eq_refl eq_refl).
Defined.

Lemma X14_witness :
  (forall w1, syncAzureKeyVault (R := unit) "ns/foo" settledBoth <> Next None w1)
  /\ exists w',
       syncAzureKeyVault (R := unit) "ns/foo" settledBoth
       = Next (Some (conflict "azurekeyvaultsecrets" "foo")) w'
       /\ calls w'
          = calls settledBoth
            ++ [AzureKeyVaultSecretsUpdateStatus "ns"
                  (statusForSecret settled "password=p@ss;" 100);
                AzureKeyVaultSecretsUpdateStatus "ns"
                  (statusForConfigMap settled "password=p@ss;" 101)].
Proof.
  destruct (@X14_both_outputs_never_settle collab settledBoth "ns/foo" 0 settled
              eq_refl eq_refl eq_refl eq_refl eq_refl) as [Hnever Hquiet].
  split; [exact Hnever |]. apply Hquiet.
  split; intros _; eexists; split; reflexivity.
Defined.

Lemma X15_witness :
  exists err w',
    syncAzureKeyVault (R := unit) "ns/foo" staleSecret = Next err w'
    /\ (err = None -> events w' = events staleSecret ++ [syncedWithVault (Addr 0)])
    /\ (err <> None ->
        events w' = events staleSecret
        \/ exists msg,
             events w'
             = events staleSecret
               ++ [mkEvent (RefAkvs (Addr 0)) corev1.EventTypeWarning ErrAzureVault msg]).
Proof.
  apply (@X15_synced_event_exactly_when_nil collab staleSecret "ns/foo" 0
           (secretOnly (akv.mkStatus "password=old;" 0 "foo-secret" "" ""))).
  - exists "ns", "foo". split; reflexivity.
  - reflexivity.
Defined.

Lemma X17_witness :
  exists r w',
    getAzureKeyVaultSecret (R := unit) "ns/foo" staleSecret = Next r w'
    /\ getAzureKeyVaultSecretFromSecret (R := unit) ownedSecret
         (metav1.mkOwnerReference "AzureKeyVaultSecret" "foo" "uid-foo" true) staleSecret
       = Next r staleSecret
    /\ getAzureKeyVaultSecretFromConfigMap (R := unit) ownedConfigMap
         (metav1.mkOwnerReference "AzureKeyVaultSecret" "foo" "uid-foo" true) staleSecret
       = Next r staleSecret.
Proof.
  apply (@X17_owner_lookup_agrees_with_key_lookup collab staleSecret
           (secretOnly noStatus) ownedSecret ownedConfigMap
           (metav1.mkOwnerReference "AzureKeyVaultSecret" "foo" "uid-foo" true)).
  - reflexivity.
  - reflexivity.
  - reflexivity.
  - reflexivity.
  - reflexivity.
Defined.

Lemma X18_witness :
  (exists b,
      hasAzureKeyVaultSecretChangedForSecret (R := unit) secretType md5OfSecret (Addr 0)
        [("password", list_byte_of_string "p@ss")] ownedSecret staleSecret
      = Next b staleSecret
      /\ (b = false
          <-> "Opaque" = "Opaque"
              /\ ("password" = "" \/ In "password" ["password"])
              /\ "password=old;" = "password=old;"))
  /\ (exists b,
        hasAzureKeyVaultSecretChangedForConfigMap (R := unit) md5OfConfigMap (Addr 0)
          [("password", "p@ss")] ownedConfigMap staleSecret
        = Next b staleSecret
        /\ (b = false
            <-> ("password" = "" \/ In "password" ["password"])
                /\ "" = "password=p@ss;")).
Proof.
  exact (@X18_no_change_means_everything_agrees collab secretType md5OfSecret
           md5OfConfigMap staleSecret 0
           (secretOnly (akv.mkStatus "password=old;" 0 "foo-secret" "" ""))
           [("password", list_byte_of_string "p@ss")] ownedSecret
           [("password", "p@ss")] ownedConfigMap eq_refl).
Defined.

Lemma X20_witness :
  exists err w',
    syncAzureKeyVault (R := unit) "ns/foo" staleConfigMap = Next err w'
    /\ err = None
    /\ calls w'
       = calls staleConfigMap
         ++ [ConfigMapsUpdate "ns"
               (newConfigMap (configMapOnly (akv.mkStatus "" 0 "" "password=old;" "foo-cm"))
                  [("password", "p@ss")]);
             AzureKeyVaultSecretsUpdateStatus "ns"
               (configMapOnly (akv.mkStatus "" 100 "" "password=p@ss;" "foo-cm"))]
    /\ alist_get ("ns", "foo-cm") (configMaps w')
       = Some (newConfigMap (configMapOnly (akv.mkStatus "" 0 "" "password=old;" "foo-cm"))
                 [("password", "p@ss")]).
Proof.
  exact (@X20_drift_replaces_the_config_map collab staleConfigMap "ns/foo" 0
           (configMapOnly (akv.mkStatus "" 0 "" "password=old;" "foo-cm"))
           [("password", "p@ss")]
           eq_refl eq_refl eq_refl eq_refl eq_refl eq_refl
           (fun H => ltac:(vm_compute in H; discriminate H))).
Defined.

End Runs.
